(** * Shellify: command nodes, pipe composition and the run life cycle

    A shallow embedding of [shelltool.py].  A [CLITool] object is a record
    in a heap indexed by object identity; the operating system is a log of
    spawned processes and delivered signals; every method is a function in
    a small state-and-exception monad over the pair of both. *)

From Stdlib Require Import ZArith List String Ascii DecimalString Lia.
From Stdlib.Strings Require Import Byte.
From stdpp Require Import base option gmap list strings.

Open Scope string_scope.

(** ** Python values the model needs *)

(** [bytes] objects. *)
Abbreviation bytes := (list byte).

Definition LF : byte := x0a.
Definition CR : byte := x0d.

(** [bytes.splitlines()] with the default [keepends=False]: a line ends at
    LF, CR or CRLF, the terminator is dropped, and a last line that is not
    terminated is kept when it is not empty. *)
Fixpoint splitlines_from (line s : bytes) : list bytes :=
  match s with
  | [] => match line with [] => [] | _ => [line] end
  | c :: rest =>
      if Byte.eqb c LF then line :: splitlines_from [] rest
      else if Byte.eqb c CR then
        match rest with
        | c' :: rest' =>
            if Byte.eqb c' LF then line :: splitlines_from [] rest'
            else line :: splitlines_from [] rest
        | [] => [line]
        end
      else splitlines_from (line ++ [c]) rest
  end.

Definition splitlines (s : bytes) : list bytes := splitlines_from [] s.

(** Argument values whose [str()] is determined by the value. *)
Inductive atom : Type :=
| AStr (s : string)
| AInt (z : Z)
| ABool (b : bool)
| ANone.

(** [str(arg)]. *)
Definition py_str (a : atom) : string :=
  match a with
  | AStr s => s
  | AInt z => NilZero.string_of_int (Z.to_int z)
  | ABool true => "True"
  | ABool false => "False"
  | ANone => "None"
  end.

(** [str(x).encode()] for text without non-ASCII characters. *)
Definition encode (s : string) : bytes := list_byte_of_string s.

(** Object identity of a [CLITool]. *)
Abbreviation ref := nat (only parsing).

(** A right-hand operand of an operator: a command node or anything else. *)
Inductive value : Type :=
| VNode (r : ref)
| VAtom (a : atom).

(** [isinstance(other, CLITool)]. *)
Definition is_CLITool (v : value) : bool :=
  match v with VNode _ => true | VAtom _ => false end.

Inductive exn : Type :=
| TypeError (msg : string)
| RuntimeError (msg : string)
| StopIteration.

(** ** The data model *)

Inductive PipeType : Type := OUT | ERR | ALL | IN.

(** [self.pipe_in : bytes | CLITool], initially [None]. *)
Inductive pipe_source : Type :=
| PNone
| PBytes (b : bytes)
| PNode (src : ref).

(** A [threading.Thread]: it can be started once. *)
Inductive thread_state : Type := Unstarted | Alive | Finished.

Definition is_alive (t : thread_state) : bool :=
  match t with Alive => true | _ => false end.

(** The [subprocess.Popen] handle: the pid and the cached [returncode]. *)
Record Popen_handle : Type := mkPopen {
  pid_of : nat;
  returncode : option Z
}.

Record CLITool : Type := mkCLITool {
  name : string;
  process : option Popen_handle;
  pipe_in : pipe_source;
  args : list string;
  thread : thread_state;
  _stdout_thread : thread_state;
  _stderr_thread : thread_state;
  _stderr : option bytes;
  _stdout : option bytes;
  _all : option bytes;
  _stderr_buffer : bytes;
  _stdout_buffer : bytes;
  _all_buffer : bytes;
  _all_queue : list bytes;
  _stdout_queue : list bytes;
  _stderr_queue : list bytes;
  _stdin_queue : list bytes;
  pipe_in_type : PipeType;
  concurrent : bool;
  has_run : bool
}.

(** [CLITool.__init__]. *)
Definition __init__ (nm : string) : CLITool :=
  {| name := nm; process := None; pipe_in := PNone; args := [];
     thread := Unstarted; _stdout_thread := Unstarted;
     _stderr_thread := Unstarted;
     _stderr := None; _stdout := None; _all := None;
     _stderr_buffer := []; _stdout_buffer := []; _all_buffer := [];
     _all_queue := []; _stdout_queue := []; _stderr_queue := [];
     _stdin_queue := [];
     pipe_in_type := OUT; concurrent := false; has_run := false |}.

(** Attribute assignment, one setter per attribute the code assigns. *)
Definition set_process (v : option Popen_handle) (n : CLITool) : CLITool :=
  mkCLITool (name n) v (pipe_in n) (args n) (thread n) (_stdout_thread n)
    (_stderr_thread n) (_stderr n) (_stdout n) (_all n) (_stderr_buffer n)
    (_stdout_buffer n) (_all_buffer n) (_all_queue n) (_stdout_queue n)
    (_stderr_queue n) (_stdin_queue n) (pipe_in_type n) (concurrent n)
    (has_run n).

Definition set_pipe_in (v : pipe_source) (n : CLITool) : CLITool :=
  mkCLITool (name n) (process n) v (args n) (thread n) (_stdout_thread n)
    (_stderr_thread n) (_stderr n) (_stdout n) (_all n) (_stderr_buffer n)
    (_stdout_buffer n) (_all_buffer n) (_all_queue n) (_stdout_queue n)
    (_stderr_queue n) (_stdin_queue n) (pipe_in_type n) (concurrent n)
    (has_run n).

Definition set_args (v : list string) (n : CLITool) : CLITool :=
  mkCLITool (name n) (process n) (pipe_in n) v (thread n) (_stdout_thread n)
    (_stderr_thread n) (_stderr n) (_stdout n) (_all n) (_stderr_buffer n)
    (_stdout_buffer n) (_all_buffer n) (_all_queue n) (_stdout_queue n)
    (_stderr_queue n) (_stdin_queue n) (pipe_in_type n) (concurrent n)
    (has_run n).

Definition set_thread (v : thread_state) (n : CLITool) : CLITool :=
  mkCLITool (name n) (process n) (pipe_in n) (args n) v (_stdout_thread n)
    (_stderr_thread n) (_stderr n) (_stdout n) (_all n) (_stderr_buffer n)
    (_stdout_buffer n) (_all_buffer n) (_all_queue n) (_stdout_queue n)
    (_stderr_queue n) (_stdin_queue n) (pipe_in_type n) (concurrent n)
    (has_run n).

Definition set_stdout_thread (v : thread_state) (n : CLITool) : CLITool :=
  mkCLITool (name n) (process n) (pipe_in n) (args n) (thread n) v
    (_stderr_thread n) (_stderr n) (_stdout n) (_all n) (_stderr_buffer n)
    (_stdout_buffer n) (_all_buffer n) (_all_queue n) (_stdout_queue n)
    (_stderr_queue n) (_stdin_queue n) (pipe_in_type n) (concurrent n)
    (has_run n).

Definition set_stderr_thread (v : thread_state) (n : CLITool) : CLITool :=
  mkCLITool (name n) (process n) (pipe_in n) (args n) (thread n)
    (_stdout_thread n) v (_stderr n) (_stdout n) (_all n) (_stderr_buffer n)
    (_stdout_buffer n) (_all_buffer n) (_all_queue n) (_stdout_queue n)
    (_stderr_queue n) (_stdin_queue n) (pipe_in_type n) (concurrent n)
    (has_run n).

Definition set__stdout (v : option bytes) (n : CLITool) : CLITool :=
  mkCLITool (name n) (process n) (pipe_in n) (args n) (thread n)
    (_stdout_thread n) (_stderr_thread n) (_stderr n) v (_all n)
    (_stderr_buffer n) (_stdout_buffer n) (_all_buffer n) (_all_queue n)
    (_stdout_queue n) (_stderr_queue n) (_stdin_queue n) (pipe_in_type n)
    (concurrent n) (has_run n).

Definition set__all (v : option bytes) (n : CLITool) : CLITool :=
  mkCLITool (name n) (process n) (pipe_in n) (args n) (thread n)
    (_stdout_thread n) (_stderr_thread n) (_stderr n) (_stdout n) v
    (_stderr_buffer n) (_stdout_buffer n) (_all_buffer n) (_all_queue n)
    (_stdout_queue n) (_stderr_queue n) (_stdin_queue n) (pipe_in_type n)
    (concurrent n) (has_run n).

Definition set_stderr_buffer (v : bytes) (n : CLITool) : CLITool :=
  mkCLITool (name n) (process n) (pipe_in n) (args n) (thread n)
    (_stdout_thread n) (_stderr_thread n) (_stderr n) (_stdout n) (_all n)
    v (_stdout_buffer n) (_all_buffer n) (_all_queue n)
    (_stdout_queue n) (_stderr_queue n) (_stdin_queue n) (pipe_in_type n)
    (concurrent n) (has_run n).

Definition set_stdout_buffer (v : bytes) (n : CLITool) : CLITool :=
  mkCLITool (name n) (process n) (pipe_in n) (args n) (thread n)
    (_stdout_thread n) (_stderr_thread n) (_stderr n) (_stdout n) (_all n)
    (_stderr_buffer n) v (_all_buffer n) (_all_queue n)
    (_stdout_queue n) (_stderr_queue n) (_stdin_queue n) (pipe_in_type n)
    (concurrent n) (has_run n).

Definition set_all_buffer (v : bytes) (n : CLITool) : CLITool :=
  mkCLITool (name n) (process n) (pipe_in n) (args n) (thread n)
    (_stdout_thread n) (_stderr_thread n) (_stderr n) (_stdout n) (_all n)
    (_stderr_buffer n) (_stdout_buffer n) v (_all_queue n)
    (_stdout_queue n) (_stderr_queue n) (_stdin_queue n) (pipe_in_type n)
    (concurrent n) (has_run n).

Definition set_all_queue (v : list bytes) (n : CLITool) : CLITool :=
  mkCLITool (name n) (process n) (pipe_in n) (args n) (thread n)
    (_stdout_thread n) (_stderr_thread n) (_stderr n) (_stdout n) (_all n)
    (_stderr_buffer n) (_stdout_buffer n) (_all_buffer n) v
    (_stdout_queue n) (_stderr_queue n) (_stdin_queue n) (pipe_in_type n)
    (concurrent n) (has_run n).

Definition set_stdout_queue (v : list bytes) (n : CLITool) : CLITool :=
  mkCLITool (name n) (process n) (pipe_in n) (args n) (thread n)
    (_stdout_thread n) (_stderr_thread n) (_stderr n) (_stdout n) (_all n)
    (_stderr_buffer n) (_stdout_buffer n) (_all_buffer n) (_all_queue n)
    v (_stderr_queue n) (_stdin_queue n) (pipe_in_type n)
    (concurrent n) (has_run n).

Definition set_stderr_queue (v : list bytes) (n : CLITool) : CLITool :=
  mkCLITool (name n) (process n) (pipe_in n) (args n) (thread n)
    (_stdout_thread n) (_stderr_thread n) (_stderr n) (_stdout n) (_all n)
    (_stderr_buffer n) (_stdout_buffer n) (_all_buffer n) (_all_queue n)
    (_stdout_queue n) v (_stdin_queue n) (pipe_in_type n)
    (concurrent n) (has_run n).

Definition set_pipe_in_type (v : PipeType) (n : CLITool) : CLITool :=
  mkCLITool (name n) (process n) (pipe_in n) (args n) (thread n)
    (_stdout_thread n) (_stderr_thread n) (_stderr n) (_stdout n) (_all n)
    (_stderr_buffer n) (_stdout_buffer n) (_all_buffer n) (_all_queue n)
    (_stdout_queue n) (_stderr_queue n) (_stdin_queue n) v
    (concurrent n) (has_run n).

Definition set_concurrent (v : bool) (n : CLITool) : CLITool :=
  mkCLITool (name n) (process n) (pipe_in n) (args n) (thread n)
    (_stdout_thread n) (_stderr_thread n) (_stderr n) (_stdout n) (_all n)
    (_stderr_buffer n) (_stdout_buffer n) (_all_buffer n) (_all_queue n)
    (_stdout_queue n) (_stderr_queue n) (_stdin_queue n) (pipe_in_type n)
    v (has_run n).

Definition set_has_run (v : bool) (n : CLITool) : CLITool :=
  mkCLITool (name n) (process n) (pipe_in n) (args n) (thread n)
    (_stdout_thread n) (_stderr_thread n) (_stderr n) (_stdout n) (_all n)
    (_stderr_buffer n) (_stdout_buffer n) (_all_buffer n) (_all_queue n)
    (_stdout_queue n) (_stderr_queue n) (_stdin_queue n) (pipe_in_type n)
    (concurrent n) v.

(** ** The operating system *)

Inductive signal : Type := SIGTERM.

(** What the program can tell about a spawned process: the command string
    and the [shell] flag [Popen] was given, the writes its stdin pipe has
    received, whether that pipe was closed, and the exit status once it has
    exited. *)
Record os_process : Type := mkProc {
  cmd : string;
  shell : bool;
  stdin_data : list bytes;
  stdin_closed : bool;
  status : option Z
}.

(** Processes in spawn order (the pid is the position) and the signals
    delivered so far. *)
Record OS : Type := mkOS {
  procs : list os_process;
  signals : list (nat * signal)
}.

Definition os_spawn (c : string) (sh : bool) (o : OS) : nat * OS :=
  (List.length (procs o),
   mkOS (procs o ++ [mkProc c sh [] false None]) (signals o)).

Definition proc_write (ls : list bytes) (p : os_process) : os_process :=
  mkProc (cmd p) (shell p) (stdin_data p ++ ls) (stdin_closed p) (status p).

Definition proc_exit (c : Z) (p : os_process) : os_process :=
  mkProc (cmd p) (shell p) (stdin_data p) (stdin_closed p) (Some c).

Definition os_alter (f : os_process -> os_process) (k : nat) (o : OS) : OS :=
  mkOS (alter f k (procs o)) (signals o).

Definition os_status (k : nat) (o : OS) : option Z :=
  match procs o !! k with Some p => status p | None => None end.

Definition os_kill (k : nat) (s : signal) (o : OS) : OS :=
  mkOS (procs o) (signals o ++ [(k, s)]).

(** ** Heap, world and the method monad *)

Record world : Type := mkWorld {
  heap : gmap nat CLITool;
  os : OS
}.

(** How a call ends: it returns, it raises, it blocks for ever, or the
    model has no answer (recursion budget used up, or a reference to an
    object that was never created). *)
Inductive outcome (A : Type) : Type :=
| Ret (a : A) (w : world)
| Exc (e : exn) (w : world)
| Hang (w : world)
| Abort.

Arguments Ret {A} a w.
Arguments Exc {A} e w.
Arguments Hang {A} w.
Arguments Abort {A}.

Definition M (A : Type) : Type := world -> outcome A.

Definition ret {A} (a : A) : M A := fun w => Ret a w.

Definition bind {A B} (m : M A) (k : A -> M B) : M B :=
  fun w =>
    match m w with
    | Ret a w' => k a w'
    | Exc e w' => Exc e w'
    | Hang w' => Hang w'
    | Abort => Abort
    end.

Definition raise {A} (e : exn) : M A := fun w => Exc e w.

Notation "'let*' x := m 'in' k" := (bind m (fun x => k))
  (at level 10, x name, m at level 100, k at level 200).
Notation "m >> k" := (bind m (fun _ => k))
  (at level 100, k at level 200, right associativity).

(** The world an outcome leaves behind. *)
Definition world_of {A} (o : outcome A) : option world :=
  match o with
  | Ret _ w | Exc _ w | Hang w => Some w
  | Abort => None
  end.

Definition get_node (r : ref) : M CLITool :=
  fun w => match heap w !! r with Some n => Ret n w | None => Abort end.

(** [r.attr = v], through the setter [f]. *)
Definition assign (r : ref) (f : CLITool -> CLITool) : M unit :=
  fun w =>
    match heap w !! r with
    | Some n => Ret tt (mkWorld (<[r := f n]> (heap w)) (os w))
    | None => Abort
    end.

Definition get_os : M OS := fun w => Ret (os w) w.

Definition put_os (o : OS) : M unit := fun w => Ret tt (mkWorld (heap w) o).

(** [CLITool(name)]: a new object. *)
Definition new_CLITool (nm : string) : M ref :=
  fun w =>
    let r := fresh (dom (heap w)) in
    Ret r (mkWorld (<[r := __init__ nm]> (heap w)) (os w)).

(** [subprocess.Popen(c, shell=sh, stdout=PIPE, stderr=PIPE, stdin=PIPE)]. *)
Definition Popen (c : string) (sh : bool) : M Popen_handle :=
  let* o := get_os in
  let '(k, o') := os_spawn c sh o in
  put_os o' >> ret (mkPopen k None).

(** [p.stdin.writelines(ls)]. *)
Definition stdin_writelines (p : Popen_handle) (ls : list bytes) : M unit :=
  let* o := get_os in
  put_os (os_alter (proc_write ls) (pid_of p) o).

(** [Thread.start()] on each of the three threads of a node. *)
Definition start_error : exn := RuntimeError "threads can only be started once".

Definition thread_start (self : ref) : M unit :=
  let* n := get_node self in
  match thread n with
  | Unstarted => assign self (set_thread Alive)
  | _ => raise start_error
  end.

Definition _stdout_thread_start (self : ref) : M unit :=
  let* n := get_node self in
  match _stdout_thread n with
  | Unstarted => assign self (set_stdout_thread Alive)
  | _ => raise start_error
  end.

Definition _stderr_thread_start (self : ref) : M unit :=
  let* n := get_node self in
  match _stderr_thread n with
  | Unstarted => assign self (set_stderr_thread Alive)
  | _ => raise start_error
  end.

(** ** Queues ([queue.Queue], unbounded) *)

(** [q.put(x, False)] never fails on an unbounded queue. *)
Definition queue_put (x : bytes) (q : list bytes) : list bytes := q ++ [x].

(** ** Construction and composition *)

(** [CLITool.__call__]. *)
Definition __call__ (self : ref) (a : list atom) : M ref :=
  let* n := get_node self in
  assign self (set_args (name n :: map py_str a)) >> ret self.

(** [CLITool.__invert__]. *)
Definition __invert__ (self : ref) : M ref :=
  assign self (set_concurrent true) >> ret self.

Definition or_error : exn :=
  TypeError
    "Cant stdout pipe Shell command into type other than another shell command".

Definition matmul_error : exn :=
  TypeError
    "Cant stderr pipe Shell command into type other than another shell command".

(** [CLITool.__or__]. *)
Definition __or__ (self : ref) (other : value) : M ref :=
  match other with
  | VNode o => assign o (set_pipe_in (PNode self)) >> ret o
  | VAtom _ => raise or_error
  end.

(** [CLITool.__ror__]. *)
Definition __ror__ (self : ref) (other : atom) : M ref :=
  assign self (set_pipe_in (PBytes (encode (py_str other)))) >> ret self.

(** [CLITool.__matmul__]. *)
Definition __matmul__ (self : ref) (other : value) : M ref :=
  match other with
  | VNode o =>
      assign o (set_pipe_in (PNode self)) >>
      assign o (set_pipe_in_type ERR) >> ret o
  | VAtom _ => raise matmul_error
  end.

(** [CLITool.__mod__]. *)
Definition __mod__ (self : ref) (other : value) : M ref :=
  match other with
  | VNode o =>
      assign o (set_pipe_in (PNode self)) >>
      assign o (set_pipe_in_type ALL) >> ret o
  | VAtom _ => raise matmul_error
  end.

(** ** Life-cycle queries *)

(** [Popen.poll()] on the handle of [self]: the cached [returncode] when
    there is one, else the status the OS reports, which is then cached. *)
Definition poll (self : ref) (p : Popen_handle) : M (option Z) :=
  match returncode p with
  | Some c => ret (Some c)
  | None =>
      let* o := get_os in
      match os_status (pid_of p) o with
      | Some c =>
          assign self (set_process (Some (mkPopen (pid_of p) (Some c)))) >>
          ret (Some c)
      | None => ret None
      end
  end.

(** [CLITool.running]. *)
Definition running (self : ref) : M bool :=
  let* n := get_node self in
  match process n with
  | Some p =>
      let* r := poll self p in
      ret (match r with None => true | Some _ => false end)
  | None => ret false
  end.

(** [CLITool.stream_empty]. *)
Definition stream_empty (self : ref) : M bool :=
  let* n := get_node self in
  ret (match _stdout_queue n, _stderr_queue n with
       | [], [] => true
       | _, _ => false
       end).

(** [CLITool.return_code]. *)
Definition return_code (self : ref) : M (option Z) :=
  let* r := running self in
  let* n := get_node self in
  if negb r then
    match process n with
    | Some p => ret (returncode p)
    | None => ret None
    end
  else ret None.

(** [CLITool.pid]. *)
Definition pid (self : ref) : M (option nat) :=
  let* n := get_node self in
  ret (match process n with Some p => Some (pid_of p) | None => None end).

(** The text an f-string gives for a pid, [None] included. *)
Definition format_pid (p : option nat) : string :=
  match p with
  | Some k => NilZero.string_of_uint (Nat.to_uint k)
  | None => "None"
  end.

Definition kill_error (p : option nat) : exn :=
  RuntimeError
    ("Tried to kill process that doesnt exist with pid:(" ++ format_pid p
     ++ ").").

(** [os.kill(pid, signal.SIGTERM)]; [os.kill] wants an integer. *)
Definition os_kill_call (p : option nat) (s : signal) : M unit :=
  match p with
  | Some k => let* o := get_os in put_os (os_kill k s o)
  | None => raise (TypeError "an integer is required (got type NoneType)")
  end.

(** [CLITool.kill]. *)
Definition kill (self : ref) : M ref :=
  let* r := running self in
  if r then
    let* p := pid self in
    os_kill_call p SIGTERM >> ret self
  else
    let* p := pid self in
    raise (kill_error p).

(** ** Iteration over the captured lines *)

(** [CLITool.next_stream_line]; each [get(True)] is behind the emptiness
    test, so it finds an item. *)
Definition next_stream_line (self : ref) : M (option bytes * option bytes) :=
  let* n := get_node self in
  let* out :=
    match _stdout_queue n with
    | x :: q => assign self (set_stdout_queue q) >> ret (Some x)
    | [] => ret None
    end in
  let* n := get_node self in
  let* err :=
    match _stderr_queue n with
    | x :: q => assign self (set_stderr_queue q) >> ret (Some x)
    | [] => ret None
    end in
  ret (out, err).

(** [CLITool.__next__]. *)
Definition __next__ (self : ref) : M (option bytes * option bytes) :=
  let* n := get_node self in
  match _stdout_queue n, _stderr_queue n with
  | [], [] => raise StopIteration
  | _, _ => next_stream_line self
  end.

(** ** Running a node *)

Inductive stream : Type := Out | Err.

(** A node that [_run] has brought to the wait for its drainers. *)
Definition started (p : Popen_handle) (n : CLITool) : CLITool :=
  set_stderr_thread Alive (set_stdout_thread Alive (set_process (Some p) n)).

(** [" ".join(self.args)], the string [_run] gives to [Popen]. *)
Definition command_line (n : CLITool) : string := String.concat " " (args n).

Section Run.

(** The environment: for the process with a given pid, the chunks its two
    drainers get from [readlines()], in the order they get them, and the
    exit status of the process ([None]: it never exits). *)
Variable observe : nat -> list (stream * bytes).
Variable exit_status : nat -> option Z.

(** The body of the [for data in ...readlines()] loop of
    [_stdout_reader] and of [_stderr_reader]. *)
Definition reader_step (n : CLITool) (c : stream * bytes) : CLITool :=
  match c with
  | (Out, data) =>
      let n := set_stdout_queue (queue_put data (_stdout_queue n)) n in
      let n := set_stdout_buffer (_stdout_buffer n ++ data) n in
      let n := set_all_queue (queue_put data (_all_queue n)) n in
      set_all_buffer (_all_buffer n ++ data) n
  | (Err, data) =>
      let n := set_stderr_queue (queue_put data (_stderr_queue n)) n in
      let n := set_stderr_buffer (_stderr_buffer n ++ data) n in
      let n := set_all_queue (queue_put data (_all_queue n)) n in
      set_all_buffer (_all_buffer n ++ data) n
  end.

Definition drain (n : CLITool) (t : list (stream * bytes)) : CLITool :=
  fold_left reader_step t n.

(** The chunks that belong to a drainer that was started. *)
Definition drained_by (n : CLITool) (c : stream * bytes) : bool :=
  match fst c with
  | Out => is_alive (_stdout_thread n)
  | Err => is_alive (_stderr_thread n)
  end.

Definition joined (t : thread_state) : thread_state :=
  match t with Alive => Finished | _ => t end.

(** A node whose drainers have ended: what they got is in the queues
    and buffers, and their last [poll()] left the status [c] in the
    handle [p]. *)
Definition drainers_done (p : Popen_handle) (c : Z) (n : CLITool)
  : CLITool :=
  let t := List.filter (drained_by n) (observe (pid_of p)) in
  let n := drain n t in
  let n := set_process (Some (mkPopen (pid_of p) (Some c))) n in
  let n := set_stdout_thread (joined (_stdout_thread n)) n in
  set_stderr_thread (joined (_stderr_thread n)) n.

(** Drainers that found no process end at once. *)
Definition drainers_lost (n : CLITool) : CLITool :=
  let n := set_stdout_thread (joined (_stdout_thread n)) n in
  set_stderr_thread (joined (_stderr_thread n)) n.

(** Waiting for the drainers.  Their loops run while [poll()] gives
    [None], so the wait ends when the process has exited.  The model
    accounts for the two loops at this one point: the chunks are taken
    in the order [observe] gives. *)
Definition join_drainers (self : ref) : M unit :=
  let* n := get_node self in
  match process n with
  | Some p =>
      match exit_status (pid_of p) with
      | Some c =>
          let* o := get_os in
          put_os (os_alter (proc_exit c) (pid_of p) o) >>
          assign self (drainers_done p c)
      | None => fun w => Hang w
      end
  | None => assign self drainers_lost
  end.

(** [CLITool._kill_stream_threads]. *)
Definition _kill_stream_threads (self : ref) : M unit :=
  let* n := get_node self in
  if is_alive (_stdout_thread n) || is_alive (_stderr_thread n)
  then join_drainers self
  else ret tt.

(** The three assignments that end [_run]. *)
Definition finalize (n : CLITool) : CLITool :=
  let n :=
    if match _stdout n with
       | Some b => (List.length b <? List.length (_stdout_buffer n))%nat
       | None => true
       end
    then set__stdout (Some (_stdout_buffer n)) n else n in
  let n :=
    if match _stderr n with
       | Some b => (List.length b <? List.length (_stderr_buffer n))%nat
       | None => true
       end
    then set__stdout (Some (_stdout_buffer n)) n else n in
  set__all (Some (_all_buffer n)) n.

(** [_run] from [_kill_stream_threads()] on. *)
Definition _run_back (self : ref) : M unit :=
  _kill_stream_threads self >> assign self finalize.

(** [CLITool.finish].  A node in background mode has its execution
    thread waiting in [_run_back]; [thread.join()] is where that part
    of [_run] is accounted for. *)
Definition finish (self : ref) : M unit :=
  let* n := get_node self in
  if is_alive (thread n) then
    _kill_stream_threads self >>
    _run_back self >>
    assign self (set_thread Finished)
  else ret tt.

(** The properties [stdout], [stderr] and [all]. *)
Definition stdout (self : ref) : M (option bytes) :=
  let* n := get_node self in
  match _stdout n with
  | Some b => ret (Some b)
  | None => finish self >> let* n := get_node self in ret (_stdout n)
  end.

Definition stderr (self : ref) : M (option bytes) :=
  let* n := get_node self in
  match _stderr n with
  | Some b => ret (Some b)
  | None => finish self >> let* n := get_node self in ret (_stderr n)
  end.

Definition all (self : ref) : M (option bytes) :=
  let* n := get_node self in
  match _all n with
  | Some b => ret (Some b)
  | None => finish self >> let* n := get_node self in ret (_all n)
  end.

(** The input [_run] resolves for the node [n]: the [if isinstance]
    statement.  [run_rec] is [run] for the pipe source. *)
Definition resolve_pipe_in (run_rec : ref -> M ref) (n : CLITool)
  : M (option bytes) :=
  match pipe_in n with
  | PNode src =>
      let* s := get_node src in
      (if has_run s then ret src else run_rec src) >>
      match pipe_in_type n with
      | ERR => stderr src
      | OUT => stdout src
      | ALL => all src
      | IN => ret (Some [])
      end
  | PBytes b => ret (Some b)
  | PNone => ret None
  end.

(** [_run] up to the write to stdin.  Nothing the source runs assigns
    [pipe_in], [pipe_in_type] or [process] of [self], so they are read
    once. *)
Definition _run_front (run_rec : ref -> M ref) (self : ref) : M unit :=
  let* n := get_node self in
  let* p := Popen (command_line n) true in
  assign self (set_process (Some p)) >>
  _stdout_thread_start self >>
  _stderr_thread_start self >>
  let* input := resolve_pipe_in run_rec n in
  match input with
  | Some b => stdin_writelines p (splitlines b)
  | None => ret tt
  end.

(** [CLITool._run]. *)
Definition _run (run_rec : ref -> M ref) (self : ref) : M ref :=
  _run_front run_rec self >> _run_back self >> ret self.

(** An exception in a thread ends that thread and reaches nobody. *)
Definition in_thread (self : ref) (m : M unit) : M unit :=
  fun w =>
    match m w with
    | Exc _ w' => assign self (set_thread Finished) w'
    | o => o
    end.

(** [CLITool._run_concurrent]: the execution thread is taken to the
    point where it waits for the drainers. *)
Definition _run_concurrent (run_rec : ref -> M ref) (self : ref) : M ref :=
  thread_start self >>
  in_thread self (_run_front run_rec self) >>
  ret self.

(** [CLITool.run].  The recursion goes through the pipe source; [fuel]
    bounds its depth. *)
Fixpoint run (fuel : nat) (self : ref) : M ref :=
  match fuel with
  | O => fun _ => Abort
  | S fuel' =>
      assign self (set_has_run true) >>
      let* n := get_node self in
      if concurrent n then
        _run_concurrent (run fuel') self >> ret self
      else
        _run (run fuel') self >> finish self >> ret self
  end.

(** The node a synchronous [run] leaves behind when its process, of
    pid [k], exits with status [c]. *)
Definition ran (k : nat) (c : Z) (n : CLITool) : CLITool :=
  finalize
    (drainers_done (mkPopen k None) c
       (started (mkPopen k None) (set_has_run true n))).

End Run.

(** ** Vocabulary of the statements *)

Definition is_out (c : stream * bytes) : bool :=
  match fst c with Out => true | Err => false end.

Definition is_err (c : stream * bytes) : bool :=
  match fst c with Out => false | Err => true end.

(** What a list of chunks holds, per stream and in all. *)
Definition stdout_bytes (t : list (stream * bytes)) : bytes :=
  concat (map snd (List.filter is_out t)).

Definition stderr_bytes (t : list (stream * bytes)) : bytes :=
  concat (map snd (List.filter is_err t)).

Definition all_bytes (t : list (stream * bytes)) : bytes :=
  concat (map snd t).

(** A node as [__init__] leaves it, up to its name, arguments and pipe
    binding: nothing was started and nothing was captured. *)
Definition pristine (n : CLITool) : bool :=
  match process n, thread n, _stdout_thread n, _stderr_thread n with
  | None, Unstarted, Unstarted, Unstarted =>
      match _stderr n, _stdout n, _all n with
      | None, None, None =>
          match _stderr_buffer n, _stdout_buffer n, _all_buffer n with
          | [], [], [] =>
              match _all_queue n, _stdout_queue n, _stderr_queue n with
              | [], [], [] => negb (has_run n)
              | _, _, _ => false
              end
          | _, _, _ => false
          end
      | _, _, _ => false
      end
  | _, _, _, _ => false
  end.

(** The lines [_run] writes for a pipe source that is not a node. *)
Definition literal_lines (s : pipe_source) : list bytes :=
  match s with
  | PBytes b => splitlines b
  | _ => []
  end.

(** What the selector picks from a pipe source that has run and whose
    drainers got the chunks [t]: a finalized buffer, and the stderr one
    is never assigned. *)
Definition piped_input (sel : PipeType) (t : list (stream * bytes))
  : option bytes :=
  match sel with
  | OUT => Some (stdout_bytes t)
  | ERR => None
  | ALL => Some (all_bytes t)
  | IN => Some []
  end.

(** The lines [_run] then writes. *)
Definition piped_lines (sel : PipeType) (t : list (stream * bytes))
  : list bytes :=
  match piped_input sel t with
  | Some b => splitlines b
  | None => []
  end.

Definition is_newline (c : byte) : bool := Byte.eqb c LF || Byte.eqb c CR.

(** The bytes of [s] that are neither LF nor CR. *)
Definition strip_newlines (s : bytes) : bytes :=
  List.filter (fun c => negb (is_newline c)) s.

(** The process with pid [k] exists, got no write on its stdin, and its
    stdin is closed. *)
Definition stdin_closed_unwritten (w : world) (k : nat) : Prop :=
  exists p, procs (os w) !! k = Some p /\
            stdin_data p = [] /\ stdin_closed p = true.

(** The same with stdin left open. *)
Definition stdin_open_unwritten (w : world) (k : nat) : Prop :=
  exists p, procs (os w) !! k = Some p /\
            stdin_data p = [] /\ stdin_closed p = false.

(** The process with pid [k] was spawned from the command [c] under the
    shell. *)
Definition spawned_as (c : string) (w : world) (k : nat) : Prop :=
  exists p, procs (os w) !! k = Some p /\ cmd p = c /\ shell p = true.

(** A node after an iteration step: each queue has lost its head. *)
Definition popped (n : CLITool) : CLITool :=
  set_stderr_queue (tail (_stderr_queue n))
    (set_stdout_queue (tail (_stdout_queue n)) n).

(** ** Worlds and environments of the examples *)

Definition no_os : OS := mkOS [] [].

Definition line (s : string) : bytes := encode s ++ [LF].

Definition exits_zero (k : nat) : option Z := Some 0%Z.

(** A node whose process, of pid 7, is running, next to a node that was
    never run. *)
Definition live_node : CLITool :=
  started (mkPopen 7 None) (set_has_run true (__init__ "sleep")).

Definition live_world : world :=
  mkWorld (<[1 := __init__ "ls"]> {[0 := live_node]})
    (mkOS (replicate 8 (mkProc "sleep 60" true [] false None)) []).

(** [live_world] once the process of pid 7 has exited with status 3 and
    the handle of the node has seen it. *)
Definition exited_world : world :=
  mkWorld
    (<[0 := set_process (Some (mkPopen 7 (Some 3%Z))) live_node]>
       (heap live_world))
    (os_alter (proc_exit 3) 7 (os live_world)).

(** One pristine node, [echo hi], whose process writes a line on each
    stream. *)
Definition echo_node : CLITool := set_args ["echo"; "hi"] (__init__ "echo").

Definition echo_world : world := mkWorld {[0 := echo_node]} no_os.

Definition both_streams (k : nat) : list (stream * bytes) :=
  match k with
  | 0 => [(Out, line "out"); (Err, line "oops")]
  | _ => []
  end.

(** [echo_world] after [run()] on its node. *)
Definition echo_world_ran : world :=
  Eval vm_compute in
    match run both_streams exits_zero 1 0 echo_world with
    | Ret _ w => w
    | _ => echo_world
    end.

(** [echo_world] after [_run()] on its node. *)
Definition echo_world_started : world :=
  Eval vm_compute in
    match _run both_streams exits_zero (run both_streams exits_zero 0) 0
            echo_world with
    | Ret _ w => w
    | _ => echo_world
    end.

(** [echo_world] after the node was given the arguments ["a b"] and [3]
    and started. *)
Definition echo_world_spaced : world :=
  Eval vm_compute in
    match
      (let* _ := __call__ 0 [AStr "a b"; AInt 3] in
       _run both_streams exits_zero (run both_streams exits_zero 1) 0)
        echo_world
    with
    | Ret _ w => w
    | _ => echo_world
    end.

(** Three pristine nodes: [seq 2] at 0, [cat] at 1 and [ls] at 2.  When
    node 1 is run with node 0 as its pipe source, [cat] is spawned first
    (pid 0) and [seq 2] second (pid 1). *)
Definition seq_node : CLITool := set_args ["seq"; "2"] (__init__ "seq").

Definition cat_node : CLITool := set_args ["cat"] (__init__ "cat").

Definition pipe_world : world :=
  mkWorld (<[2 := __init__ "ls"]> (<[1 := cat_node]> {[0 := seq_node]}))
    no_os.

Definition seq_output (k : nat) : list (stream * bytes) :=
  match k with
  | 1 => [(Out, line "1"); (Err, line "e"); (Out, line "2")]
  | _ => []
  end.

(** A node with one line waiting in its stdout queue. *)
Definition queued_node : CLITool :=
  set_stdout_queue [line "a"] (__init__ "echo").

Definition queued_world : world := mkWorld {[0 := queued_node]} no_os.

(** ** Invariants of calls *)

(** [I] survives the call [m], however the call ends. *)
Definition stable {A} (I : world -> Prop) (m : M A) : Prop :=
  forall w w', I w -> world_of (m w) = Some w' -> I w'.

(** A property of the OS that no operation the program performs on it can
    break. *)
Record os_invariant (J : OS -> Prop) : Prop := mkOsInvariant {
  inv_spawn : forall c sh o, J o -> J (snd (os_spawn c sh o));
  inv_write : forall ls k o, J o -> J (os_alter (proc_write ls) k o);
  inv_exit : forall c k o, J o -> J (os_alter (proc_exit c) k o);
  inv_kill : forall k s o, J o -> J (os_kill k s o)
}.

Definition on_os (J : OS -> Prop) (w : world) : Prop := J (os w).

(** The node at [b] is [nb]. *)
Definition holds (b : ref) (nb : CLITool) (w : world) : Prop :=
  heap w !! b = Some nb.

(** ** Consuming the iterator *)

(** [CLITool.__iter__]. *)
Definition __iter__ (self : ref) : M ref := ret self.

(** [for pair in node]: [__next__] is called until it raises
    [StopIteration]; [fuel] bounds the number of calls. *)
Fixpoint iterate (fuel : nat) (self : ref)
  : M (list (option bytes * option bytes)) :=
  match fuel with
  | O => fun _ => Abort
  | S fuel' =>
      fun w =>
        match __next__ self w with
        | Ret item w' =>
            (let* rest := iterate fuel' self in ret (item :: rest)) w'
        | Exc StopIteration w' => Ret [] w'
        | Exc e w' => Exc e w'
        | Hang w' => Hang w'
        | Abort => Abort
        end
  end.

(** The pairs of the items of two queues, position by position, with
    [None] where the shorter queue has ended. *)
Fixpoint zip_longest (a b : list bytes)
  : list (option bytes * option bytes) :=
  match a with
  | [] => map (fun y => (None, Some y)) b
  | x :: a' =>
      match b with
      | [] => (Some x, None) :: zip_longest a' []
      | y :: b' => (Some x, Some y) :: zip_longest a' b'
      end
  end.

(** The buffer of each stream is the concatenation of what was put on
    the queue of that stream.  Each of the two pairs is written by one
    reader thread only. *)
Definition stream_buffers_match_queues (n : CLITool) : Prop :=
  _stdout_buffer n = concat (_stdout_queue n) /\
  _stderr_buffer n = concat (_stderr_queue n).

(** The finalized buffer of the pipe source [src] that the selector
    picks; the [stdout], [stderr] and [all] properties give these
    attributes when the execution thread of [src] is not alive. *)
Definition selected_buffer (sel : PipeType) (src : CLITool) : option bytes :=
  match sel with
  | OUT => _stdout src
  | ERR => _stderr src
  | ALL => _all src
  | IN => Some []
  end.

(** The lines [writelines] is given for an input that may be absent. *)
Definition lines_of (input : option bytes) : list bytes :=
  match input with
  | Some b => splitlines b
  | None => []
  end.

(** Every pipe source in the heap is an object of the heap. *)
Definition closed (w : world) : Prop :=
  forall r n src,
    heap w !! r = Some n -> pipe_in n = PNode src -> is_Some (heap w !! src).

(** [l] lists every node that has not run. *)
Definition lists_unrun (l : list nat) (w : world) : Prop :=
  forall r n, heap w !! r = Some n -> has_run n = false -> In r l.

(** Every object of the heap [h0] is an object of [w]. *)
Definition keeps_objects (h0 : gmap nat CLITool) (w : world) : Prop :=
  forall r, is_Some (h0 !! r) -> is_Some (heap w !! r).

(** The call [m] gives an answer in every world that has the objects of
    [h0]. *)
Definition answers {A} (h0 : gmap nat CLITool) (m : M A) : Prop :=
  forall w, keeps_objects h0 w -> m w <> Abort.

(** No operation on the OS that [run], [finish] and the properties
    perform can break [J]: they spawn, write to a stdin and record an
    exit, and nothing else. *)
Record run_invariant (J : OS -> Prop) : Prop := mkRunInvariant {
  rinv_spawn : forall c sh o, J o -> J (snd (os_spawn c sh o));
  rinv_write : forall ls k o, J o -> J (os_alter (proc_write ls) k o);
  rinv_exit : forall c k o, J o -> J (os_alter (proc_exit c) k o)
}.


(** ** More worlds for the examples *)

(** [echo_world] with its node in background mode, after [run()]. *)
Definition echo_world_background : world :=
  Eval vm_compute in
    match
      (let* _ := __invert__ 0 in run both_streams exits_zero 1 0) echo_world
    with
    | Ret _ w => w
    | _ => echo_world
    end.

(** The same after the first read of [stdout]. *)
Definition echo_world_background_read : world :=
  Eval vm_compute in
    match stdout both_streams exits_zero 0 echo_world_background with
    | Ret _ w => w
    | _ => echo_world
    end.

(** [pipe_world] after [seq 2] has run; then its process is pid 0. *)
Definition seq_first (k : nat) : list (stream * bytes) :=
  match k with
  | 0 => [(Out, line "1"); (Err, line "e"); (Out, line "2")]
  | _ => []
  end.

Definition pipe_world_seq_ran : world :=
  Eval vm_compute in
    match run seq_first exits_zero 1 0 pipe_world with
    | Ret _ w => w
    | _ => pipe_world
    end.

(** A node bound to itself. *)
Definition loop_node : CLITool := set_pipe_in (PNode 0) cat_node.

Definition loop_world : world := mkWorld {[0 := loop_node]} no_os.

(** [pipe_world] after [seq | cat]. *)
Definition pipe_world_bound : world :=
  mkWorld (<[1 := set_pipe_in (PNode 0) cat_node]> (heap pipe_world))
    (os pipe_world).

(** [pipe_world_seq_ran] after [seq | cat] and [run()] on [cat]. *)
Definition pipe_world_then_cat : world :=
  Eval vm_compute in
    match
      (let* _ := __or__ 0 (VNode 1) in run seq_first (fun _ => Some 3%Z) 1 1)
        pipe_world_seq_ran
    with
    | Ret _ w => w
    | _ => pipe_world
    end.

(** [live_world] with a signal in the log of the OS, and that world after
    [run()] on its second node. *)
Definition signalled_world : world :=
  mkWorld (heap live_world) (os_kill 7 SIGTERM (os live_world)).

Definition signalled_world_ran : world :=
  Eval vm_compute in
    match run both_streams exits_zero 1 1 signalled_world with
    | Ret _ w => w
    | _ => signalled_world
    end.

(** [pipe_world_seq_ran] after [run()] on [cat], which has no pipe
    source there. *)
Definition pipe_world_both_ran : world :=
  Eval vm_compute in
    match run seq_first exits_zero 1 1 pipe_world_seq_ran with
    | Ret _ w => w
    | _ => pipe_world
    end.

(** Two nodes, each the pipe source of the other. *)
Definition ring_world : world :=
  mkWorld
    (<[1 := set_pipe_in (PNode 0) cat_node]>
       {[0 := set_pipe_in (PNode 1) seq_node]})
    no_os.

(** A world with a node that was never called, and the world [_run]
    leaves. *)
Definition bare_world : world := mkWorld {[0 := __init__ "ls"]} no_os.

Definition bare_world_started : world :=
  Eval vm_compute in
    match _run both_streams exits_zero (run both_streams exits_zero 0) 0
            bare_world with
    | Ret _ w => w
    | _ => bare_world
    end.

(** The node of [echo_world_background]. *)
Definition echo_background_node : CLITool :=
  started (mkPopen 0 None)
    (set_thread Alive (set_has_run true (set_concurrent true echo_node))).

(** A node with two lines waiting on stdout and one on stderr. *)
Definition uneven_node : CLITool :=
  set_stderr_queue [line "e"]
    (set_stdout_queue [line "a"; line "b"] (__init__ "echo")).

Definition uneven_world : world := mkWorld {[0 := uneven_node]} no_os.

(** * Proofs *)

Open Scope list_scope.

(** ** Stepping through the monad *)

Lemma bind_Ret {A B} (m : M A) (k : A -> M B) w a w1 :
  m w = Ret a w1 -> bind m k w = k a w1.
Proof. intros H. unfold bind. now rewrite H. Qed.

Lemma bind_Exc {A B} (m : M A) (k : A -> M B) w e w1 :
  m w = Exc e w1 -> bind m k w = Exc e w1.
Proof. intros H. unfold bind. now rewrite H. Qed.

Lemma bind_Ret_inv {A B} (m : M A) (k : A -> M B) w b w' :
  bind m k w = Ret b w' -> exists a w1, m w = Ret a w1 /\ k a w1 = Ret b w'.
Proof.
  unfold bind. destruct (m w) as [a w1|e w1|w1|]; try discriminate.
  intros H. now exists a, w1.
Qed.

Lemma bind_world_inv {A B} (m : M A) (k : A -> M B) w w' :
  world_of (bind m k w) = Some w' ->
  world_of (m w) = Some w' \/
  exists a w1, m w = Ret a w1 /\ world_of (k a w1) = Some w'.
Proof.
  unfold bind. destruct (m w) as [a w1|e w1|w1|]; intros H;
    [right; eauto|left; exact H..].
Qed.

Lemma get_node_Some r n w : heap w !! r = Some n -> get_node r w = Ret n w.
Proof. intros H. unfold get_node. now rewrite H. Qed.

Lemma get_node_Ret_inv r n w w' :
  get_node r w = Ret n w' -> w' = w /\ heap w !! r = Some n.
Proof.
  unfold get_node. destruct (heap w !! r); [|discriminate].
  intros H; injection H as -> ->. auto.
Qed.

Lemma assign_Some r f n w :
  heap w !! r = Some n ->
  assign r f w = Ret tt (mkWorld (<[r := f n]> (heap w)) (os w)).
Proof. intros H. unfold assign. now rewrite H. Qed.

Lemma Popen_eq c sh w :
  Popen c sh w =
  Ret (mkPopen (List.length (procs (os w))) None)
      (mkWorld (heap w)
         (mkOS (procs (os w) ++ [mkProc c sh [] false None])
               (signals (os w)))).
Proof. reflexivity. Qed.

(** ** [splitlines] drops every line terminator *)

Lemma concat_splitlines_from n : forall s line,
  List.length s <= n ->
  concat (splitlines_from line s) = line ++ strip_newlines s.
Proof.
  induction n as [|n IH]; intros s line Hs.
  - destruct s; [|cbn in Hs; lia]. cbn.
    destruct line; cbn; now rewrite ?app_nil_r.
  - destruct s as [|c rest]; cbn [splitlines_from].
    + destruct line; cbn; now rewrite ?app_nil_r.
    + cbn in Hs. unfold strip_newlines. cbn [List.filter].
      unfold is_newline at 1.
      destruct (Byte.eqb c LF) eqn:E1.
      * cbn. f_equal. rewrite (IH rest []) by lia. reflexivity.
      * destruct (Byte.eqb c CR) eqn:E2.
        -- cbn [orb negb]. destruct rest as [|c' rest'].
           ++ cbn. now rewrite app_nil_r.
           ++ destruct (Byte.eqb c' LF) eqn:E3.
              ** cbn [concat]. f_equal. cbn in Hs.
                 rewrite (IH rest' []) by lia. cbn [List.filter app].
                 unfold is_newline at 1. now rewrite E3.
              ** cbn [concat]. f_equal.
                 rewrite (IH (c' :: rest') []) by lia. reflexivity.
        -- cbn [orb negb]. rewrite (IH rest (line ++ [c])) by lia.
           now rewrite <- app_assoc.
Qed.

Lemma concat_splitlines s : concat (splitlines s) = strip_newlines s.
Proof. apply (concat_splitlines_from (List.length s) s []). lia. Qed.

Lemma strip_newlines_length s :
  List.length (strip_newlines s) <= List.length s.
Proof. unfold strip_newlines. apply List.filter_length_le. Qed.

(** ** Invariants *)

Lemma stable_ret {A} I (a : A) : stable I (ret a).
Proof. intros w w' H E. cbn in E. now injection E as <-. Qed.

Lemma stable_raise {A} I e : stable I (@raise A e).
Proof. intros w w' H E. cbn in E. now injection E as <-. Qed.

Lemma stable_hang {A} I : stable I (fun w => @Hang A w).
Proof. intros w w' H E. cbn in E. now injection E as <-. Qed.

Lemma stable_abort {A} I : stable I (fun _ => @Abort A).
Proof. intros w w' H E. discriminate. Qed.

Lemma stable_bind_with {A B} I (m : M A) (k : A -> M B) :
  stable I m ->
  (forall w a w1, I w -> m w = Ret a w1 ->
     forall w', world_of (k a w1) = Some w' -> I w') ->
  stable I (bind m k).
Proof.
  intros Hm Hk w w' HI E. unfold bind in E.
  destruct (m w) as [a w1|e w1|w1|] eqn:Em.
  - eapply Hk; eauto.
  - apply (Hm w w' HI). rewrite Em. exact E.
  - apply (Hm w w' HI). rewrite Em. exact E.
  - discriminate.
Qed.

Lemma stable_bind {A B} I (m : M A) (k : A -> M B) :
  stable I m -> (forall a, stable I (k a)) -> stable I (bind m k).
Proof.
  intros Hm Hk. apply stable_bind_with; [exact Hm|].
  intros w a w1 HI Em w' E. apply (Hk a w1 w'); [|exact E].
  apply (Hm w w1 HI). now rewrite Em.
Qed.

Lemma stable_get_node I r : stable I (get_node r).
Proof.
  intros w w' H E. unfold get_node in E.
  destruct (heap w !! r); [|discriminate]. cbn in E. now injection E as <-.
Qed.

Lemma stable_get_os I : stable I get_os.
Proof. intros w w' H E. cbn in E. now injection E as <-. Qed.

Create HintDb stable.
#[local] Hint Resolve stable_ret stable_raise stable_hang stable_abort
  stable_get_node stable_get_os : stable.

Ltac stable_step :=
  match goal with
  | |- stable _ (bind _ _) => apply stable_bind; [|intros ?]
  | |- stable _ (match ?x with _ => _ end) => destruct x
  | |- stable _ (let '(_, _) := ?x in _) => destruct x
  | |- stable _ _ => solve [auto with stable]
  end.

Ltac stable_auto := repeat stable_step.

Section OsInvariant.

Variable observe : nat -> list (stream * bytes).
Variable exit_status : nat -> option Z.
Variable J : OS -> Prop.
Hypothesis HJ : os_invariant J.

Lemma os_stable_assign r f : stable (on_os J) (assign r f).
Proof.
  intros w w' H E. unfold assign in E.
  destruct (heap w !! r); [|discriminate]. cbn in E.
  now injection E as <-.
Qed.

Lemma os_stable_Popen c sh : stable (on_os J) (Popen c sh).
Proof.
  intros w w' H E. rewrite Popen_eq in E. cbn in E. injection E as <-.
  apply (inv_spawn J HJ c sh (os w) H).
Qed.

Lemma os_stable_writelines p ls : stable (on_os J) (stdin_writelines p ls).
Proof.
  intros w w' H E. cbn in E. injection E as <-.
  apply (inv_write J HJ). exact H.
Qed.

Lemma os_stable_put_exit c k o :
  J o -> stable (on_os J) (put_os (os_alter (proc_exit c) k o)).
Proof.
  intros Ho w w' H E. cbn in E. injection E as <-.
  apply (inv_exit J HJ). exact Ho.
Qed.

Lemma os_stable_join_drainers self :
  stable (on_os J) (join_drainers observe exit_status self).
Proof.
  unfold join_drainers. apply stable_bind; [auto with stable|intros n].
  destruct (process n) as [p|]; [|apply os_stable_assign].
  destruct (exit_status (pid_of p)) as [c|]; [|auto with stable].
  apply stable_bind_with; [auto with stable|].
  intros w o w1 H Eo w' E. cbn in Eo. injection Eo as <- <-.
  revert E. apply stable_bind; [|intros ?; apply os_stable_assign|exact H].
  apply os_stable_put_exit. exact H.
Qed.

#[local] Hint Resolve os_stable_assign os_stable_Popen
  os_stable_writelines os_stable_join_drainers : stable.

Lemma os_stable_kill_stream_threads self :
  stable (on_os J) (_kill_stream_threads observe exit_status self).
Proof. unfold _kill_stream_threads. stable_auto. Qed.

#[local] Hint Resolve os_stable_kill_stream_threads : stable.

Lemma os_stable_run_back self :
  stable (on_os J) (_run_back observe exit_status self).
Proof. unfold _run_back. stable_auto. Qed.

#[local] Hint Resolve os_stable_run_back : stable.

Lemma os_stable_finish self :
  stable (on_os J) (finish observe exit_status self).
Proof. unfold finish. stable_auto. Qed.

#[local] Hint Resolve os_stable_finish : stable.

Lemma os_stable_stdout self :
  stable (on_os J) (stdout observe exit_status self).
Proof. unfold stdout. stable_auto. Qed.

Lemma os_stable_stderr self :
  stable (on_os J) (stderr observe exit_status self).
Proof. unfold stderr. stable_auto. Qed.

Lemma os_stable_all self :
  stable (on_os J) (all observe exit_status self).
Proof. unfold all. stable_auto. Qed.

Lemma os_stable_thread_start self : stable (on_os J) (thread_start self).
Proof. unfold thread_start. stable_auto. Qed.

Lemma os_stable_stdout_thread_start self :
  stable (on_os J) (_stdout_thread_start self).
Proof. unfold _stdout_thread_start. stable_auto. Qed.

Lemma os_stable_stderr_thread_start self :
  stable (on_os J) (_stderr_thread_start self).
Proof. unfold _stderr_thread_start. stable_auto. Qed.

#[local] Hint Resolve os_stable_stdout os_stable_stderr os_stable_all
  os_stable_thread_start os_stable_stdout_thread_start
  os_stable_stderr_thread_start : stable.

Lemma os_stable_resolve_pipe_in rr n :
  (forall r, stable (on_os J) (rr r)) ->
  stable (on_os J) (resolve_pipe_in observe exit_status rr n).
Proof. intros Hrr. unfold resolve_pipe_in. stable_auto. Qed.

#[local] Hint Resolve os_stable_resolve_pipe_in : stable.

Lemma os_stable_run_front rr self :
  (forall r, stable (on_os J) (rr r)) ->
  stable (on_os J) (_run_front observe exit_status rr self).
Proof. intros Hrr. unfold _run_front. stable_auto. Qed.

Lemma os_stable_in_thread self m :
  stable (on_os J) m -> stable (on_os J) (in_thread self m).
Proof.
  intros Hm w w' H E. unfold in_thread in E.
  destruct (m w) as [a w1|e w1|w1|] eqn:Em.
  - apply (Hm w w' H). now rewrite Em.
  - revert E. apply os_stable_assign. apply (Hm w w1 H). now rewrite Em.
  - apply (Hm w w' H). now rewrite Em.
  - discriminate.
Qed.

Lemma os_stable_run fuel : forall self,
  stable (on_os J) (run observe exit_status fuel self).
Proof.
  induction fuel as [|fuel IH]; intros self; cbn [run].
  - auto with stable.
  - pose proof (os_stable_run_front (run observe exit_status fuel)) as Hf.
    unfold _run_concurrent, _run.
    repeat first
      [ apply os_stable_in_thread
      | apply Hf; exact IH
      | stable_step ].
Qed.

End OsInvariant.

(** Two properties of the OS that nothing breaks: a process that was
    spawned stays in the log, and it keeps the command it was spawned
    with. *)
Lemma spawned_invariant k : os_invariant (fun o => k < List.length (procs o)).
Proof.
  split; intros; unfold os_alter, os_kill; cbn;
    rewrite ?length_app, ?length_alter; cbn; lia.
Qed.

Lemma command_invariant k c :
  os_invariant
    (fun o => exists p, procs o !! k = Some p /\ cmd p = c /\ shell p = true).
Proof.
  split.
  - intros c' sh o (p & Hp & Hc & Hs). exists p. cbn.
    split; [now apply lookup_app_l_Some|auto].
  - intros ls j o (p & Hp & Hc & Hs). unfold os_alter. cbn.
    destruct (decide (j = k)) as [->|Hne].
    + exists (proc_write ls p). rewrite list_lookup_alter_eq, Hp. auto.
    + exists p. rewrite list_lookup_alter_ne by exact Hne. auto.
  - intros c' j o (p & Hp & Hc & Hs). unfold os_alter. cbn.
    destruct (decide (j = k)) as [->|Hne].
    + exists (proc_exit c' p). rewrite list_lookup_alter_eq, Hp. auto.
    + exists p. rewrite list_lookup_alter_ne by exact Hne. auto.
  - intros j s o H. exact H.
Qed.

Section Frame.

Variable observe : nat -> list (stream * bytes).
Variable exit_status : nat -> option Z.

(** A node that has run and whose execution thread is not alive is left
    alone by the run of any other node. *)
Variable b : nat.
Variable nb : CLITool.
Hypothesis Hrun : has_run nb = true.
Hypothesis Hidle : is_alive (thread nb) = false.

Lemma holds_assign r f : r <> b -> stable (holds b nb) (assign r f).
Proof.
  intros Hne w w' H E. unfold assign in E.
  destruct (heap w !! r); [|discriminate]. cbn in E. injection E as <-.
  unfold holds. cbn. now rewrite lookup_insert_ne.
Qed.

Lemma holds_Popen c sh : stable (holds b nb) (Popen c sh).
Proof. intros w w' H E. cbn in E. now injection E as <-. Qed.

Lemma holds_put_os o : stable (holds b nb) (put_os o).
Proof. intros w w' H E. cbn in E. now injection E as <-. Qed.

Lemma holds_writelines p ls : stable (holds b nb) (stdin_writelines p ls).
Proof. intros w w' H E. cbn in E. now injection E as <-. Qed.

#[local] Hint Resolve holds_assign holds_Popen holds_put_os
  holds_writelines : stable.

Lemma holds_join_drainers r :
  r <> b -> stable (holds b nb) (join_drainers observe exit_status r).
Proof. intros Hne. unfold join_drainers. stable_auto. Qed.

#[local] Hint Resolve holds_join_drainers : stable.

Lemma holds_kill_stream_threads r :
  r <> b ->
  stable (holds b nb) (_kill_stream_threads observe exit_status r).
Proof. intros Hne. unfold _kill_stream_threads. stable_auto. Qed.

#[local] Hint Resolve holds_kill_stream_threads : stable.

Lemma holds_run_back r :
  r <> b -> stable (holds b nb) (_run_back observe exit_status r).
Proof. intros Hne. unfold _run_back. stable_auto. Qed.

#[local] Hint Resolve holds_run_back : stable.

Lemma holds_finish r : stable (holds b nb) (finish observe exit_status r).
Proof.
  destruct (decide (r = b)) as [->|Hne].
  - intros w w' H E. unfold finish in E.
    rewrite (bind_Ret _ _ _ _ _ (get_node_Some _ _ _ H)) in E.
    rewrite Hidle in E. cbn in E. now injection E as <-.
  - unfold finish. stable_auto.
Qed.

#[local] Hint Resolve holds_finish : stable.

Lemma holds_stdout r : stable (holds b nb) (stdout observe exit_status r).
Proof. unfold stdout. stable_auto. Qed.

Lemma holds_stderr r : stable (holds b nb) (stderr observe exit_status r).
Proof. unfold stderr. stable_auto. Qed.

Lemma holds_all r : stable (holds b nb) (all observe exit_status r).
Proof. unfold all. stable_auto. Qed.

Lemma holds_thread_start r :
  r <> b -> stable (holds b nb) (thread_start r).
Proof. intros Hne. unfold thread_start. stable_auto. Qed.

Lemma holds_stdout_thread_start r :
  r <> b -> stable (holds b nb) (_stdout_thread_start r).
Proof. intros Hne. unfold _stdout_thread_start. stable_auto. Qed.

Lemma holds_stderr_thread_start r :
  r <> b -> stable (holds b nb) (_stderr_thread_start r).
Proof. intros Hne. unfold _stderr_thread_start. stable_auto. Qed.

#[local] Hint Resolve holds_stdout holds_stderr holds_all
  holds_thread_start holds_stdout_thread_start holds_stderr_thread_start
  : stable.

(** Resolving the input runs the pipe source only when it has not run,
    so never the node at [b]. *)
Lemma holds_resolve_pipe_in rr n :
  (forall r, r <> b -> stable (holds b nb) (rr r)) ->
  stable (holds b nb) (resolve_pipe_in observe exit_status rr n).
Proof.
  intros Hrr. unfold resolve_pipe_in.
  destruct (pipe_in n) as [|i|src]; [auto with stable..|].
  apply stable_bind_with; [auto with stable|].
  intros w s w1 H Es w' E.
  apply get_node_Ret_inv in Es as [-> Hs].
  revert E. apply stable_bind; [|intros ?; stable_auto|exact H].
  destruct (decide (src = b)) as [->|Hne].
  - unfold holds in H. rewrite H in Hs. injection Hs as <-.
    rewrite Hrun. auto with stable.
  - destruct (has_run s); auto with stable.
Qed.

Lemma holds_run_front rr r :
  r <> b ->
  (forall r, r <> b -> stable (holds b nb) (rr r)) ->
  stable (holds b nb) (_run_front observe exit_status rr r).
Proof.
  intros Hne Hrr. unfold _run_front.
  repeat first [ apply holds_resolve_pipe_in; exact Hrr | stable_step ].
Qed.

Lemma holds_in_thread r m :
  r <> b -> stable (holds b nb) m -> stable (holds b nb) (in_thread r m).
Proof.
  intros Hne Hm w w' H E. unfold in_thread in E.
  destruct (m w) as [a w1|e w1|w1|] eqn:Em.
  - apply (Hm w w' H). now rewrite Em.
  - revert E. apply holds_assign; [exact Hne|].
    apply (Hm w w1 H). now rewrite Em.
  - apply (Hm w w' H). now rewrite Em.
  - discriminate.
Qed.

Lemma holds_run fuel : forall r,
  r <> b -> stable (holds b nb) (run observe exit_status fuel r).
Proof.
  induction fuel as [|fuel IH]; intros r Hne; cbn [run].
  - auto with stable.
  - pose proof (holds_run_front (run observe exit_status fuel) r Hne IH)
      as Hf.
    unfold _run_concurrent, _run.
    repeat first
      [ apply holds_in_thread; [exact Hne|]
      | exact Hf
      | stable_step ].
Qed.

End Frame.

Section RunFacts.

Variable observe : nat -> list (stream * bytes).
Variable exit_status : nat -> option Z.


Lemma alter_last (f : os_process -> os_process) (l : list os_process) x :
  alter f (List.length l) (l ++ [x]) = l ++ [f x].
Proof.
  induction l as [|y l IH]; cbn; [reflexivity|]. now f_equal.
Qed.

Lemma _run_front_literal rr self n w :
  heap w !! self = Some n ->
  _stdout_thread n = Unstarted ->
  _stderr_thread n = Unstarted ->
  (forall src, pipe_in n <> PNode src) ->
  _run_front observe exit_status rr self w =
  Ret tt
    (mkWorld
       (<[self := started (mkPopen (List.length (procs (os w))) None) n]>
          (heap w))
       (mkOS (procs (os w) ++
              [mkProc (command_line n) true (literal_lines (pipe_in n))
                 false None])
             (signals (os w)))).
Proof.
  intros Hn Ho He Hp. unfold _run_front.
  rewrite (bind_Ret _ _ _ _ _ (get_node_Some _ _ _ Hn)).
  rewrite (bind_Ret _ _ _ _ _ (Popen_eq _ _ _)).
  erewrite bind_Ret; [|apply assign_Some; exact Hn].
  erewrite bind_Ret.
  2:{ unfold _stdout_thread_start.
      erewrite bind_Ret; [|apply get_node_Some; cbn; apply lookup_insert_eq].
      cbn. rewrite Ho. apply assign_Some. cbn. apply lookup_insert_eq. }
  erewrite bind_Ret.
  2:{ unfold _stderr_thread_start.
      erewrite bind_Ret; [|apply get_node_Some; cbn; apply lookup_insert_eq].
      cbn. rewrite He. apply assign_Some. cbn. apply lookup_insert_eq. }
  cbn [heap os]. rewrite !insert_insert_eq. unfold resolve_pipe_in.
  destruct (pipe_in n) as [|b|src] eqn:E.
  - reflexivity.
  - unfold bind, ret, stdin_writelines, get_os, put_os. cbn.
    unfold os_alter. cbn. now rewrite alter_last.
  - now destruct (Hp src).
Qed.

Lemma filter_true {A} (f : A -> bool) (l : list A) :
  (forall x, f x = true) -> List.filter f l = l.
Proof.
  intros H. induction l as [|x l IH]; cbn; [reflexivity|].
  now rewrite H, IH.
Qed.

Lemma drain_eq t : forall n,
  drain n t =
  set_all_buffer (_all_buffer n ++ all_bytes t)
    (set_all_queue (_all_queue n ++ map snd t)
       (set_stderr_buffer (_stderr_buffer n ++ stderr_bytes t)
          (set_stderr_queue
             (_stderr_queue n ++ map snd (List.filter is_err t))
             (set_stdout_buffer (_stdout_buffer n ++ stdout_bytes t)
                (set_stdout_queue
                   (_stdout_queue n ++ map snd (List.filter is_out t))
                   n))))).
Proof.
  induction t as [|[s d] t IH]; intros n.
  - destruct n; cbn. now rewrite !app_nil_r.
  - change (drain n ((s, d) :: t)) with (drain (reader_step n (s, d)) t).
    rewrite IH. destruct n, s; cbn; unfold queue_put;
      now rewrite <- !app_assoc.
Qed.

Lemma _run_back_alive self n p c w :
  heap w !! self = Some n ->
  process n = Some p ->
  exit_status (pid_of p) = Some c ->
  is_alive (_stdout_thread n) || is_alive (_stderr_thread n) = true ->
  _run_back observe exit_status self w =
  Ret tt
    (mkWorld (<[self := finalize (drainers_done observe p c n)]> (heap w))
       (os_alter (proc_exit c) (pid_of p) (os w))).
Proof.
  intros Hn Hp Hc Ha. unfold _run_back, _kill_stream_threads.
  erewrite bind_Ret.
  2:{ rewrite (bind_Ret _ _ _ _ _ (get_node_Some _ _ _ Hn)).
      rewrite Ha. unfold join_drainers.
      rewrite (bind_Ret _ _ _ _ _ (get_node_Some _ _ _ Hn)).
      rewrite Hp, Hc. unfold bind, get_os, put_os, assign. cbn.
      rewrite Hn. reflexivity. }
  erewrite assign_Some by (cbn; apply lookup_insert_eq).
  cbn. now rewrite insert_insert_eq.
Qed.

Lemma finish_idle self n w :
  heap w !! self = Some n -> is_alive (thread n) = false ->
  finish observe exit_status self w = Ret tt w.
Proof.
  intros Hn Ht. unfold finish.
  rewrite (bind_Ret _ _ _ _ _ (get_node_Some _ _ _ Hn)).
  now rewrite Ht.
Qed.

Lemma pristine_fields n :
  pristine n = true ->
  process n = None /\ thread n = Unstarted /\
  _stdout_thread n = Unstarted /\ _stderr_thread n = Unstarted /\
  _stderr n = None /\ _stdout n = None /\ _all n = None /\
  _stderr_buffer n = [] /\ _stdout_buffer n = [] /\ _all_buffer n = [] /\
  _all_queue n = [] /\ _stdout_queue n = [] /\ _stderr_queue n = [] /\
  has_run n = false.
Proof.
  destruct n as [nm pr pin ar t to te se so sa bse bso bsa qa qo qe qi pt cc hr].
  unfold pristine; cbn.
  destruct pr; [discriminate|].
  destruct t; try discriminate.
  destruct to; try discriminate.
  destruct te; try discriminate.
  destruct se; [discriminate|].
  destruct so; [discriminate|].
  destruct sa; [discriminate|].
  destruct bse; [|discriminate].
  destruct bso; [|discriminate].
  destruct bsa; [|discriminate].
  destruct qa; [|discriminate].
  destruct qo; [|discriminate].
  destruct qe; [|discriminate].
  destruct hr; [discriminate|].
  intros _. repeat split.
Qed.

Lemma finalize_frame n :
  name (finalize n) = name n /\ process (finalize n) = process n /\
  pipe_in (finalize n) = pipe_in n /\ args (finalize n) = args n /\
  thread (finalize n) = thread n /\
  _stdout_thread (finalize n) = _stdout_thread n /\
  _stderr_thread (finalize n) = _stderr_thread n /\
  _stderr (finalize n) = _stderr n /\
  pipe_in_type (finalize n) = pipe_in_type n /\
  concurrent (finalize n) = concurrent n /\
  has_run (finalize n) = has_run n /\
  _stdout_queue (finalize n) = _stdout_queue n /\
  _stderr_queue (finalize n) = _stderr_queue n /\
  _all (finalize n) = Some (_all_buffer n).
Proof.
  unfold finalize.
  repeat match goal with
         | |- context [if ?b then _ else _] => destruct b
         end; cbn; repeat split.
Qed.

Lemma drainers_done_frame p c n :
  name (drainers_done observe p c n) = name n /\
  process (drainers_done observe p c n) = Some (mkPopen (pid_of p) (Some c)) /\
  pipe_in (drainers_done observe p c n) = pipe_in n /\
  args (drainers_done observe p c n) = args n /\
  thread (drainers_done observe p c n) = thread n /\
  _stdout_thread (drainers_done observe p c n) = joined (_stdout_thread n) /\
  _stderr_thread (drainers_done observe p c n) = joined (_stderr_thread n) /\
  _stderr (drainers_done observe p c n) = _stderr n /\
  _stdout (drainers_done observe p c n) = _stdout n /\
  _all (drainers_done observe p c n) = _all n /\
  pipe_in_type (drainers_done observe p c n) = pipe_in_type n /\
  concurrent (drainers_done observe p c n) = concurrent n /\
  has_run (drainers_done observe p c n) = has_run n.
Proof.
  unfold drainers_done. rewrite drain_eq. cbn. repeat split.
Qed.

Lemma ran_fields k c n :
  pristine n = true ->
  _stdout (ran observe k c n) = Some (stdout_bytes (observe k)) /\
  _stderr (ran observe k c n) = None /\
  _all (ran observe k c n) = Some (all_bytes (observe k)) /\
  process (ran observe k c n) = Some (mkPopen k (Some c)) /\
  thread (ran observe k c n) = Unstarted /\
  has_run (ran observe k c n) = true /\
  pipe_in (ran observe k c n) = pipe_in n /\
  pipe_in_type (ran observe k c n) = pipe_in_type n /\
  concurrent (ran observe k c n) = concurrent n /\
  _stdout_queue (ran observe k c n) =
    map snd (List.filter is_out (observe k)) /\
  _stderr_queue (ran observe k c n) =
    map snd (List.filter is_err (observe k)) /\
  _stdout_thread (ran observe k c n) = Finished /\
  _stderr_thread (ran observe k c n) = Finished /\
  args (ran observe k c n) = args n /\
  name (ran observe k c n) = name n.
Proof.
  intros Hf.
  destruct (pristine_fields n Hf) as
    (Hpr & Ht & Ho & He & Hse & Hso & Hsa & Hbe & Hbo & Hba & Hqa & Hqo
     & Hqe & Hr).
  unfold ran, drainers_done. rewrite drain_eq.
  rewrite filter_true by (intros [[] d]; reflexivity).
  unfold finalize. cbn. rewrite Hso. cbn. rewrite Hse. cbn.
  rewrite Hbo, Hba, Hqo, Hqe. cbn. repeat split; assumption.
Qed.

Lemma ran_stderr_buffer k c n :
  pristine n = true ->
  _stderr_buffer (ran observe k c n) = stderr_bytes (observe k).
Proof.
  intros Hf.
  destruct (pristine_fields n Hf) as
    (Hpr & Ht & Ho & He & Hse & Hso & Hsa & Hbe & Hbo & Hba & Hqa & Hqo
     & Hqe & Hr).
  unfold ran, drainers_done. rewrite drain_eq.
  rewrite filter_true by (intros [[] d]; reflexivity).
  unfold finalize. cbn. rewrite Hso. cbn. rewrite Hse. cbn.
  now rewrite Hbe.
Qed.

Lemma run_single fuel self n w c :
  heap w !! self = Some n ->
  pristine n = true ->
  concurrent n = false ->
  (forall src, pipe_in n <> PNode src) ->
  exit_status (List.length (procs (os w))) = Some c ->
  run observe exit_status (S fuel) self w =
  Ret self
    (mkWorld
       (<[self := ran observe (List.length (procs (os w))) c n]> (heap w))
       (mkOS (procs (os w) ++
              [mkProc (command_line n) true (literal_lines (pipe_in n))
                 false (Some c)])
             (signals (os w)))).
Proof.
  intros Hn Hf Hc Hp Hx.
  destruct (pristine_fields n Hf) as
    (_ & Ht & Ho & He & _).
  cbn [run].
  erewrite bind_Ret; [|apply assign_Some; exact Hn].
  erewrite bind_Ret; [|apply get_node_Some; cbn; apply lookup_insert_eq].
  cbn [concurrent set_has_run]. rewrite Hc. unfold _run.
  set (k := List.length (procs (os w))) in *.
  erewrite bind_Ret.
  2:{ erewrite bind_Ret.
      2:{ apply _run_front_literal with (n := set_has_run true n);
            [cbn; apply lookup_insert_eq | exact Ho | exact He | exact Hp]. }
      cbn [heap os procs signals]. rewrite insert_insert_eq.
      erewrite bind_Ret.
      2:{ apply _run_back_alive with
            (n := started (mkPopen k None) (set_has_run true n))
            (p := mkPopen k None) (c := c);
            [cbn; apply lookup_insert_eq | reflexivity | exact Hx
            | reflexivity]. }
      reflexivity. }
  cbn [heap os procs signals]. rewrite insert_insert_eq.
  erewrite bind_Ret.
  2:{ eapply finish_idle; [cbn; apply lookup_insert_eq|].
      fold (ran observe k c n).
      destruct (ran_fields k c n Hf) as (_ & _ & _ & _ & -> & _).
      reflexivity. }
  unfold os_alter, ret. cbn [procs signals pid_of]. subst k.
  rewrite alter_last. reflexivity.
Qed.

Lemma stdout_set r n b w :
  heap w !! r = Some n -> _stdout n = Some b ->
  stdout observe exit_status r w = Ret (Some b) w.
Proof.
  intros Hn Hb. unfold stdout.
  rewrite (bind_Ret _ _ _ _ _ (get_node_Some _ _ _ Hn)). now rewrite Hb.
Qed.

Lemma all_set r n b w :
  heap w !! r = Some n -> _all n = Some b ->
  all observe exit_status r w = Ret (Some b) w.
Proof.
  intros Hn Hb. unfold all.
  rewrite (bind_Ret _ _ _ _ _ (get_node_Some _ _ _ Hn)). now rewrite Hb.
Qed.

Lemma stderr_unset_idle r n w :
  heap w !! r = Some n -> _stderr n = None ->
  is_alive (thread n) = false ->
  stderr observe exit_status r w = Ret None w.
Proof.
  intros Hn Hb Ht. unfold stderr.
  rewrite (bind_Ret _ _ _ _ _ (get_node_Some _ _ _ Hn)). rewrite Hb.
  rewrite (bind_Ret _ _ _ _ _ (finish_idle _ _ _ Hn Ht)).
  rewrite (bind_Ret _ _ _ _ _ (get_node_Some _ _ _ Hn)).
  unfold ret. now rewrite Hb.
Qed.

Lemma alter_app_at (f : os_process -> os_process) l x r :
  alter f (List.length l) (l ++ x :: r) = l ++ f x :: r.
Proof.
  induction l as [|y l IH]; cbn; [reflexivity|]. now f_equal.
Qed.

Lemma alter_app_next (f : os_process -> os_process) l x y r :
  alter f (S (List.length l)) (l ++ x :: y :: r) = l ++ x :: f y :: r.
Proof.
  induction l as [|z l IH]; cbn; [reflexivity|]. now f_equal.
Qed.

Lemma select_ran sel a na k ca w :
  heap w !! a = Some (ran observe k ca na) ->
  pristine na = true ->
  match sel with
  | ERR => stderr observe exit_status a
  | OUT => stdout observe exit_status a
  | ALL => all observe exit_status a
  | IN => ret (Some [])
  end w = Ret (piped_input sel (observe k)) w.
Proof.
  intros Ha Hf.
  destruct (ran_fields k ca na Hf) as (Hso & Hse & Hsa & _ & Hth & _).
  destruct sel; cbn [piped_input].
  - eapply stdout_set; eassumption.
  - eapply stderr_unset_idle; [eassumption|exact Hse|now rewrite Hth].
  - eapply all_set; eassumption.
  - reflexivity.
Qed.

Lemma _run_front_piped fuel a b na nb w ca :
  a <> b ->
  heap w !! a = Some na -> heap w !! b = Some nb ->
  pristine na = true -> concurrent na = false ->
  (forall src, pipe_in na <> PNode src) ->
  _stdout_thread nb = Unstarted -> _stderr_thread nb = Unstarted ->
  pipe_in nb = PNode a ->
  exit_status (S (List.length (procs (os w)))) = Some ca ->
  _run_front observe exit_status (run observe exit_status (S fuel)) b w =
  Ret tt
    (mkWorld
       (<[a := ran observe (S (List.length (procs (os w)))) ca na]>
          (<[b := started (mkPopen (List.length (procs (os w))) None) nb]>
             (heap w)))
       (mkOS (procs (os w) ++
              [mkProc (command_line nb) true
                 (piped_lines (pipe_in_type nb)
                    (observe (S (List.length (procs (os w))))))
                 false None;
               mkProc (command_line na) true (literal_lines (pipe_in na))
                 false (Some ca)])
             (signals (os w)))).
Proof.
  intros Hab Ha Hb Hfa Hca Hpa Ho He Hpb Hxa.
  destruct (pristine_fields na Hfa)
    as (_ & _ & _ & _ & _ & _ & _ & _ & _ & _ & _ & _ & _ & Hra).
  unfold _run_front.
  rewrite (bind_Ret _ _ _ _ _ (get_node_Some _ _ _ Hb)).
  rewrite (bind_Ret _ _ _ _ _ (Popen_eq _ _ _)).
  erewrite bind_Ret; [|apply assign_Some; exact Hb].
  erewrite bind_Ret.
  2:{ unfold _stdout_thread_start.
      erewrite bind_Ret; [|apply get_node_Some; cbn; apply lookup_insert_eq].
      cbn. rewrite Ho. apply assign_Some. cbn. apply lookup_insert_eq. }
  erewrite bind_Ret.
  2:{ unfold _stderr_thread_start.
      erewrite bind_Ret; [|apply get_node_Some; cbn; apply lookup_insert_eq].
      cbn. rewrite He. apply assign_Some. cbn. apply lookup_insert_eq. }
  cbn [heap os procs signals]. rewrite !insert_insert_eq.
  unfold resolve_pipe_in. rewrite Hpb.
  fold (started (mkPopen (List.length (procs (os w))) None) nb).
  erewrite bind_Ret.
  2:{ erewrite bind_Ret.
      2:{ apply get_node_Some. cbn.
          rewrite lookup_insert_ne by congruence. exact Ha. }
      rewrite Hra.
      erewrite bind_Ret.
      2:{ apply run_single with (n := na) (c := ca);
          [cbn; rewrite lookup_insert_ne by congruence; exact Ha
          | exact Hfa | exact Hca | exact Hpa
          | cbn; rewrite length_app; cbn;
            rewrite Nat.add_1_r; exact Hxa]. }
      cbn [heap os procs signals].
      rewrite length_app. cbn [List.length]. rewrite Nat.add_1_r.
      apply select_ran with (na := na) (ca := ca);
        [cbn; apply lookup_insert_eq | exact Hfa]. }
  unfold piped_lines.
  destruct (piped_input (pipe_in_type nb) _) as [i|].
  - unfold stdin_writelines, bind, get_os, put_os, os_alter, ret.
    cbn [heap os procs signals pid_of]. rewrite <- app_assoc.
    cbn [app]. now rewrite alter_app_at.
  - unfold ret. now rewrite <- app_assoc.
Qed.

Lemma run_pipeline fuel a b na nb w ca cb :
  a <> b ->
  heap w !! a = Some na -> heap w !! b = Some nb ->
  pristine na = true -> pristine nb = true ->
  concurrent na = false -> concurrent nb = false ->
  (forall src, pipe_in na <> PNode src) ->
  pipe_in nb = PNode a ->
  exit_status (List.length (procs (os w))) = Some cb ->
  exit_status (S (List.length (procs (os w)))) = Some ca ->
  run observe exit_status (S (S fuel)) b w =
  Ret b
    (mkWorld
       (<[b := ran observe (List.length (procs (os w))) cb nb]>
          (<[a := ran observe (S (List.length (procs (os w)))) ca na]>
             (heap w)))
       (mkOS (procs (os w) ++
              [mkProc (command_line nb) true
                 (piped_lines (pipe_in_type nb)
                    (observe (S (List.length (procs (os w))))))
                 false (Some cb);
               mkProc (command_line na) true (literal_lines (pipe_in na))
                 false (Some ca)])
             (signals (os w)))).
Proof.
  intros Hab Ha Hb Hfa Hfb Hca Hcb Hpa Hpb Hxb Hxa.
  destruct (pristine_fields nb Hfb) as (_ & Ht & Ho & He & _).
  cbn [run].
  erewrite bind_Ret; [|apply assign_Some; exact Hb].
  erewrite bind_Ret; [|apply get_node_Some; cbn; apply lookup_insert_eq].
  cbn [concurrent set_has_run]. rewrite Hcb. unfold _run.
  erewrite bind_Ret.
  2:{ erewrite bind_Ret.
      2:{ apply _run_front_piped with
            (na := na) (nb := set_has_run true nb) (ca := ca);
          [ exact Hab
          | cbn; rewrite lookup_insert_ne by congruence; exact Ha
          | cbn; apply lookup_insert_eq
          | exact Hfa | exact Hca | exact Hpa | exact Ho | exact He
          | exact Hpb | exact Hxa ]. }
      cbn [heap os procs signals]. rewrite insert_insert_eq.
      erewrite bind_Ret.
      2:{ apply _run_back_alive with
            (n := started (mkPopen (List.length (procs (os w))) None)
                    (set_has_run true nb))
            (p := mkPopen (List.length (procs (os w))) None) (c := cb);
            [cbn; rewrite lookup_insert_ne by congruence;
             apply lookup_insert_eq
            | reflexivity | exact Hxb | reflexivity]. }
      reflexivity. }
  cbn [heap os procs signals].
  fold (ran observe (List.length (procs (os w))) cb nb).
  erewrite bind_Ret.
  2:{ eapply finish_idle; [cbn; apply lookup_insert_eq|].
      destruct (ran_fields (List.length (procs (os w))) cb nb Hfb)
        as (_ & _ & _ & _ & -> & _).
      reflexivity. }
  unfold os_alter, ret. cbn [procs signals pid_of].
  rewrite alter_app_at.
  f_equal. f_equal.
  rewrite (insert_insert_ne _ a b) by congruence.
  now rewrite insert_insert_eq.
Qed.

Lemma _run_back_hang self n p w :
  heap w !! self = Some n ->
  process n = Some p ->
  exit_status (pid_of p) = None ->
  is_alive (_stdout_thread n) || is_alive (_stderr_thread n) = true ->
  _run_back observe exit_status self w = Hang w.
Proof.
  intros Hn Hp Hc Ha. unfold _run_back, _kill_stream_threads.
  unfold bind at 1.
  rewrite (bind_Ret _ _ _ _ _ (get_node_Some _ _ _ Hn)).
  rewrite Ha. unfold join_drainers.
  rewrite (bind_Ret _ _ _ _ _ (get_node_Some _ _ _ Hn)).
  now rewrite Hp, Hc.
Qed.

(** A synchronous [run] that returns has seen the process it spawned
    for the node exit, and the handle of the node holds the pid [Popen]
    gave and the exit status: nothing the pipe source runs assigns
    [process] of the node. *)
Lemma sync_run_leaves_own_status fuel self n w w' :
  heap w !! self = Some n ->
  concurrent n = false ->
  is_alive (thread n) = false ->
  run observe exit_status (S fuel) self w = Ret self w' ->
  exists c n',
    exit_status (List.length (procs (os w))) = Some c /\
    heap w' !! self = Some n' /\
    process n' = Some (mkPopen (List.length (procs (os w))) (Some c)) /\
    os_status (List.length (procs (os w))) (os w') = Some c.
Proof.
  intros Hn Hc Ht H.
  cbn [run] in H.
  erewrite bind_Ret in H; [|apply assign_Some; exact Hn].
  erewrite bind_Ret in H;
    [|apply get_node_Some; cbn; apply lookup_insert_eq].
  cbn [concurrent set_has_run] in H. rewrite Hc in H.
  apply bind_Ret_inv in H as (r1 & w2 & Hrun & H).
  unfold _run in Hrun.
  apply bind_Ret_inv in Hrun as ([] & wf & Hfront & Hrun).
  apply bind_Ret_inv in Hrun as ([] & wb & Hback & Hrun).
  cbn in Hrun. injection Hrun as <- <-.
  unfold _run_front in Hfront.
  erewrite bind_Ret in Hfront;
    [|apply get_node_Some; cbn; apply lookup_insert_eq].
  rewrite (bind_Ret _ _ _ _ _ (Popen_eq _ _ _)) in Hfront.
  erewrite bind_Ret in Hfront;
    [|apply assign_Some; cbn; apply lookup_insert_eq].
  cbn [heap os procs signals] in Hfront.
  rewrite insert_insert_eq in Hfront.
  set (k := List.length (procs (os w))) in *.
  apply bind_Ret_inv in Hfront as ([] & w3 & Hso & Hfront).
  unfold _stdout_thread_start in Hso.
  erewrite bind_Ret in Hso;
    [|apply get_node_Some; cbn; apply lookup_insert_eq].
  cbn [_stdout_thread set_process set_has_run] in Hso.
  destruct (_stdout_thread n) eqn:Eo; try discriminate.
  erewrite assign_Some in Hso by (cbn; apply lookup_insert_eq).
  injection Hso as <-.
  cbn [heap os] in Hfront. rewrite insert_insert_eq in Hfront.
  apply bind_Ret_inv in Hfront as ([] & w4 & Hse & Hfront).
  unfold _stderr_thread_start in Hse.
  erewrite bind_Ret in Hse;
    [|apply get_node_Some; cbn; apply lookup_insert_eq].
  cbn [_stderr_thread set_stdout_thread set_process set_has_run] in Hse.
  destruct (_stderr_thread n) eqn:Ee; try discriminate.
  erewrite assign_Some in Hse by (cbn; apply lookup_insert_eq).
  injection Hse as <-.
  cbn [heap os] in Hfront. rewrite insert_insert_eq in Hfront.
  fold (started (mkPopen k None) (set_has_run true n)) in Hfront.
  set (n3 := started (mkPopen k None) (set_has_run true n)) in *.
  apply bind_Ret_inv in Hfront as (input & w5 & Hres & Hwrite).
  assert (H5 : holds self n3 w5).
  { eapply (holds_resolve_pipe_in observe exit_status self n3);
      [reflexivity | exact Ht | | | rewrite Hres; reflexivity].
    - intros r Hne. now apply holds_run.
    - unfold holds. cbn. apply lookup_insert_eq. }
  assert (L5 : k < List.length (procs (os w5))).
  { eapply (os_stable_resolve_pipe_in observe exit_status _
              (spawned_invariant k));
      [ | | rewrite Hres; reflexivity].
    - intros r. now apply os_stable_run, spawned_invariant.
    - unfold on_os. cbn. rewrite length_app. cbn. lia. }
  assert (Hf : holds self n3 wf /\ k < List.length (procs (os wf))).
  { destruct input as [i|]; cbn in Hwrite; injection Hwrite as <-;
      (split; [exact H5|]); [|exact L5].
    unfold os_alter. cbn. now rewrite length_alter. }
  destruct Hf as [Hf Lf].
  destruct (exit_status k) as [c|] eqn:Ex.
  - rewrite (_run_back_alive self n3 (mkPopen k None) c wf Hf eq_refl Ex
               eq_refl) in Hback.
    injection Hback as <-.
    erewrite bind_Ret in H.
    2:{ eapply finish_idle; [cbn; apply lookup_insert_eq|].
        destruct (finalize_frame (drainers_done observe (mkPopen k None) c n3))
          as (_ & _ & _ & _ & -> & _).
        destruct (drainers_done_frame (mkPopen k None) c n3)
          as (_ & _ & _ & _ & -> & _).
        exact Ht. }
    cbn in H. injection H as <-.
    exists c, (finalize (drainers_done observe (mkPopen k None) c n3)).
    split; [reflexivity|]. split; [cbn; apply lookup_insert_eq|].
    split.
    + destruct (finalize_frame (drainers_done observe (mkPopen k None) c n3))
        as (_ & -> & _).
      now destruct (drainers_done_frame (mkPopen k None) c n3)
        as (_ & -> & _).
    + unfold os_status, os_alter. cbn.
      rewrite list_lookup_alter_eq.
      destruct (lookup_lt_is_Some_2 (procs (os wf)) k Lf) as [p ->].
      reflexivity.
  - rewrite (_run_back_hang self n3 (mkPopen k None) wf Hf eq_refl Ex
               eq_refl) in Hback.
    discriminate.
Qed.

(** A synchronous [run] that returns has seen its process exit, and the
    handle holds the exit status. *)
Lemma sync_run_leaves_status fuel self n w w' :
  heap w !! self = Some n ->
  concurrent n = false ->
  is_alive (thread n) = false ->
  run observe exit_status (S fuel) self w = Ret self w' ->
  exists k c n',
    exit_status k = Some c /\ heap w' !! self = Some n' /\
    process n' = Some (mkPopen k (Some c)) /\
    os_status k (os w') = Some c.
Proof.
  intros Hn Hc Ht H.
  destruct (sync_run_leaves_own_status fuel self n w w' Hn Hc Ht H)
    as (c & n' & H1 & H2 & H3 & H4).
  now exists (List.length (procs (os w))), c, n'.
Qed.

End RunFacts.

(** ** Termination of a process: [kill] *)

Lemma running_idle self n w :
  heap w !! self = Some n -> process n = None -> running self w = Ret false w.
Proof.
  intros Hn Hp. unfold running.
  rewrite (bind_Ret _ _ _ _ _ (get_node_Some _ _ _ Hn)). now rewrite Hp.
Qed.

Lemma running_alive self n p w :
  heap w !! self = Some n -> process n = Some p -> returncode p = None ->
  os_status (pid_of p) (os w) = None -> running self w = Ret true w.
Proof.
  intros Hn Hp Hr Hs. unfold running.
  rewrite (bind_Ret _ _ _ _ _ (get_node_Some _ _ _ Hn)). rewrite Hp.
  unfold poll. rewrite Hr. unfold bind, get_os. now rewrite Hs.
Qed.

Lemma running_cached self n p c w :
  heap w !! self = Some n -> process n = Some p -> returncode p = Some c ->
  running self w = Ret false w.
Proof.
  intros Hn Hp Hr. unfold running.
  rewrite (bind_Ret _ _ _ _ _ (get_node_Some _ _ _ Hn)). rewrite Hp.
  unfold poll. now rewrite Hr.
Qed.

Lemma running_exited self n p c w :
  heap w !! self = Some n -> process n = Some p -> returncode p = None ->
  os_status (pid_of p) (os w) = Some c ->
  running self w =
  Ret false
    (mkWorld (<[self := set_process (Some (mkPopen (pid_of p) (Some c))) n]>
                (heap w)) (os w)).
Proof.
  intros Hn Hp Hr Hs. unfold running.
  rewrite (bind_Ret _ _ _ _ _ (get_node_Some _ _ _ Hn)). rewrite Hp.
  unfold poll. rewrite Hr. unfold bind at 1. unfold bind at 1.
  unfold get_os. rewrite Hs.
  now rewrite (bind_Ret _ _ _ _ _ (assign_Some _ _ _ _ Hn)).
Qed.

Lemma pid_eq self n w :
  heap w !! self = Some n ->
  pid self w =
  Ret (match process n with Some p => Some (pid_of p) | None => None end) w.
Proof.
  intros Hn. unfold pid.
  now rewrite (bind_Ret _ _ _ _ _ (get_node_Some _ _ _ Hn)).
Qed.

(** C6.  [kill()] on a node whose process is running (the handle has no
    status and the OS reports none) sends SIGTERM to the pid of the node,
    which is added at the end of the signal log, and returns the node.
    On a node that never started, or whose process has exited, it raises
    the no-such-process error whose message holds the pid of the node in
    decimal between [pid:(] and [).] ([None] when there is no process),
    and the signal log of the OS is as it was. *)
Theorem kill_signals_running_else_raises self n w :
  heap w !! self = Some n ->
  (forall p, process n = Some p -> returncode p = None ->
     os_status (pid_of p) (os w) = None ->
     kill self w =
     Ret self
       (mkWorld (heap w)
          (mkOS (procs (os w)) (signals (os w) ++ [(pid_of p, SIGTERM)])))) /\
  (process n = None ->
     kill self w =
     Exc (RuntimeError
            "Tried to kill process that doesnt exist with pid:(None).") w) /\
  (forall p c, process n = Some p -> returncode p = Some c ->
     kill self w =
     Exc (RuntimeError
            (String.append "Tried to kill process that doesnt exist with pid:("
               (String.append
                  (NilZero.string_of_uint (Nat.to_uint (pid_of p))) ").")))
       w) /\
  (forall p c, process n = Some p -> returncode p = None ->
     os_status (pid_of p) (os w) = Some c ->
     exists w',
       kill self w =
       Exc (RuntimeError
              (String.append "Tried to kill process that doesnt exist with pid:("
                 (String.append
                    (NilZero.string_of_uint (Nat.to_uint (pid_of p))) ").")))
         w' /\
       os w' = os w).
Proof.
  intros Hn. unfold kill. repeat split.
  - intros p Hp Hr Hs.
    rewrite (bind_Ret _ _ _ _ _ (running_alive _ _ _ _ Hn Hp Hr Hs)).
    rewrite (bind_Ret _ _ _ _ _ (pid_eq _ _ _ Hn)). rewrite Hp.
    reflexivity.
  - intros Hp.
    rewrite (bind_Ret _ _ _ _ _ (running_idle _ _ _ Hn Hp)).
    rewrite (bind_Ret _ _ _ _ _ (pid_eq _ _ _ Hn)). now rewrite Hp.
  - intros p c Hp Hr.
    rewrite (bind_Ret _ _ _ _ _ (running_cached _ _ _ _ _ Hn Hp Hr)).
    rewrite (bind_Ret _ _ _ _ _ (pid_eq _ _ _ Hn)). now rewrite Hp.
  - intros p c Hp Hr Hs.
    rewrite (bind_Ret _ _ _ _ _ (running_exited _ _ _ _ _ Hn Hp Hr Hs)).
    erewrite bind_Ret; [|apply pid_eq; cbn; apply lookup_insert_eq].
    cbn. eexists. split; reflexivity.
Qed.

Lemma kill_signals_running_else_raises_witness :
  kill 0 live_world =
    Ret 0 (mkWorld (heap live_world) (mkOS (procs (os live_world)) [(7, SIGTERM)]))
  /\ kill 1 live_world =
       Exc (RuntimeError
              "Tried to kill process that doesnt exist with pid:(None).")
         live_world
  /\ kill 0 exited_world =
       Exc (RuntimeError
              "Tried to kill process that doesnt exist with pid:(7).")
         exited_world.
Proof.
  split; [|split].
  - apply (proj1 (kill_signals_running_else_raises 0 live_node live_world
                    eq_refl) (mkPopen 7 None) eq_refl eq_refl eq_refl).
  - apply (proj1 (proj2 (kill_signals_running_else_raises 1 (__init__ "ls")
                           live_world eq_refl)) eq_refl).
  - apply (proj1 (proj2 (proj2 (kill_signals_running_else_raises 0
                                  (set_process (Some (mkPopen 7 (Some 3%Z)))
                                     live_node)
                                  exited_world eq_refl)))
             (mkPopen 7 (Some 3%Z)) 3%Z eq_refl eq_refl).
Defined.

(** ** Iteration *)

Lemma set_stdout_queue_same n : set_stdout_queue (_stdout_queue n) n = n.
Proof. now destruct n. Qed.

Lemma set_stderr_queue_same n : set_stderr_queue (_stderr_queue n) n = n.
Proof. now destruct n. Qed.

(** The node after one iteration step: the head of each queue is gone. *)
Lemma next_stream_line_eq self n w :
  heap w !! self = Some n ->
  next_stream_line self w =
  Ret (head (_stdout_queue n), head (_stderr_queue n))
    (mkWorld (<[self := popped n]> (heap w)) (os w)).
Proof.
  intros Hn. unfold next_stream_line, popped, bind, get_node, assign, ret.
  rewrite Hn.
  destruct n as [nm pr pin ar t to te se so sa bse bso bsa qa qo qe qi pt cc hr].
  cbn [_stdout_queue _stderr_queue].
  destruct qo as [|x qo], qe as [|y qe]; simpl;
    repeat first
      [ rewrite Hn | rewrite lookup_insert_eq | rewrite insert_insert_eq
      | progress simpl ];
    try reflexivity.
  rewrite (insert_id _ _ _ Hn). clear Hn. now destruct w.
Qed.

(** C7.  An iteration step ends the iteration exactly when the stdout
    queue and the stderr queue are both empty; otherwise it returns the
    pair of the heads of the two queues, absent for an empty queue, and
    each queue loses its head and nothing else. *)
Theorem next_stops_iff_both_queues_empty self n w :
  heap w !! self = Some n ->
  (__next__ self w = Exc StopIteration w <->
   _stdout_queue n = [] /\ _stderr_queue n = []) /\
  (~ (_stdout_queue n = [] /\ _stderr_queue n = []) ->
   __next__ self w =
   Ret (head (_stdout_queue n), head (_stderr_queue n))
     (mkWorld (<[self := popped n]> (heap w)) (os w))) /\
  _stdout_queue (popped n) = tail (_stdout_queue n) /\
  _stderr_queue (popped n) = tail (_stderr_queue n).
Proof.
  intros Hn. unfold __next__.
  rewrite (bind_Ret _ _ _ _ _ (get_node_Some _ _ _ Hn)).
  pose proof (next_stream_line_eq self n w Hn) as Hs.
  assert (Hp : _stdout_queue (popped n) = tail (_stdout_queue n) /\
               _stderr_queue (popped n) = tail (_stderr_queue n))
    by (split; reflexivity).
  destruct (_stdout_queue n) as [|x q]; destruct (_stderr_queue n) as [|y r];
    (split; [|split; [|exact Hp]]);
    try (intros _; exact Hs);
    try (rewrite Hs; split; [discriminate | intros [? ?]; discriminate]).
  - split; [auto | reflexivity].
  - intros Hne. now destruct Hne.
Qed.

Lemma next_stops_iff_both_queues_empty_witness :
  __next__ 0 queued_world =
  Ret (Some (line "a"), None)
    (mkWorld (<[0 := popped queued_node]> (heap queued_world))
       (os queued_world)).
Proof.
  apply (proj1 (proj2 (next_stops_iff_both_queues_empty 0 queued_node
                         queued_world eq_refl))).
  intros [H _]. discriminate H.
Defined.

(** ** The exit status *)

Section ReturnCode.

Variable observe : nat -> list (stream * bytes).
Variable exit_status : nat -> option Z.

Lemma return_code_cached self n p c w :
  heap w !! self = Some n -> process n = Some p -> returncode p = Some c ->
  return_code self w = Ret (Some c) w.
Proof.
  intros Hn Hp Hr. unfold return_code.
  rewrite (bind_Ret _ _ _ _ _ (running_cached _ _ _ _ _ Hn Hp Hr)).
  rewrite (bind_Ret _ _ _ _ _ (get_node_Some _ _ _ Hn)).
  cbn. now rewrite Hp, Hr.
Qed.

(** C8.  [return_code] is absent whenever [running] is true, and before
    any process was spawned.  Once the OS reports an exit status for the
    process of the node, [return_code] is that status; and after every
    synchronous [run] that returns, [return_code] is the exit status of
    the process the node spawned, which is also the status the OS
    reports for its pid. *)
Theorem return_code_absent_or_exit_status self n w :
  heap w !! self = Some n ->
  (forall w1, running self w = Ret true w1 ->
     return_code self w = Ret None w1) /\
  (process n = None -> return_code self w = Ret None w) /\
  (forall p c, process n = Some p ->
     os_status (pid_of p) (os w) = Some c ->
     returncode p = None \/ returncode p = Some c ->
     exists w1, return_code self w = Ret (Some c) w1) /\
  (forall fuel w', concurrent n = false -> is_alive (thread n) = false ->
     run observe exit_status (S fuel) self w = Ret self w' ->
     exists k c,
       pid self w' = Ret (Some k) w' /\ exit_status k = Some c /\
       os_status k (os w') = Some c /\
       return_code self w' = Ret (Some c) w').
Proof.
  intros Hn. repeat split.
  - intros w1 Hr. unfold return_code.
    rewrite (bind_Ret _ _ _ _ _ Hr).
    unfold running in Hr.
    rewrite (bind_Ret _ _ _ _ _ (get_node_Some _ _ _ Hn)) in Hr.
    destruct (process n) as [p|]; [|discriminate].
    unfold poll in Hr. destruct (returncode p); [discriminate|].
    unfold bind at 1 in Hr. unfold bind at 1 in Hr. unfold get_os in Hr.
    destruct (os_status (pid_of p) (os w)).
    + rewrite (bind_Ret _ _ _ _ _ (assign_Some _ _ _ _ Hn)) in Hr.
      discriminate.
    + injection Hr as <-.
      now rewrite (bind_Ret _ _ _ _ _ (get_node_Some _ _ _ Hn)).
  - intros Hp. unfold return_code.
    rewrite (bind_Ret _ _ _ _ _ (running_idle _ _ _ Hn Hp)).
    rewrite (bind_Ret _ _ _ _ _ (get_node_Some _ _ _ Hn)).
    cbn. now rewrite Hp.
  - intros p c Hp Hs [Hr|Hr].
    + unfold return_code.
      rewrite (bind_Ret _ _ _ _ _ (running_exited _ _ _ _ _ Hn Hp Hr Hs)).
      erewrite bind_Ret;
        [|apply get_node_Some; cbn; apply lookup_insert_eq].
      cbn. eexists. reflexivity.
    + exists w. now apply return_code_cached with (n := n) (p := p).
  - intros fuel w' Hc Ht Hrun.
    destruct (sync_run_leaves_status observe exit_status fuel self n w w'
                Hn Hc Ht Hrun) as (k & c & n' & Hx & Hn' & Hp & Hs).
    exists k, c. repeat split; [|exact Hx|exact Hs|].
    + rewrite (pid_eq _ _ _ Hn'). now rewrite Hp.
    + now apply return_code_cached with (n := n') (p := mkPopen k (Some c)).
Qed.

End ReturnCode.

Lemma return_code_absent_or_exit_status_witness :
  return_code 0 live_world = Ret None live_world
  /\ return_code 0 echo_world_ran = Ret (Some 0%Z) echo_world_ran.
Proof.
  split.
  - apply (proj1 (return_code_absent_or_exit_status both_streams exits_zero
                    0 live_node live_world eq_refl)).
    reflexivity.
  - destruct (proj2 (proj2 (proj2
                (return_code_absent_or_exit_status both_streams exits_zero
                   0 echo_node echo_world eq_refl)))
                0 echo_world_ran eq_refl eq_refl eq_refl)
      as (k & c & Hp & Hx & Hs & Hr).
    injection Hx as <-. exact Hr.
Defined.

(** ** The command line *)

Lemma string_append_assoc (s1 s2 s3 : string) :
  String.append (String.append s1 s2) s3
  = String.append s1 (String.append s2 s3).
Proof.
  induction s1 as [|c s1 IH]; [reflexivity|].
  change (String c (String.append (String.append s1 s2) s3)
          = String c (String.append s1 (String.append s2 s3))).
  now f_equal.
Qed.

Lemma join_cons sep (x y : string) (l : list string) :
  String.concat sep (x :: y :: l)
  = String.append x (String.append sep (String.concat sep (y :: l))).
Proof. reflexivity. Qed.

(** A space inside an argument and the space between two arguments are
    the same character of the command line. *)
Lemma join_space_in_argument (l r : list string) (s1 s2 : string) :
  String.concat " " (l ++ String.append s1 (String.append " " s2) :: r)
  = String.concat " " (l ++ s1 :: s2 :: r).
Proof.
  induction l as [|x l IH].
  - cbn [app]. destruct r as [|y r].
    + reflexivity.
    + rewrite (join_cons _ s1), (join_cons _ s2), join_cons.
      now rewrite !string_append_assoc.
  - destruct l as [|x' l].
    + cbn [app] in *. rewrite (join_cons _ x), (join_cons _ x).
      now rewrite IH.
    + cbn [app] in *. rewrite (join_cons _ x), (join_cons _ x).
      now rewrite IH.
Qed.

Lemma bind_assoc {A B C} (m : M A) (f : A -> M B) (g : B -> M C) w :
  bind (bind m f) g w = bind m (fun a => bind (f a) g) w.
Proof. unfold bind. now destruct (m w). Qed.

Section CommandLine.

Variable observe : nat -> list (stream * bytes).
Variable exit_status : nat -> option Z.

(** Whatever [_run] does after [Popen], the process it spawned keeps
    the command string and the shell flag it was spawned with. *)
Lemma _run_spawns fuel self n w w' :
  heap w !! self = Some n ->
  world_of (_run observe exit_status (run observe exit_status fuel) self w)
    = Some w' ->
  spawned_as (command_line n) w' (List.length (procs (os w))).
Proof.
  intros Hn E. unfold _run, _run_front in E.
  rewrite !bind_assoc in E.
  rewrite (bind_Ret _ _ _ _ _ (get_node_Some _ _ _ Hn)) in E.
  rewrite !bind_assoc in E.
  rewrite (bind_Ret _ _ _ _ _ (Popen_eq _ _ _)) in E.
  set (J := fun o : OS => exists p,
              procs o !! List.length (procs (os w)) = Some p /\
              cmd p = command_line n /\ shell p = true).
  assert (HJ : os_invariant J) by apply command_invariant.
  revert E. unfold spawned_as.
  match goal with
  | |- world_of (?m ?w0) = Some _ -> _ =>
      assert (Hst : stable (on_os J) m)
  end.
  { pose proof (os_stable_run observe exit_status J HJ fuel) as Hrun.
    pose proof (os_stable_resolve_pipe_in observe exit_status J HJ
                  (run observe exit_status fuel) n Hrun) as Hres.
    pose proof (os_stable_assign J self) as Hassign.
    pose proof (os_stable_stdout_thread_start J self) as H1.
    pose proof (os_stable_stderr_thread_start J self) as H2.
    pose proof (os_stable_run_back observe exit_status J HJ self) as H3.
    pose proof (os_stable_writelines J HJ) as H4.
    repeat first
      [ exact Hres | apply Hassign | exact H1 | exact H2 | exact H3
      | apply H4 | stable_step ]. }
  intros E. apply (Hst _ _) in E; [exact E|].
  unfold on_os. cbn.
  exists (mkProc (command_line n) true [] false None).
  split; [|split; reflexivity].
  apply list_lookup_middle. reflexivity.
Qed.

(** C9.  After [node(a1, ..., an)], the process [_run] spawns gets the
    command name and the [str()] of the arguments joined with single
    spaces, under the shell; nothing is quoted, so the command line of
    an argument with a space in it is the command line of the two
    arguments the space separates. *)
Theorem command_is_space_joined_under_shell fuel self n a w w' :
  heap w !! self = Some n ->
  world_of
    ((let* _ := __call__ self a in
      _run observe exit_status (run observe exit_status fuel) self) w)
    = Some w' ->
  spawned_as (String.concat " " (name n :: map py_str a)) w'
    (List.length (procs (os w))) /\
  forall xs s1 s2 ys,
    a = xs ++ AStr (String.append s1 (String.append " " s2)) :: ys ->
    String.concat " " (name n :: map py_str a)
    = String.concat " "
        (name n :: map py_str (xs ++ AStr s1 :: AStr s2 :: ys)).
Proof.
  intros Hn E. split.
  - unfold __call__ in E. rewrite !bind_assoc in E.
    rewrite (bind_Ret _ _ _ _ _ (get_node_Some _ _ _ Hn)) in E.
    rewrite !bind_assoc in E.
    rewrite (bind_Ret _ _ _ _ _ (assign_Some _ _ _ _ Hn)) in E.
    unfold bind at 1, ret at 1 in E.
    apply _run_spawns with (n := set_args (name n :: map py_str a) n) in E;
      [exact E | cbn; apply lookup_insert_eq].
  - intros xs s1 s2 ys ->. rewrite !map_app. cbn [map py_str].
    apply (join_space_in_argument (name n :: map py_str xs)).
Qed.

End CommandLine.

Lemma command_is_space_joined_under_shell_witness :
  spawned_as "echo a b 3" echo_world_spaced 0.
Proof.
  apply (proj1 (command_is_space_joined_under_shell both_streams exits_zero
                  1 0 echo_node [AStr "a b"; AInt 3] echo_world
                  echo_world_spaced eq_refl eq_refl)).
Defined.

(** ** Composition *)

Lemma __or__node self o no w :
  heap w !! o = Some no ->
  __or__ self (VNode o) w =
  Ret o (mkWorld (<[o := set_pipe_in (PNode self) no]> (heap w)) (os w)).
Proof.
  intros Ho. unfold __or__.
  now rewrite (bind_Ret _ _ _ _ _ (assign_Some _ _ _ _ Ho)).
Qed.

Lemma __matmul__node self o no w :
  heap w !! o = Some no ->
  __matmul__ self (VNode o) w =
  Ret o (mkWorld
           (<[o := set_pipe_in_type ERR (set_pipe_in (PNode self) no)]>
              (heap w)) (os w)).
Proof.
  intros Ho. unfold __matmul__.
  rewrite (bind_Ret _ _ _ _ _ (assign_Some _ _ _ _ Ho)).
  erewrite bind_Ret; [|apply assign_Some; cbn; apply lookup_insert_eq].
  cbn. now rewrite insert_insert_eq.
Qed.

Lemma __mod__node self o no w :
  heap w !! o = Some no ->
  __mod__ self (VNode o) w =
  Ret o (mkWorld
           (<[o := set_pipe_in_type ALL (set_pipe_in (PNode self) no)]>
              (heap w)) (os w)).
Proof.
  intros Ho. unfold __mod__.
  rewrite (bind_Ret _ _ _ _ _ (assign_Some _ _ _ _ Ho)).
  erewrite bind_Ret; [|apply assign_Some; cbn; apply lookup_insert_eq].
  cbn. now rewrite insert_insert_eq.
Qed.

(** C5.  Each of the three operators raises its [TypeError] when the
    right-hand side is not a command node, and on a command node it
    returns that node with its pipe source set to the left node.  The
    stderr and the combined operator also set the selector; the stdout
    operator does not: the selector stays what it was, so after an
    earlier stderr composition a stdout composition leaves the selector
    at stderr. *)
Theorem pipe_operators_bind_right_operand self other w :
  (is_CLITool other = false ->
   __or__ self other w = Exc or_error w /\
   __matmul__ self other w = Exc matmul_error w /\
   __mod__ self other w = Exc matmul_error w) /\
  (forall o no, other = VNode o -> heap w !! o = Some no ->
   __or__ self other w =
     Ret o (mkWorld (<[o := set_pipe_in (PNode self) no]> (heap w)) (os w)) /\
   __matmul__ self other w =
     Ret o (mkWorld
              (<[o := set_pipe_in_type ERR (set_pipe_in (PNode self) no)]>
                 (heap w)) (os w)) /\
   __mod__ self other w =
     Ret o (mkWorld
              (<[o := set_pipe_in_type ALL (set_pipe_in (PNode self) no)]>
                 (heap w)) (os w)) /\
   pipe_in_type (set_pipe_in (PNode self) no) = pipe_in_type no /\
   forall x,
     (let* _ := __matmul__ x other in __or__ self other) w =
     Ret o (mkWorld
              (<[o := set_pipe_in (PNode self)
                        (set_pipe_in_type ERR (set_pipe_in (PNode x) no))]>
                 (heap w)) (os w)) /\
     pipe_in_type
       (set_pipe_in (PNode self)
          (set_pipe_in_type ERR (set_pipe_in (PNode x) no))) = ERR).
Proof.
  split.
  - destruct other; [discriminate|]. intros _. repeat split.
  - intros o no -> Ho. repeat split.
    + now apply __or__node.
    + now apply __matmul__node.
    + now apply __mod__node.
    + rewrite (bind_Ret _ _ _ _ _ (__matmul__node x o no w Ho)).
      erewrite __or__node by (cbn; apply lookup_insert_eq).
      cbn. now rewrite insert_insert_eq.
Qed.

(** The failing input of C5: [ls @ cat] and then [seq | cat]. *)
Example or_after_matmul_selects_stderr :
  exists w',
    (let* _ := __matmul__ 2 (VNode 1) in __or__ 0 (VNode 1)) pipe_world
    = Ret 1 w' /\
    exists n, heap w' !! 1 = Some n /\
              pipe_in n = PNode 0 /\ pipe_in_type n = ERR.
Proof.
  eexists. split; [reflexivity|]. eexists. split; [reflexivity|].
  split; reflexivity.
Qed.

Lemma pristine_set_pipe_in s n : pristine (set_pipe_in s n) = pristine n.
Proof. now destruct n. Qed.

Lemma pristine_set_pipe_in_type s n :
  pristine (set_pipe_in_type s n) = pristine n.
Proof. now destruct n. Qed.

Section Pipelines.

Variable observe : nat -> list (stream * bytes).
Variable exit_status : nat -> option Z.

(** What the downstream process gets when the downstream node [nb],
    bound to the upstream [a], is run. *)
Lemma run_bound fuel a b na nb w ca cb :
  a <> b ->
  heap w !! a = Some na -> heap w !! b = Some nb ->
  pristine na = true -> pristine nb = true ->
  concurrent na = false -> concurrent nb = false ->
  (forall src, pipe_in na <> PNode src) ->
  pipe_in nb = PNode a ->
  exit_status (List.length (procs (os w))) = Some cb ->
  exit_status (S (List.length (procs (os w)))) = Some ca ->
  exists w',
    run observe exit_status (S (S fuel)) b w = Ret b w' /\
    stdout observe exit_status a w' =
      Ret (Some (stdout_bytes (observe (S (List.length (procs (os w)))))))
        w' /\
    stderr observe exit_status a w' = Ret None w' /\
    all observe exit_status a w' =
      Ret (Some (all_bytes (observe (S (List.length (procs (os w)))))))
        w' /\
    exists p,
      procs (os w') !! List.length (procs (os w)) = Some p /\
      cmd p = command_line nb /\
      stdin_data p =
        piped_lines (pipe_in_type nb)
          (observe (S (List.length (procs (os w))))).
Proof.
  intros Hab Ha Hb Hfa Hfb Hca Hcb Hpa Hpb Hxb Hxa.
  pose proof (run_pipeline observe exit_status fuel a b na nb w ca cb
                Hab Ha Hb Hfa Hfb Hca Hcb Hpa Hpb Hxb Hxa) as Hrun.
  eexists. split; [exact Hrun|]. clear Hrun.
  set (k := List.length (procs (os w))) in *.
  assert (Hl : forall x : CLITool, (<[b := x]> (<[a := ran observe (S k) ca na]> (heap w))) !! a
               = Some (ran observe (S k) ca na)).
  { intros x. rewrite lookup_insert_ne by congruence.
    apply lookup_insert_eq. }
  destruct (ran_fields observe (S k) ca na Hfa)
    as (Hso & Hse & Hsa & _ & Hth & _).
  split; [eapply stdout_set; [apply Hl|exact Hso]|].
  split; [eapply stderr_unset_idle;
            [apply Hl|exact Hse|now rewrite Hth]|].
  split; [eapply all_set; [apply Hl|exact Hsa]|].
  eexists. split; [cbn; apply list_lookup_middle; reflexivity|].
  split; reflexivity.
Qed.

(** C2.  When [b] is bound to [a] with the stdout operator and run, the
    process of [b] gets on its stdin the lines [splitlines()] makes of
    the finalized stdout of [a], one write per line and each without
    its terminator: together they are the stdout of [a] with every LF
    and CR removed. *)
Theorem pipe_writes_upstream_stdout_without_terminators
    fuel a b na nb w ca cb :
  a <> b ->
  heap w !! a = Some na -> heap w !! b = Some nb ->
  pristine na = true -> pristine nb = true ->
  concurrent na = false -> concurrent nb = false ->
  (forall src, pipe_in na <> PNode src) ->
  pipe_in_type nb = OUT ->
  exit_status (List.length (procs (os w))) = Some cb ->
  exit_status (S (List.length (procs (os w)))) = Some ca ->
  exists w',
    (let* _ := __or__ a (VNode b) in
     run observe exit_status (S (S fuel)) b) w = Ret b w' /\
    stdout observe exit_status a w' =
      Ret (Some (stdout_bytes (observe (S (List.length (procs (os w)))))))
        w' /\
    exists p,
      procs (os w') !! List.length (procs (os w)) = Some p /\
      cmd p = command_line nb /\
      stdin_data p =
        splitlines
          (stdout_bytes (observe (S (List.length (procs (os w)))))) /\
      concat (stdin_data p) =
        strip_newlines
          (stdout_bytes (observe (S (List.length (procs (os w)))))).
Proof.
  intros Hab Ha Hb Hfa Hfb Hca Hcb Hpa Hsel Hxb Hxa.
  rewrite (bind_Ret _ _ _ _ _ (__or__node a b nb w Hb)).
  destruct (run_bound fuel a b na (set_pipe_in (PNode a) nb)
              (mkWorld (<[b := set_pipe_in (PNode a) nb]> (heap w)) (os w))
              ca cb Hab)
    as (w' & Hrun & Hso & _ & _ & p & Hp & Hc & Hd);
    [ cbn; rewrite lookup_insert_ne by congruence; exact Ha
    | cbn; apply lookup_insert_eq
    | exact Hfa | now rewrite pristine_set_pipe_in
    | exact Hca | exact Hcb | exact Hpa | reflexivity
    | exact Hxb | exact Hxa | ].
  exists w'. split; [exact Hrun|]. split; [exact Hso|].
  exists p. split; [exact Hp|]. split; [exact Hc|].
  cbn [pipe_in_type set_pipe_in os] in Hd. rewrite Hsel in Hd.
  unfold piped_lines in Hd. cbn [piped_input] in Hd. cbn [os] in *.
  split; [exact Hd|]. rewrite Hd. apply concat_splitlines.
Qed.

(** C10.  The stdout operator sets the pipe source of its right
    operand and leaves the selector as it is.  When [b] was first bound
    with the combined operator and is then bound to [a] with the stdout
    operator and run, its process is fed the lines of the [all] buffer
    of [a].  When [b] was first bound with the stderr operator, the
    selector is still [ERR] and the source is [a], and the readers of
    [a] have collected what [a] wrote on stderr in its stderr buffer;
    but the [stderr] property of [a] gives nothing, so the process of
    [b] is not fed from the stderr of [a]: it gets no write at all. *)
Theorem or_keeps_selector_of_earlier_composition
    fuel x a b na nb w ca cb :
  a <> b ->
  heap w !! a = Some na -> heap w !! b = Some nb ->
  pristine na = true -> pristine nb = true ->
  concurrent na = false -> concurrent nb = false ->
  (forall src, pipe_in na <> PNode src) ->
  exit_status (List.length (procs (os w))) = Some cb ->
  exit_status (S (List.length (procs (os w)))) = Some ca ->
  __or__ a (VNode b) w =
    Ret b (mkWorld (<[b := set_pipe_in (PNode a) nb]> (heap w)) (os w)) /\
  pipe_in_type (set_pipe_in (PNode a) nb) = pipe_in_type nb /\
  (exists w' na' nb',
     (let* _ := __matmul__ x (VNode b) in
      let* _ := __or__ a (VNode b) in
      run observe exit_status (S (S fuel)) b) w = Ret b w' /\
     heap w' !! b = Some nb' /\
     pipe_in nb' = PNode a /\ pipe_in_type nb' = ERR /\
     heap w' !! a = Some na' /\
     _stderr_buffer na' =
       stderr_bytes (observe (S (List.length (procs (os w))))) /\
     stderr observe exit_status a w' = Ret None w' /\
     exists p, procs (os w') !! List.length (procs (os w)) = Some p /\
               cmd p = command_line nb /\
               stdin_data p = []) /\
  (exists w',
     (let* _ := __mod__ x (VNode b) in
      let* _ := __or__ a (VNode b) in
      run observe exit_status (S (S fuel)) b) w = Ret b w' /\
     all observe exit_status a w' =
       Ret (Some (all_bytes (observe (S (List.length (procs (os w)))))))
         w' /\
     exists p, procs (os w') !! List.length (procs (os w)) = Some p /\
               stdin_data p =
                 splitlines
                   (all_bytes
                      (observe (S (List.length (procs (os w))))))).
Proof.
  intros Hab Ha Hb Hfa Hfb Hca Hcb Hpa Hxb Hxa.
  split; [now apply __or__node|]. split; [reflexivity|]. split.
  - rewrite (bind_Ret _ _ _ _ _ (__matmul__node x b nb w Hb)).
    erewrite bind_Ret;
      [|apply __or__node; cbn; apply lookup_insert_eq].
    cbn [heap os]. rewrite insert_insert_eq.
    set (nb1 := set_pipe_in (PNode a)
                  (set_pipe_in_type ERR (set_pipe_in (PNode x) nb))).
    set (k := List.length (procs (os w))) in *.
    assert (Hfb1 : pristine nb1 = true).
    { unfold nb1.
      now rewrite pristine_set_pipe_in, pristine_set_pipe_in_type,
        pristine_set_pipe_in. }
    pose proof (run_pipeline observe exit_status fuel a b na nb1
                  (mkWorld (<[b := nb1]> (heap w)) (os w)) ca cb Hab) as Hrun.
    cbn [heap os] in Hrun. fold k in Hrun.
    specialize (Hrun ltac:(rewrite lookup_insert_ne by congruence; exact Ha)
                     ltac:(apply lookup_insert_eq)
                     Hfa Hfb1 Hca Hcb Hpa eq_refl Hxb Hxa).
    destruct (ran_fields observe k cb nb1 Hfb1)
      as (_ & _ & _ & _ & _ & _ & Hpi & Hpt & _).
    destruct (ran_fields observe (S k) ca na Hfa)
      as (_ & Hse & _ & _ & Hth & _).
    eexists _, (ran observe (S k) ca na), (ran observe k cb nb1).
    split; [exact Hrun|].
    split; [cbn; apply lookup_insert_eq|].
    split; [rewrite Hpi; reflexivity|].
    split; [rewrite Hpt; reflexivity|].
    assert (Hla : forall h : gmap nat CLITool,
               (<[b := ran observe k cb nb1]>
                  (<[a := ran observe (S k) ca na]> h)) !! a
               = Some (ran observe (S k) ca na)).
    { intros h. rewrite lookup_insert_ne by congruence.
      apply lookup_insert_eq. }
    split; [apply Hla|].
    split; [now apply ran_stderr_buffer|].
    split.
    { eapply stderr_unset_idle; [apply Hla|exact Hse|now rewrite Hth]. }
    eexists. split; [cbn; apply list_lookup_middle; reflexivity|].
    split; reflexivity.
  - rewrite (bind_Ret _ _ _ _ _ (__mod__node x b nb w Hb)).
    erewrite bind_Ret;
      [|apply __or__node; cbn; apply lookup_insert_eq].
    cbn [heap os]. rewrite insert_insert_eq.
    destruct (run_bound fuel a b na
                (set_pipe_in (PNode a)
                   (set_pipe_in_type ALL (set_pipe_in (PNode x) nb)))
                (mkWorld
                   (<[b := set_pipe_in (PNode a)
                             (set_pipe_in_type ALL
                                (set_pipe_in (PNode x) nb))]> (heap w))
                   (os w))
                ca cb Hab)
      as (w' & Hrun & _ & _ & Hsa & p & Hp & _ & Hd);
      [ cbn; rewrite lookup_insert_ne by congruence; exact Ha
      | cbn; apply lookup_insert_eq
      | exact Hfa
      | now rewrite pristine_set_pipe_in, pristine_set_pipe_in_type,
          pristine_set_pipe_in
      | exact Hca | exact Hcb | exact Hpa | reflexivity
      | exact Hxb | exact Hxa | ].
    exists w'. split; [exact Hrun|]. split; [exact Hsa|].
    exists p. split; [exact Hp|exact Hd].
Qed.

End Pipelines.

Lemma pipe_writes_upstream_stdout_without_terminators_witness :
  exists w' p,
    (let* _ := __or__ 0 (VNode 1) in run seq_output exits_zero 2 1)
      pipe_world = Ret 1 w' /\
    stdout seq_output exits_zero 0 w' = Ret (Some (line "1" ++ line "2")) w' /\
    procs (os w') !! 0 = Some p /\
    stdin_data p = [encode "1"; encode "2"] /\
    concat (stdin_data p) = encode "12".
Proof.
  destruct (pipe_writes_upstream_stdout_without_terminators
              seq_output exits_zero 0 0 1 seq_node cat_node pipe_world
              0%Z 0%Z ltac:(discriminate) eq_refl eq_refl eq_refl eq_refl
              eq_refl eq_refl ltac:(intros src; discriminate) eq_refl
              eq_refl eq_refl)
    as (w' & Hrun & Hso & p & Hp & Hc & Hd & Hcat).
  exists w', p. split; [exact Hrun|]. split; [exact Hso|].
  split; [exact Hp|]. split; [exact Hd|]. exact Hcat.
Defined.

(** The failing input of C2: the downstream gets [12], the upstream wrote
    two lines. *)
Example piped_bytes_differ_from_upstream_stdout :
  concat (splitlines (stdout_bytes (seq_output 1)))
  <> stdout_bytes (seq_output 1).
Proof. discriminate. Qed.

Lemma or_keeps_selector_of_earlier_composition_witness :
  (exists w' na' p,
     (let* _ := __matmul__ 2 (VNode 1) in
      let* _ := __or__ 0 (VNode 1) in
      run seq_output exits_zero 2 1) pipe_world = Ret 1 w' /\
     heap w' !! 0 = Some na' /\ _stderr_buffer na' = line "e" /\
     stderr seq_output exits_zero 0 w' = Ret None w' /\
     procs (os w') !! 0 = Some p /\ cmd p = "cat" /\ stdin_data p = []) /\
  (exists w' p,
     (let* _ := __mod__ 2 (VNode 1) in
      let* _ := __or__ 0 (VNode 1) in
      run seq_output exits_zero 2 1) pipe_world = Ret 1 w' /\
     procs (os w') !! 0 = Some p /\
     stdin_data p = [encode "1"; encode "e"; encode "2"]).
Proof.
  destruct (or_keeps_selector_of_earlier_composition
              seq_output exits_zero 0 2 0 1 seq_node cat_node pipe_world
              0%Z 0%Z ltac:(discriminate) eq_refl eq_refl eq_refl eq_refl
              eq_refl eq_refl ltac:(intros src; discriminate)
              eq_refl eq_refl)
    as (_ & _ & (w1 & na1 & nb1 & Hr1 & _ & _ & _ & Ha1 & Hb1 & He1
                 & p1 & Hp1 & Hc1 & Hd1)
        & (w2 & Hr2 & _ & p2 & Hp2 & Hd2)).
  split.
  - exists w1, na1, p1. auto 10.
  - exists w2, p2. auto.
Defined.

(** The failing input of C10: the upstream wrote a line on stderr, the
    process bound to its stderr is given no line. *)
Example stderr_line_is_not_piped :
  piped_lines ERR (seq_output 1) <> splitlines (stderr_bytes (seq_output 1)).
Proof. discriminate. Qed.

(** ** A single node *)

Section SingleNode.

Variable observe : nat -> list (stream * bytes).
Variable exit_status : nat -> option Z.

(** C1.  After a synchronous [run] of a node with no pipe source, the
    [all] property is the concatenation of every chunk the drainers
    got, in the order they got them, and the [stdout] property is the
    concatenation of the stdout chunks; the [stderr] property is
    absent, whatever the process wrote to stderr. *)
Theorem sync_run_finalizes_all_and_stdout_not_stderr fuel self n w c :
  heap w !! self = Some n ->
  pristine n = true ->
  concurrent n = false ->
  pipe_in n = PNone ->
  exit_status (List.length (procs (os w))) = Some c ->
  exists w',
    run observe exit_status (S fuel) self w = Ret self w' /\
    all observe exit_status self w' =
      Ret (Some (all_bytes (observe (List.length (procs (os w)))))) w' /\
    stdout observe exit_status self w' =
      Ret (Some (stdout_bytes (observe (List.length (procs (os w)))))) w' /\
    stderr observe exit_status self w' = Ret None w'.
Proof.
  intros Hn Hf Hc Hp Hx.
  assert (Hp' : forall src, pipe_in n <> PNode src)
    by (intros src; rewrite Hp; discriminate).
  pose proof (run_single observe exit_status fuel self n w c Hn Hf Hc Hp'
                Hx) as Hrun.
  eexists. split; [exact Hrun|]. clear Hrun.
  destruct (ran_fields observe (List.length (procs (os w))) c n Hf)
    as (Hso & Hse & Hsa & _ & Hth & _).
  split; [eapply all_set; [cbn; apply lookup_insert_eq|exact Hsa]|].
  split; [eapply stdout_set; [cbn; apply lookup_insert_eq|exact Hso]|].
  eapply stderr_unset_idle;
    [cbn; apply lookup_insert_eq|exact Hse|now rewrite Hth].
Qed.

(** [run()] on a synchronous node whose stdout drainer was started
    before: the process is spawned, then the start of the drainer
    raises. *)
Lemma rerun_raises fuel self n w :
  heap w !! self = Some n ->
  concurrent n = false ->
  _stdout_thread n = Finished ->
  run observe exit_status (S fuel) self w =
  Exc start_error
    (mkWorld
       (<[self := set_process
                    (Some (mkPopen (List.length (procs (os w))) None))
                    (set_has_run true n)]> (heap w))
       (mkOS (procs (os w) ++ [mkProc (command_line n) true [] false None])
             (signals (os w)))).
Proof.
  intros Hn Hc Ho. cbn [run].
  erewrite bind_Ret; [|apply assign_Some; exact Hn].
  erewrite bind_Ret; [|apply get_node_Some; cbn; apply lookup_insert_eq].
  cbn [concurrent set_has_run]. rewrite Hc.
  unfold _run. apply bind_Exc. apply bind_Exc.
  unfold _run_front.
  erewrite bind_Ret; [|apply get_node_Some; cbn; apply lookup_insert_eq].
  rewrite (bind_Ret _ _ _ _ _ (Popen_eq _ _ _)).
  erewrite bind_Ret; [|apply assign_Some; cbn; apply lookup_insert_eq].
  cbn [heap os procs signals]. rewrite !insert_insert_eq.
  apply bind_Exc. unfold _stdout_thread_start.
  erewrite bind_Ret; [|apply get_node_Some; cbn; apply lookup_insert_eq].
  cbn [_stdout_thread set_process set_has_run]. rewrite Ho.
  reflexivity.
Qed.

(** C3.  A second [run()] on a node whose first synchronous [run()]
    has returned spawns a second process from the same command line,
    takes it as the process of the node, and then raises: the stdout
    drainer cannot be started twice. *)
Theorem second_run_spawns_again fuel fuel' self n w c :
  heap w !! self = Some n ->
  pristine n = true ->
  concurrent n = false ->
  (forall src, pipe_in n <> PNode src) ->
  exit_status (List.length (procs (os w))) = Some c ->
  (let* _ := run observe exit_status (S fuel) self in
   run observe exit_status (S fuel') self) w =
  Exc start_error
    (mkWorld
       (<[self := set_process
                    (Some (mkPopen (S (List.length (procs (os w)))) None))
                    (set_has_run true
                       (ran observe (List.length (procs (os w))) c n))]>
          (heap w))
       (mkOS (procs (os w) ++
              [mkProc (command_line n) true (literal_lines (pipe_in n))
                 false (Some c);
               mkProc (command_line n) true [] false None])
             (signals (os w)))).
Proof.
  intros Hn Hf Hc Hp Hx.
  rewrite (bind_Ret _ _ _ _ _
             (run_single observe exit_status fuel self n w c Hn Hf Hc Hp
                Hx)).
  destruct (ran_fields observe (List.length (procs (os w))) c n Hf)
    as (_ & _ & _ & _ & _ & _ & _ & _ & Hcc & _ & _ & Ho & _ & Ha & _).
  erewrite rerun_raises;
    [ | cbn; apply lookup_insert_eq | now rewrite Hcc | exact Ho ].
  cbn [heap os procs signals]. rewrite insert_insert_eq.
  replace (command_line (ran observe (List.length (procs (os w))) c n))
    with (command_line n) by (unfold command_line; now rewrite Ha).
  rewrite length_app. cbn [List.length]. rewrite Nat.add_1_r.
  now rewrite <- app_assoc.
Qed.

(** C4, as the code has it.  Starting a node with no pipe source
    writes nothing to the stdin of the process it spawns and leaves
    that stdin open, however the call ends. *)
Theorem start_without_source_leaves_stdin_unwritten rr self n w w' :
  heap w !! self = Some n ->
  pipe_in n = PNone ->
  world_of (_run observe exit_status rr self w) = Some w' ->
  stdin_open_unwritten w' (List.length (procs (os w))).
Proof.
  intros Hn Hp E.
  set (k := List.length (procs (os w))) in *.
  assert (Hnew : forall (l : list os_process) st,
            exists p, (procs (os w) ++
                       mkProc (command_line n) true [] false st :: l)
                      !! k = Some p /\
                      stdin_data p = [] /\ stdin_closed p = false).
  { intros l st. eexists. split; [apply list_lookup_middle; reflexivity|].
    split; reflexivity. }
  unfold _run in E.
  destruct (_stdout_thread n) eqn:Eo; [destruct (_stderr_thread n) eqn:Ee|..].
  - assert (Hp' : forall src, pipe_in n <> PNode src)
      by (intros src; rewrite Hp; discriminate).
    rewrite (bind_Ret _ _ _ _ _
               (_run_front_literal observe exit_status rr self n w Hn Eo Ee
                  Hp')) in E.
    fold k in E. rewrite Hp in E. cbn [literal_lines] in E.
    destruct (exit_status k) as [c|] eqn:Ex.
    + erewrite bind_Ret in E.
      2:{ apply _run_back_alive with
            (n := started (mkPopen k None) n) (p := mkPopen k None)
            (c := c);
            [cbn; apply lookup_insert_eq|reflexivity|exact Ex|reflexivity]. }
      unfold ret in E. cbn [world_of] in E. injection E as <-.
      unfold stdin_open_unwritten, os_alter.
      cbn [os procs signals pid_of]. unfold k in *.
      rewrite alter_last. apply (Hnew [] (Some c)).
    + unfold bind at 1 in E.
      rewrite (_run_back_hang observe exit_status self
                 (started (mkPopen k None) n) (mkPopen k None))
        in E; [|cbn; apply lookup_insert_eq|reflexivity|exact Ex
               |reflexivity].
      cbn in E. injection E as <-. apply (Hnew [] None).
  - unfold bind at 1 in E. unfold _run_front in E.
    rewrite (bind_Ret _ _ _ _ _ (get_node_Some _ _ _ Hn)) in E.
    rewrite (bind_Ret _ _ _ _ _ (Popen_eq _ _ _)) in E.
    erewrite bind_Ret in E; [|apply assign_Some; exact Hn].
    erewrite bind_Ret in E.
    2:{ unfold _stdout_thread_start.
        erewrite bind_Ret; [|apply get_node_Some; cbn; apply lookup_insert_eq].
        cbn. rewrite Eo. apply assign_Some. cbn. apply lookup_insert_eq. }
    erewrite bind_Exc in E.
    2:{ unfold _stderr_thread_start.
        erewrite bind_Ret; [|apply get_node_Some; cbn; apply lookup_insert_eq].
        cbn. rewrite Ee. reflexivity. }
    cbn in E. injection E as <-. apply (Hnew [] None).
  - unfold bind at 1 in E. unfold _run_front in E.
    rewrite (bind_Ret _ _ _ _ _ (get_node_Some _ _ _ Hn)) in E.
    rewrite (bind_Ret _ _ _ _ _ (Popen_eq _ _ _)) in E.
    erewrite bind_Ret in E; [|apply assign_Some; exact Hn].
    erewrite bind_Ret in E.
    2:{ unfold _stdout_thread_start.
        erewrite bind_Ret; [|apply get_node_Some; cbn; apply lookup_insert_eq].
        cbn. rewrite Eo. apply assign_Some. cbn. apply lookup_insert_eq. }
    erewrite bind_Exc in E.
    2:{ unfold _stderr_thread_start.
        erewrite bind_Ret; [|apply get_node_Some; cbn; apply lookup_insert_eq].
        cbn. rewrite Ee. reflexivity. }
    cbn in E. injection E as <-. apply (Hnew [] None).
  - unfold bind at 1 in E. unfold _run_front in E.
    rewrite (bind_Ret _ _ _ _ _ (get_node_Some _ _ _ Hn)) in E.
    rewrite (bind_Ret _ _ _ _ _ (Popen_eq _ _ _)) in E.
    erewrite bind_Ret in E; [|apply assign_Some; exact Hn].
    erewrite bind_Exc in E.
    2:{ unfold _stdout_thread_start.
        erewrite bind_Ret; [|apply get_node_Some; cbn; apply lookup_insert_eq].
        cbn. rewrite Eo. reflexivity. }
    cbn in E. injection E as <-. apply (Hnew [] None).
  - unfold bind at 1 in E. unfold _run_front in E.
    rewrite (bind_Ret _ _ _ _ _ (get_node_Some _ _ _ Hn)) in E.
    rewrite (bind_Ret _ _ _ _ _ (Popen_eq _ _ _)) in E.
    erewrite bind_Ret in E; [|apply assign_Some; exact Hn].
    erewrite bind_Exc in E.
    2:{ unfold _stdout_thread_start.
        erewrite bind_Ret; [|apply get_node_Some; cbn; apply lookup_insert_eq].
        cbn. rewrite Eo. reflexivity. }
    cbn in E. injection E as <-. apply (Hnew [] None).
Qed.

End SingleNode.

Lemma sync_run_finalizes_all_and_stdout_not_stderr_witness :
  exists w',
    run both_streams exits_zero 1 0 echo_world = Ret 0 w' /\
    all both_streams exits_zero 0 w' =
      Ret (Some (line "out" ++ line "oops")) w' /\
    stdout both_streams exits_zero 0 w' = Ret (Some (line "out")) w' /\
    stderr both_streams exits_zero 0 w' = Ret None w'.
Proof.
  exact (sync_run_finalizes_all_and_stdout_not_stderr both_streams exits_zero
           0 0 echo_node echo_world 0%Z eq_refl eq_refl eq_refl eq_refl
           eq_refl).
Defined.

(** The failing input of C1: the process wrote a line to stderr, and the
    [stderr] property of the node is absent. *)
Example stderr_lost_after_run :
  stderr both_streams exits_zero 0 echo_world_ran = Ret None echo_world_ran
  /\ stderr_bytes (both_streams 0) = line "oops".
Proof. split; reflexivity. Qed.

Lemma second_run_spawns_again_witness :
  exists w',
    (let* _ := run both_streams exits_zero 1 0 in
     run both_streams exits_zero 1 0) echo_world = Exc start_error w' /\
    map cmd (procs (os w')) = ["echo hi"; "echo hi"].
Proof.
  eexists. split.
  - exact (second_run_spawns_again both_streams exits_zero 0 0 0 echo_node
             echo_world 0%Z eq_refl eq_refl eq_refl
             ltac:(intros src; discriminate) eq_refl).
  - reflexivity.
Defined.

(** C4, as the spec has it, fails: after [run()] on [echo hi], which has
    no pipe source, the stdin of its process is not closed. *)
Lemma start_does_not_close_stdin :
  run both_streams exits_zero 1 0 echo_world = Ret 0 echo_world_ran /\
  ~ stdin_closed_unwritten echo_world_ran 0.
Proof.
  split; [reflexivity|].
  intros (p & Hp & _ & Hc). cbn in Hp. injection Hp as <-. discriminate Hc.
Qed.

Lemma start_without_source_leaves_stdin_unwritten_witness :
  stdin_open_unwritten echo_world_started 0.
Proof.
  exact (start_without_source_leaves_stdin_unwritten both_streams exits_zero
           (run both_streams exits_zero 0) 0 echo_node echo_world
           echo_world_started eq_refl eq_refl eq_refl).
Defined.

(** * Further properties *)

(** ** Reading a finalized buffer twice *)

Lemma assign_Ret_inv r f w w1 :
  assign r f w = Ret tt w1 ->
  exists n, heap w !! r = Some n /\
            w1 = mkWorld (<[r := f n]> (heap w)) (os w).
Proof.
  unfold assign. destruct (heap w !! r) as [n|]; [|discriminate].
  intros H. injection H as <-. now exists n.
Qed.

Lemma finalize_stdout_set n : exists b, _stdout (finalize n) = Some b.
Proof.
  unfold finalize.
  repeat match goal with
         | |- context [if ?b then _ else _] => destruct b eqn:?
         end; cbn; eauto.
  destruct (_stdout n); [eauto|discriminate].
Qed.

Section Reads.

Variable observe : nat -> list (stream * bytes).
Variable exit_status : nat -> option Z.

(** What [finish] leaves when the execution thread was alive and the
    call returns. *)
Lemma finish_alive_inv self n w w1 :
  heap w !! self = Some n -> is_alive (thread n) = true ->
  finish observe exit_status self w = Ret tt w1 ->
  exists x, heap w1 !! self = Some (set_thread Finished (finalize x)).
Proof.
  intros Hn Ha H. unfold finish in H.
  rewrite (bind_Ret _ _ _ _ _ (get_node_Some _ _ _ Hn)) in H.
  rewrite Ha in H.
  apply bind_Ret_inv in H as ([] & w2 & _ & H).
  apply bind_Ret_inv in H as ([] & w3 & Hb & H).
  unfold _run_back in Hb.
  apply bind_Ret_inv in Hb as ([] & w4 & _ & Hb).
  apply assign_Ret_inv in Hb as (x & Hx & ->).
  apply assign_Ret_inv in H as (y & Hy & ->).
  cbn in Hy. rewrite lookup_insert_eq in Hy. injection Hy as <-.
  exists x. cbn. apply lookup_insert_eq.
Qed.

(** X1.  Reading [stdout], [stderr] or [all] a second time gives what the
    first read gave and changes nothing. *)
Theorem properties_are_idempotent self w :
  (forall v w1, stdout observe exit_status self w = Ret v w1 ->
     stdout observe exit_status self w1 = Ret v w1) /\
  (forall v w1, stderr observe exit_status self w = Ret v w1 ->
     stderr observe exit_status self w1 = Ret v w1) /\
  (forall v w1, all observe exit_status self w = Ret v w1 ->
     all observe exit_status self w1 = Ret v w1).
Proof.
  repeat split; intros v w1 H.
  - unfold stdout in H.
    apply bind_Ret_inv in H as (n & w0 & Hg & H).
    apply get_node_Ret_inv in Hg as [-> Hn].
    destruct (_stdout n) as [b|] eqn:Es.
    + injection H as <- <-. now apply stdout_set with (n := n).
    + apply bind_Ret_inv in H as ([] & w2 & Hf & H).
      apply bind_Ret_inv in H as (n2 & w3 & Hg & H).
      apply get_node_Ret_inv in Hg as [-> Hn2]. injection H as <- <-.
      destruct (is_alive (thread n)) eqn:Ea.
      * destruct (finish_alive_inv self n w w2 Hn Ea Hf) as (x & Hx).
        rewrite Hx in Hn2. injection Hn2 as <-.
        destruct (finalize_stdout_set x) as (b & Hb).
        cbn [_stdout set_thread]. rewrite Hb.
        apply stdout_set with (n := set_thread Finished (finalize x));
          [exact Hx|exact Hb].
      * rewrite (finish_idle observe exit_status self n w Hn Ea) in Hf.
        injection Hf as <-. rewrite Hn in Hn2. injection Hn2 as <-.
        unfold stdout.
        rewrite (bind_Ret _ _ _ _ _ (get_node_Some _ _ _ Hn)). rewrite Es.
        rewrite (bind_Ret _ _ _ _ _
                   (finish_idle observe exit_status self n w Hn Ea)).
        rewrite (bind_Ret _ _ _ _ _ (get_node_Some _ _ _ Hn)).
        unfold ret. now rewrite Es.
  - unfold stderr in H.
    apply bind_Ret_inv in H as (n & w0 & Hg & H).
    apply get_node_Ret_inv in Hg as [-> Hn].
    destruct (_stderr n) as [b|] eqn:Es.
    + injection H as <- <-. unfold stderr.
      rewrite (bind_Ret _ _ _ _ _ (get_node_Some _ _ _ Hn)).
      now rewrite Es.
    + apply bind_Ret_inv in H as ([] & w2 & Hf & H).
      apply bind_Ret_inv in H as (n2 & w3 & Hg & H).
      apply get_node_Ret_inv in Hg as [-> Hn2]. injection H as <- <-.
      destruct (is_alive (thread n)) eqn:Ea.
      * destruct (finish_alive_inv self n w w2 Hn Ea Hf) as (x & Hx).
        rewrite Hx in Hn2. injection Hn2 as <-.
        unfold stderr.
        rewrite (bind_Ret _ _ _ _ _ (get_node_Some _ _ _ Hx)).
        destruct (_stderr (set_thread Finished (finalize x))) eqn:E2;
          [reflexivity|].
        rewrite (bind_Ret _ _ _ _ _
                   (finish_idle observe exit_status self _ w2 Hx eq_refl)).
        rewrite (bind_Ret _ _ _ _ _ (get_node_Some _ _ _ Hx)).
        unfold ret. now rewrite E2.
      * rewrite (finish_idle observe exit_status self n w Hn Ea) in Hf.
        injection Hf as <-. rewrite Hn in Hn2. injection Hn2 as <-.
        rewrite Es.
        now apply stderr_unset_idle with (n := n).
  - unfold all in H.
    apply bind_Ret_inv in H as (n & w0 & Hg & H).
    apply get_node_Ret_inv in Hg as [-> Hn].
    destruct (_all n) as [b|] eqn:Es.
    + injection H as <- <-. now apply all_set with (n := n).
    + apply bind_Ret_inv in H as ([] & w2 & Hf & H).
      apply bind_Ret_inv in H as (n2 & w3 & Hg & H).
      apply get_node_Ret_inv in Hg as [-> Hn2]. injection H as <- <-.
      destruct (is_alive (thread n)) eqn:Ea.
      * destruct (finish_alive_inv self n w w2 Hn Ea Hf) as (x & Hx).
        rewrite Hx in Hn2. injection Hn2 as <-.
        destruct (finalize_frame x)
          as (_ & _ & _ & _ & _ & _ & _ & _ & _ & _ & _ & _ & _ & Hb).
        cbn [_all set_thread]. rewrite Hb.
        apply all_set with (n := set_thread Finished (finalize x));
          [exact Hx|exact Hb].
      * rewrite (finish_idle observe exit_status self n w Hn Ea) in Hf.
        injection Hf as <-. rewrite Hn in Hn2. injection Hn2 as <-.
        unfold all.
        rewrite (bind_Ret _ _ _ _ _ (get_node_Some _ _ _ Hn)). rewrite Es.
        rewrite (bind_Ret _ _ _ _ _
                   (finish_idle observe exit_status self n w Hn Ea)).
        rewrite (bind_Ret _ _ _ _ _ (get_node_Some _ _ _ Hn)).
        unfold ret. now rewrite Es.
Qed.

End Reads.

Lemma properties_are_idempotent_witness :
  stdout both_streams exits_zero 0 echo_world_background_read
  = Ret (Some (line "out")) echo_world_background_read.
Proof.
  exact (proj1 (properties_are_idempotent both_streams exits_zero 0
                  echo_world_background)
           (Some (line "out")) echo_world_background_read eq_refl).
Defined.

(** ** A literal as the pipe source *)

Lemma splitlines_from_plain s : forall acc,
  forallb (fun c => negb (is_newline c)) s = true ->
  splitlines_from acc s = match acc ++ s with [] => [] | l => [l] end.
Proof.
  induction s as [|c s IH]; intros acc H.
  - cbn. rewrite app_nil_r. now destruct acc.
  - cbn in H. apply andb_prop in H as [Hc Hs].
    unfold is_newline in Hc. apply negb_true_iff in Hc.
    apply orb_false_iff in Hc as [H1 H2].
    cbn [splitlines_from]. rewrite H1, H2.
    rewrite (IH (acc ++ [c]) Hs). now rewrite <- app_assoc.
Qed.

Section Literal.

Variable observe : nat -> list (stream * bytes).
Variable exit_status : nat -> option Z.

(** X2.  [value | node] followed by [run()] writes to the stdin of the
    process the lines of [str(value)], encoded, without their
    terminators; a text with no LF and no CR in it is written as it is,
    in one write, and the empty text gives no write. *)
Theorem literal_is_written_line_by_line fuel self x n w c :
  heap w !! self = Some n ->
  pristine n = true ->
  concurrent n = false ->
  exit_status (List.length (procs (os w))) = Some c ->
  exists w' p,
    (let* _ := __ror__ self x in run observe exit_status (S fuel) self) w
      = Ret self w' /\
    procs (os w') !! List.length (procs (os w)) = Some p /\
    cmd p = command_line n /\
    stdin_data p = splitlines (encode (py_str x)) /\
    concat (stdin_data p) = strip_newlines (encode (py_str x)) /\
    (forallb (fun c => negb (is_newline c)) (encode (py_str x)) = true ->
     stdin_data p =
       match encode (py_str x) with [] => [] | l => [l] end).
Proof.
  intros Hn Hf Hc Hx. unfold __ror__.
  rewrite bind_assoc.
  rewrite (bind_Ret _ _ _ _ _ (assign_Some _ _ _ _ Hn)).
  unfold bind at 1, ret at 1.
  erewrite run_single with
    (n := set_pipe_in (PBytes (encode (py_str x))) n) (c := c);
    [ | cbn; apply lookup_insert_eq
      | now rewrite pristine_set_pipe_in
      | exact Hc
      | intros src; discriminate
      | exact Hx ].
  eexists. eexists. split; [reflexivity|].
  cbn [os procs]. split; [apply list_lookup_middle; reflexivity|].
  cbn [cmd stdin_data pipe_in set_pipe_in literal_lines].
  repeat split.
  - apply concat_splitlines.
  - intros Hplain. unfold splitlines.
    now rewrite (splitlines_from_plain _ [] Hplain).
Qed.

End Literal.

Lemma literal_is_written_line_by_line_witness :
  exists w' p,
    (let* _ := __ror__ 0 (AStr "hello") in run both_streams exits_zero 1 0)
      echo_world = Ret 0 w' /\
    procs (os w') !! 0 = Some p /\
    stdin_data p = [encode "hello"].
Proof.
  destruct (literal_is_written_line_by_line both_streams exits_zero 0 0
              (AStr "hello") echo_node echo_world 0%Z
              eq_refl eq_refl eq_refl eq_refl)
    as (w' & p & Hrun & Hp & _ & _ & _ & Hplain).
  exists w', p. split; [exact Hrun|]. split; [exact Hp|].
  exact (Hplain eq_refl).
Defined.

(** ** Background mode *)

Section Background.

Variable observe : nat -> list (stream * bytes).
Variable exit_status : nat -> option Z.

(** X3.  In background mode a [run()] on a node whose execution thread
    was started before raises at once: no process is spawned and the OS
    is as it was. *)
Theorem background_rerun_spawns_nothing fuel self n w :
  heap w !! self = Some n ->
  concurrent n = true ->
  thread n <> Unstarted ->
  run observe exit_status (S fuel) self w =
  Exc start_error
    (mkWorld (<[self := set_has_run true n]> (heap w)) (os w)).
Proof.
  intros Hn Hc Ht. cbn [run].
  erewrite bind_Ret; [|apply assign_Some; exact Hn].
  erewrite bind_Ret; [|apply get_node_Some; cbn; apply lookup_insert_eq].
  cbn [concurrent set_has_run]. rewrite Hc.
  apply bind_Exc. unfold _run_concurrent. apply bind_Exc.
  unfold thread_start.
  erewrite bind_Ret; [|apply get_node_Some; cbn; apply lookup_insert_eq].
  cbn [thread set_has_run]. destruct (thread n); [now destruct Ht|..];
    reflexivity.
Qed.

(** The world a background [run()] leaves: the process is spawned and
    fed, the execution thread waits for the drainers. *)
Lemma background_run fuel self n w :
  heap w !! self = Some n ->
  pristine n = true ->
  concurrent n = true ->
  (forall src, pipe_in n <> PNode src) ->
  run observe exit_status (S fuel) self w =
  Ret self
    (mkWorld
       (<[self := started (mkPopen (List.length (procs (os w))) None)
                    (set_thread Alive (set_has_run true n))]> (heap w))
       (mkOS (procs (os w) ++
              [mkProc (command_line n) true (literal_lines (pipe_in n))
                 false None])
             (signals (os w)))).
Proof.
  intros Hn Hf Hc Hp.
  destruct (pristine_fields n Hf) as (_ & Ht & Ho & He & _).
  cbn [run].
  erewrite bind_Ret; [|apply assign_Some; exact Hn].
  erewrite bind_Ret; [|apply get_node_Some; cbn; apply lookup_insert_eq].
  cbn [concurrent set_has_run]. rewrite Hc.
  unfold _run_concurrent.
  erewrite bind_Ret.
  2:{ erewrite bind_Ret.
      2:{ unfold thread_start.
          erewrite bind_Ret;
            [|apply get_node_Some; cbn; apply lookup_insert_eq].
          cbn [thread set_has_run]. rewrite Ht.
          apply assign_Some. cbn. apply lookup_insert_eq. }
      cbn [heap os]. rewrite insert_insert_eq.
      erewrite bind_Ret.
      2:{ unfold in_thread.
          erewrite _run_front_literal with
            (n := set_thread Alive (set_has_run true n));
            [reflexivity | cbn; apply lookup_insert_eq | exact Ho
            | exact He | exact Hp]. }
      reflexivity. }
  cbn [heap os procs signals]. now rewrite insert_insert_eq.
Qed.

(** X4.  In background mode, [run()] and then [finish()] leave what a
    synchronous [run()] leaves: the process has exited, [all] and
    [stdout] are what the drainers got, [stderr] is absent, and the
    execution thread has ended. *)
Theorem background_run_then_finish fuel self n w c :
  heap w !! self = Some n ->
  pristine n = true ->
  (forall src, pipe_in n <> PNode src) ->
  exit_status (List.length (procs (os w))) = Some c ->
  exists w',
    (let* _ := __invert__ self in
     let* _ := run observe exit_status (S fuel) self in
     finish observe exit_status self) w = Ret tt w' /\
    all observe exit_status self w' =
      Ret (Some (all_bytes (observe (List.length (procs (os w)))))) w' /\
    stdout observe exit_status self w' =
      Ret (Some (stdout_bytes (observe (List.length (procs (os w)))))) w' /\
    stderr observe exit_status self w' = Ret None w' /\
    return_code self w' = Ret (Some c) w' /\
    os w' =
      mkOS (procs (os w) ++
            [mkProc (command_line n) true (literal_lines (pipe_in n))
               false (Some c)])
           (signals (os w)).
Proof.
  intros Hn Hf Hp Hx.
  set (k := List.length (procs (os w))) in *.
  unfold __invert__. rewrite bind_assoc.
  rewrite (bind_Ret _ _ _ _ _ (assign_Some _ _ _ _ Hn)).
  unfold bind at 1, ret at 1.
  erewrite bind_Ret.
  2:{ apply background_run with (n := set_concurrent true n);
        [cbn; apply lookup_insert_eq
        | destruct n; exact Hf | reflexivity | exact Hp]. }
  cbn [heap os procs signals]. rewrite insert_insert_eq. fold k.
  set (n1 := started (mkPopen k None)
               (set_thread Alive (set_has_run true (set_concurrent true n)))).
  set (n2 := drainers_done observe (mkPopen k None) c n1).
  set (n3 := set_thread Finished (finalize n2)).
  assert (Hfin : forall h o,
            h !! self = Some n1 ->
            finish observe exit_status self (mkWorld h o) =
            Ret tt (mkWorld (<[self := n3]> h)
                      (os_alter (proc_exit c) k o))).
  { intros h o Hh. unfold finish.
    erewrite bind_Ret; [|apply get_node_Some; exact Hh].
    change (is_alive (thread n1)) with true. cbv iota.
    erewrite bind_Ret.
    2:{ unfold _kill_stream_threads.
        erewrite bind_Ret; [|apply get_node_Some; exact Hh].
        change (is_alive (_stdout_thread n1) || is_alive (_stderr_thread n1))
          with true. cbv iota.
        unfold join_drainers.
        erewrite bind_Ret; [|apply get_node_Some; exact Hh].
        change (process n1) with (Some (mkPopen k None)). cbv iota.
        cbn [pid_of]. rewrite Hx.
        unfold bind at 1, get_os at 1. cbn [os].
        unfold bind at 1, put_os at 1.
        apply assign_Some. exact Hh. }
    fold n2.
    erewrite bind_Ret.
    2:{ unfold _run_back, _kill_stream_threads.
        erewrite bind_Ret.
        2:{ erewrite bind_Ret;
              [|apply get_node_Some; cbn; apply lookup_insert_eq].
            destruct (drainers_done_frame observe (mkPopen k None) c n1)
              as (_ & _ & _ & _ & _ & Ho & He & _).
            fold n2 in Ho, He. rewrite Ho, He. reflexivity. }
        apply assign_Some. cbn. apply lookup_insert_eq. }
    erewrite assign_Some by (cbn; apply lookup_insert_eq).
    cbn [heap os]. now rewrite !insert_insert_eq. }
  rewrite Hfin by apply lookup_insert_eq.
  rewrite insert_insert_eq.
  eexists. split; [reflexivity|].
  assert (Hn3 : (<[self := n3]> (heap w)) !! self = Some n3)
    by apply lookup_insert_eq.
  assert (Hran : _all n3 = Some (all_bytes (observe k)) /\
                 _stdout n3 = Some (stdout_bytes (observe k)) /\
                 _stderr n3 = None /\
                 process n3 = Some (mkPopen k (Some c))).
  { destruct (pristine_fields n Hf)
      as (Hpr & Ht & Ho & He & Hse & Hso & Hsa & Hbe & Hbo & Hba & Hqa & Hqo
          & Hqe & Hr).
    unfold n3, n2, n1, drainers_done. rewrite drain_eq.
    rewrite filter_true by (intros [[] d]; reflexivity).
    unfold finalize. cbn. rewrite Hso. cbn. rewrite Hse. cbn.
    rewrite Hbo, Hba. cbn. repeat split; assumption. }
  destruct Hran as (Ha & Ho & He & Hpr).
  split; [eapply all_set; [exact Hn3|exact Ha]|].
  split; [eapply stdout_set; [exact Hn3|exact Ho]|].
  split; [eapply stderr_unset_idle; [exact Hn3|exact He|reflexivity]|].
  split; [eapply return_code_cached; [exact Hn3|exact Hpr|reflexivity]|].
  unfold os_alter. cbn [os procs signals].
  unfold k. now rewrite alter_last.
Qed.

(** ** What a run leaves alone *)

(** X5.  A node that has run and whose execution thread is not alive is
    not touched by the [run()] of any other node, however the pipes are
    wired and however that run ends: it is never run again and none of
    its attributes changes. *)
Theorem finished_node_is_left_alone fuel r b nb w w' :
  r <> b ->
  heap w !! b = Some nb ->
  has_run nb = true ->
  is_alive (thread nb) = false ->
  world_of (run observe exit_status fuel r w) = Some w' ->
  heap w' !! b = Some nb.
Proof.
  intros Hne Hb Hr Ht E.
  exact (holds_run observe exit_status b nb Hr Ht fuel r Hne w w' Hb E).
Qed.

(** A synchronous [run()] spawns the process of the node before anything
    else can end it. *)
Lemma sync_run_spawns_own_command fuel self n w w' :
  heap w !! self = Some n ->
  concurrent n = false ->
  world_of (run observe exit_status (S fuel) self w) = Some w' ->
  spawned_as (command_line n) w' (List.length (procs (os w))).
Proof.
  intros Hn Hc E. cbn [run] in E.
  erewrite bind_Ret in E; [|apply assign_Some; exact Hn].
  erewrite bind_Ret in E;
    [|apply get_node_Some; cbn; apply lookup_insert_eq].
  cbn [concurrent set_has_run] in E. rewrite Hc in E.
  set (w1 := mkWorld (<[self := set_has_run true n]> (heap w)) (os w)) in E.
  assert (H1 : heap w1 !! self = Some (set_has_run true n))
    by apply lookup_insert_eq.
  apply bind_world_inv in E as [E|(r & w2 & E1 & E2)].
  - exact (_run_spawns observe exit_status fuel self (set_has_run true n)
             w1 w' H1 E).
  - assert (H2 : spawned_as (command_line n) w2 (List.length (procs (os w)))).
    { apply (_run_spawns observe exit_status fuel self (set_has_run true n)
               w1 w2 H1). now rewrite E1. }
    revert E2. unfold spawned_as in *.
    apply (stable_bind
             (on_os (fun o => exists p,
                       procs o !! List.length (procs (os w)) = Some p /\
                       cmd p = command_line n /\ shell p = true))).
    + apply os_stable_finish, command_invariant.
    + intros _. apply stable_ret.
    + exact H2.
Qed.

(** X6.  After a synchronous [run()] that returns, whatever the pipeline
    behind the node, the handle of the node still holds the pid [Popen]
    gave at the start of this run, which is the pid of the process
    spawned for the command line of the node; [running] is false, and
    [kill()] raises the error whose message holds this pid in decimal,
    leaving the world, the signal log included, as it was. *)
Theorem after_sync_run_not_running fuel self n w w' :
  heap w !! self = Some n ->
  concurrent n = false ->
  is_alive (thread n) = false ->
  run observe exit_status (S fuel) self w = Ret self w' ->
  spawned_as (command_line n) w' (List.length (procs (os w))) /\
  running self w' = Ret false w' /\
  pid self w' = Ret (Some (List.length (procs (os w)))) w' /\
  kill self w' =
    Exc (RuntimeError
           (String.append "Tried to kill process that doesnt exist with pid:("
              (String.append
                 (NilZero.string_of_uint
                    (Nat.to_uint (List.length (procs (os w))))) ").")))
      w'.
Proof.
  intros Hn Hc Ht Hrun.
  destruct (sync_run_leaves_own_status observe exit_status fuel self n w w'
              Hn Hc Ht Hrun) as (c & n' & _ & Hn' & Hp & _).
  set (k := List.length (procs (os w))) in *.
  assert (Hr : running self w' = Ret false w')
    by (apply running_cached with (n := n') (p := mkPopen k (Some c)) (c := c);
        auto).
  assert (Hpid : pid self w' = Ret (Some k) w')
    by (rewrite (pid_eq _ _ _ Hn'); now rewrite Hp).
  split.
  { apply (sync_run_spawns_own_command fuel self n w w' Hn Hc).
    now rewrite Hrun. }
  split; [exact Hr|]. split; [exact Hpid|].
  unfold kill. rewrite (bind_Ret _ _ _ _ _ Hr).
  now rewrite (bind_Ret _ _ _ _ _ Hpid).
Qed.

(** X7.  A node that was never called with arguments has an empty
    argument list, so [_run] spawns the empty command line under the
    shell, whatever the name of the node. *)
Theorem uncalled_node_spawns_empty_command fuel self nm w w' :
  heap w !! self = Some (__init__ nm) ->
  world_of (_run observe exit_status (run observe exit_status fuel) self w)
    = Some w' ->
  spawned_as "" w' (List.length (procs (os w))).
Proof.
  intros Hn E.
  exact (_run_spawns observe exit_status fuel self (__init__ nm) w w' Hn E).
Qed.

End Background.

(** ** The process log *)

Section RunInvariant.

Variable observe : nat -> list (stream * bytes).
Variable exit_status : nat -> option Z.
Variable J : OS -> Prop.
Hypothesis HJ : run_invariant J.

Lemma quiet_assign r f : stable (on_os J) (assign r f).
Proof.
  intros w w' H E. unfold assign in E.
  destruct (heap w !! r); [|discriminate]. cbn in E.
  now injection E as <-.
Qed.

Lemma quiet_Popen c sh : stable (on_os J) (Popen c sh).
Proof.
  intros w w' H E. rewrite Popen_eq in E. cbn in E. injection E as <-.
  apply (rinv_spawn J HJ c sh (os w) H).
Qed.

Lemma quiet_writelines p ls : stable (on_os J) (stdin_writelines p ls).
Proof.
  intros w w' H E. cbn in E. injection E as <-.
  apply (rinv_write J HJ). exact H.
Qed.

Lemma quiet_join_drainers self :
  stable (on_os J) (join_drainers observe exit_status self).
Proof.
  unfold join_drainers. apply stable_bind; [auto with stable|intros n].
  destruct (process n) as [p|]; [|apply quiet_assign].
  destruct (exit_status (pid_of p)) as [c|]; [|auto with stable].
  apply stable_bind_with; [auto with stable|].
  intros w o w1 H Eo w' E. cbn in Eo. injection Eo as <- <-.
  revert E. apply stable_bind; [|intros ?; apply quiet_assign|exact H].
  intros w1 w2 _ E. cbn in E. injection E as <-.
  apply (rinv_exit J HJ). exact H.
Qed.

#[local] Hint Resolve quiet_assign quiet_Popen quiet_writelines
  quiet_join_drainers : stable.

Lemma quiet_kill_stream_threads self :
  stable (on_os J) (_kill_stream_threads observe exit_status self).
Proof. unfold _kill_stream_threads. stable_auto. Qed.

#[local] Hint Resolve quiet_kill_stream_threads : stable.

Lemma quiet_run_back self :
  stable (on_os J) (_run_back observe exit_status self).
Proof. unfold _run_back. stable_auto. Qed.

#[local] Hint Resolve quiet_run_back : stable.

Lemma quiet_finish self : stable (on_os J) (finish observe exit_status self).
Proof. unfold finish. stable_auto. Qed.

#[local] Hint Resolve quiet_finish : stable.

Lemma quiet_stdout self : stable (on_os J) (stdout observe exit_status self).
Proof. unfold stdout. stable_auto. Qed.

Lemma quiet_stderr self : stable (on_os J) (stderr observe exit_status self).
Proof. unfold stderr. stable_auto. Qed.

Lemma quiet_all self : stable (on_os J) (all observe exit_status self).
Proof. unfold all. stable_auto. Qed.

Lemma quiet_thread_start self : stable (on_os J) (thread_start self).
Proof. unfold thread_start. stable_auto. Qed.

Lemma quiet_stdout_thread_start self :
  stable (on_os J) (_stdout_thread_start self).
Proof. unfold _stdout_thread_start. stable_auto. Qed.

Lemma quiet_stderr_thread_start self :
  stable (on_os J) (_stderr_thread_start self).
Proof. unfold _stderr_thread_start. stable_auto. Qed.

#[local] Hint Resolve quiet_stdout quiet_stderr quiet_all
  quiet_thread_start quiet_stdout_thread_start quiet_stderr_thread_start
  : stable.

Lemma quiet_run_front rr self :
  (forall r, stable (on_os J) (rr r)) ->
  stable (on_os J) (_run_front observe exit_status rr self).
Proof. intros Hrr. unfold _run_front, resolve_pipe_in. stable_auto. Qed.

Lemma quiet_in_thread self m :
  stable (on_os J) m -> stable (on_os J) (in_thread self m).
Proof.
  intros Hm w w' H E. unfold in_thread in E.
  destruct (m w) as [a w1|e w1|w1|] eqn:Em.
  - apply (Hm w w' H). now rewrite Em.
  - revert E. apply quiet_assign. apply (Hm w w1 H). now rewrite Em.
  - apply (Hm w w' H). now rewrite Em.
  - discriminate.
Qed.

Lemma quiet_run fuel : forall self,
  stable (on_os J) (run observe exit_status fuel self).
Proof.
  induction fuel as [|fuel IH]; intros self; cbn [run].
  - auto with stable.
  - pose proof (quiet_run_front (run observe exit_status fuel)) as Hf.
    unfold _run_concurrent, _run.
    repeat first
      [ apply quiet_in_thread
      | apply Hf; exact IH
      | stable_step ].
Qed.

End RunInvariant.

Lemma signals_invariant s : run_invariant (fun o => signals o = s).
Proof. split; intros; assumption. Qed.

Section ProcessLog.

Variable observe : nat -> list (stream * bytes).
Variable exit_status : nat -> option Z.

(** X9.  [run()], [finish()] and the three properties never deliver a
    signal, however they end: the signal log of the OS is as it was
    before the call. *)
Theorem run_sends_no_signal fuel self w w' :
  world_of (run observe exit_status fuel self w) = Some w' \/
  world_of (finish observe exit_status self w) = Some w' \/
  world_of (stdout observe exit_status self w) = Some w' \/
  world_of (stderr observe exit_status self w) = Some w' \/
  world_of (all observe exit_status self w) = Some w' ->
  signals (os w') = signals (os w).
Proof.
  intros E.
  assert (H0 : on_os (fun o => signals o = signals (os w)) w) by reflexivity.
  pose proof (signals_invariant (signals (os w))) as HJ.
  destruct E as [E|[E|[E|[E|E]]]].
  - now apply (quiet_run observe exit_status _ HJ fuel self w w' H0).
  - now apply (quiet_finish observe exit_status _ HJ self w w' H0).
  - now apply (quiet_stdout observe exit_status _ HJ self w w' H0).
  - now apply (quiet_stderr observe exit_status _ HJ self w w' H0).
  - now apply (quiet_all observe exit_status _ HJ self w w' H0).
Qed.

End ProcessLog.

(** ** The drainers *)

(** X10.  Each reader loop keeps the buffer of its stream equal to the
    concatenation of what it put on the queue of that stream; what the
    queue and the buffer of a stream gain are the chunks of that stream,
    in their order, however they are interleaved with the chunks of the
    other stream. *)
Theorem readers_keep_stream_buffers_and_queues n t :
  stream_buffers_match_queues n ->
  stream_buffers_match_queues (drain n t) /\
  _stdout_queue (drain n t)
    = _stdout_queue n ++ map snd (List.filter is_out t) /\
  _stderr_queue (drain n t)
    = _stderr_queue n ++ map snd (List.filter is_err t) /\
  _stdout_buffer (drain n t) = _stdout_buffer n ++ stdout_bytes t /\
  _stderr_buffer (drain n t) = _stderr_buffer n ++ stderr_bytes t.
Proof.
  intros (Ho & He). rewrite drain_eq. cbn.
  unfold stream_buffers_match_queues. cbn.
  rewrite !concat_app, <- Ho, <- He.
  repeat split.
Qed.

Lemma readers_keep_stream_buffers_and_queues_witness :
  stream_buffers_match_queues (drain (__init__ "seq") (seq_first 0)) /\
  _stdout_queue (drain (__init__ "seq") (seq_first 0))
    = [line "1"; line "2"] /\
  _stderr_buffer (drain (__init__ "seq") (seq_first 0)) = line "e".
Proof.
  destruct (readers_keep_stream_buffers_and_queues (__init__ "seq")
              (seq_first 0)) as (H & Hq & _ & _ & Hb).
  - split; reflexivity.
  - split; [exact H|]. split; [exact Hq|exact Hb].
Defined.

Lemma run_sends_no_signal_witness :
  signals (os signalled_world_ran) = [(7, SIGTERM)].
Proof.
  exact (run_sends_no_signal both_streams exits_zero 1 1 signalled_world
           signalled_world_ran (or_introl eq_refl)).
Defined.

(** ** Iterating a node to the end *)

Lemma zip_longest_nil_r a :
  zip_longest a [] = map (fun x => (Some x, None)) a.
Proof. induction a as [|x a IH]; cbn; [reflexivity|]. now rewrite IH. Qed.

Lemma stop_at_empty self n w :
  heap w !! self = Some n ->
  _stdout_queue n = [] -> _stderr_queue n = [] ->
  __next__ self w = Exc StopIteration w.
Proof.
  intros Hn Ho He. unfold __next__.
  rewrite (bind_Ret _ _ _ _ _ (get_node_Some _ _ _ Hn)).
  now rewrite Ho, He.
Qed.

Lemma next_at_item self n w :
  heap w !! self = Some n ->
  ~ (_stdout_queue n = [] /\ _stderr_queue n = []) ->
  __next__ self w =
  Ret (head (_stdout_queue n), head (_stderr_queue n))
    (mkWorld (<[self := popped n]> (heap w)) (os w)).
Proof.
  intros Hn Hne. unfold __next__.
  rewrite (bind_Ret _ _ _ _ _ (get_node_Some _ _ _ Hn)).
  pose proof (next_stream_line_eq self n w Hn) as Hs.
  destruct (_stdout_queue n) as [|x q]; [|exact Hs].
  destruct (_stderr_queue n) as [|y r]; [|exact Hs].
  now destruct Hne.
Qed.

Lemma classic_empty n :
  (_stdout_queue n = [] /\ _stderr_queue n = []) \/
  ~ (_stdout_queue n = [] /\ _stderr_queue n = []).
Proof.
  destruct (_stdout_queue n); [destruct (_stderr_queue n)|];
    [left; auto | right; intros [_ H]; discriminate
    | right; intros [H _]; discriminate].
Qed.

Lemma popped_popped_empty n :
  set_stderr_queue [] (set_stdout_queue [] (popped n))
  = set_stderr_queue [] (set_stdout_queue [] n).
Proof. now destruct n. Qed.

Lemma zip_longest_step a b :
  ~ (a = [] /\ b = []) ->
  zip_longest a b = (head a, head b) :: zip_longest (tail a) (tail b).
Proof.
  intros H. destruct a as [|x a], b as [|y b]; cbn; try reflexivity.
  now destruct H.
Qed.

Lemma zip_longest_length a b :
  List.length (zip_longest a b) = Nat.max (List.length a) (List.length b).
Proof.
  revert b. induction a as [|x a IH]; intros b; cbn.
  - now rewrite length_map.
  - destruct b as [|y b]; cbn; rewrite IH; cbn; lia.
Qed.

(** X11.  Iterating a node until [StopIteration] gives the items of the
    stdout queue paired position by position with those of the stderr
    queue, [None] standing in once the shorter queue has ended, and
    leaves both queues empty; it takes as many steps as the longer queue
    has items. *)
Theorem iterate_pairs_the_queues fuel : forall self n w,
  heap w !! self = Some n ->
  Nat.max (List.length (_stdout_queue n)) (List.length (_stderr_queue n))
    < fuel ->
  iterate fuel self w =
  Ret (zip_longest (_stdout_queue n) (_stderr_queue n))
    (mkWorld
       (<[self := set_stderr_queue [] (set_stdout_queue [] n)]> (heap w))
       (os w)) /\
  List.length (zip_longest (_stdout_queue n) (_stderr_queue n))
  = Nat.max (List.length (_stdout_queue n)) (List.length (_stderr_queue n)).
Proof.
  induction fuel as [|fuel IH]; intros self n w Hn Hlen; [lia|].
  split; [|apply zip_longest_length].
  cbn [iterate].
  destruct (classic_empty n) as [[Eo Ee]|Hne].
  - rewrite (stop_at_empty self n w Hn Eo Ee). rewrite Eo, Ee. cbn.
    f_equal.
    replace (set_stderr_queue [] (set_stdout_queue [] n)) with n
      by (destruct n; cbn in *; now subst).
    rewrite (insert_id _ _ _ Hn). now destruct w.
  - rewrite (next_at_item self n w Hn Hne).
    destruct (IH self (popped n)
                (mkWorld (<[self := popped n]> (heap w)) (os w)))
      as [Hit _].
    + cbn. apply lookup_insert_eq.
    + change (_stdout_queue (popped n)) with (tail (_stdout_queue n)).
      change (_stderr_queue (popped n)) with (tail (_stderr_queue n)).
      destruct (_stdout_queue n), (_stderr_queue n); cbn in *;
        [now destruct Hne|lia..].
    + rewrite (bind_Ret _ _ _ _ _ Hit).
      change (_stdout_queue (popped n)) with (tail (_stdout_queue n)).
      change (_stderr_queue (popped n)) with (tail (_stderr_queue n)).
      rewrite <- (zip_longest_step _ _ Hne).
      cbn [heap os]. rewrite insert_insert_eq, popped_popped_empty.
      reflexivity.
Qed.

Lemma iterate_pairs_the_queues_witness :
  iterate 3 0 uneven_world =
  Ret [(Some (line "a"), Some (line "e")); (Some (line "b"), None)]
    (mkWorld
       (<[0 := set_stderr_queue [] (set_stdout_queue [] uneven_node)]>
          (heap uneven_world)) (os uneven_world)).
Proof.
  apply (proj1 (iterate_pairs_the_queues 3 0 uneven_node uneven_world
                  eq_refl ltac:(cbn; lia))).
Defined.

(** ** A pipe source that has run *)

Section RanSource.

Variable observe : nat -> list (stream * bytes).
Variable exit_status : nat -> option Z.

Lemma read_idle a na w :
  heap w !! a = Some na -> is_alive (thread na) = false ->
  stdout observe exit_status a w = Ret (_stdout na) w /\
  stderr observe exit_status a w = Ret (_stderr na) w /\
  all observe exit_status a w = Ret (_all na) w.
Proof.
  intros Ha Ht.
  pose proof (finish_idle observe exit_status a na w Ha Ht) as Hf.
  repeat split.
  - unfold stdout. rewrite (bind_Ret _ _ _ _ _ (get_node_Some _ _ _ Ha)).
    destruct (_stdout na) eqn:E; [reflexivity|].
    rewrite (bind_Ret _ _ _ _ _ Hf).
    rewrite (bind_Ret _ _ _ _ _ (get_node_Some _ _ _ Ha)).
    unfold ret. now rewrite E.
  - unfold stderr. rewrite (bind_Ret _ _ _ _ _ (get_node_Some _ _ _ Ha)).
    destruct (_stderr na) eqn:E; [reflexivity|].
    rewrite (bind_Ret _ _ _ _ _ Hf).
    rewrite (bind_Ret _ _ _ _ _ (get_node_Some _ _ _ Ha)).
    unfold ret. now rewrite E.
  - unfold all. rewrite (bind_Ret _ _ _ _ _ (get_node_Some _ _ _ Ha)).
    destruct (_all na) eqn:E; [reflexivity|].
    rewrite (bind_Ret _ _ _ _ _ Hf).
    rewrite (bind_Ret _ _ _ _ _ (get_node_Some _ _ _ Ha)).
    unfold ret. now rewrite E.
Qed.

(** [_run_front] when the pipe source has run already: the source is
    read, not run. *)
Lemma _run_front_reads_source rr a b na nb w :
  heap w !! b = Some nb ->
  _stdout_thread nb = Unstarted -> _stderr_thread nb = Unstarted ->
  pipe_in nb = PNode a ->
  (<[b := started (mkPopen (List.length (procs (os w))) None) nb]> (heap w))
    !! a = Some na ->
  has_run na = true -> is_alive (thread na) = false ->
  _run_front observe exit_status rr b w =
  Ret tt
    (mkWorld
       (<[b := started (mkPopen (List.length (procs (os w))) None) nb]>
          (heap w))
       (mkOS (procs (os w) ++
              [mkProc (command_line nb) true
                 (lines_of (selected_buffer (pipe_in_type nb) na))
                 false None])
             (signals (os w)))).
Proof.
  intros Hb Ho He Hp Ha Hr Ht. unfold _run_front.
  rewrite (bind_Ret _ _ _ _ _ (get_node_Some _ _ _ Hb)).
  rewrite (bind_Ret _ _ _ _ _ (Popen_eq _ _ _)).
  erewrite bind_Ret; [|apply assign_Some; exact Hb].
  erewrite bind_Ret.
  2:{ unfold _stdout_thread_start.
      erewrite bind_Ret; [|apply get_node_Some; cbn; apply lookup_insert_eq].
      cbn. rewrite Ho. apply assign_Some. cbn. apply lookup_insert_eq. }
  erewrite bind_Ret.
  2:{ unfold _stderr_thread_start.
      erewrite bind_Ret; [|apply get_node_Some; cbn; apply lookup_insert_eq].
      cbn. rewrite He. apply assign_Some. cbn. apply lookup_insert_eq. }
  cbn [heap os procs signals]. rewrite !insert_insert_eq.
  fold (started (mkPopen (List.length (procs (os w))) None) nb).
  set (w3 := mkWorld _ _).
  assert (Ha3 : heap w3 !! a = Some na) by exact Ha.
  destruct (read_idle a na w3 Ha3 Ht) as (Rso & Rse & Ral).
  erewrite bind_Ret.
  2:{ unfold resolve_pipe_in. rewrite Hp.
      rewrite (bind_Ret _ _ _ _ _ (get_node_Some _ _ _ Ha3)).
      rewrite Hr. unfold bind at 1, ret at 1.
      instantiate (1 := w3).
      instantiate (1 := selected_buffer (pipe_in_type nb) na).
      destruct (pipe_in_type nb); cbn [selected_buffer];
        [exact Rso|exact Rse|exact Ral|reflexivity]. }
  unfold lines_of.
  destruct (selected_buffer (pipe_in_type nb) na) as [i|].
  - unfold stdin_writelines, bind, get_os, put_os, os_alter, w3. cbn.
    now rewrite alter_last.
  - reflexivity.
Qed.

(** X12.  A synchronous [run()] of a pristine node whose pipe source has
    run already and is not in a live background run spawns one process,
    for the node itself: the source is read, through the attribute the
    selector picks, and not run again; what the process gets on its
    stdin are the lines of that attribute, nothing if it is absent. *)
Theorem ran_source_is_read_not_run fuel a b na nb w c :
  a <> b ->
  heap w !! a = Some na -> heap w !! b = Some nb ->
  has_run na = true -> is_alive (thread na) = false ->
  pristine nb = true -> concurrent nb = false ->
  pipe_in nb = PNode a ->
  exit_status (List.length (procs (os w))) = Some c ->
  run observe exit_status (S fuel) b w =
  Ret b
    (mkWorld
       (<[b := ran observe (List.length (procs (os w))) c nb]> (heap w))
       (mkOS (procs (os w) ++
              [mkProc (command_line nb) true
                 (lines_of (selected_buffer (pipe_in_type nb) na))
                 false (Some c)])
             (signals (os w)))).
Proof.
  intros Hab Ha Hb Hr Ht Hf Hc Hp Hx.
  destruct (pristine_fields nb Hf) as (_ & _ & Ho & He & _).
  cbn [run].
  erewrite bind_Ret; [|apply assign_Some; exact Hb].
  erewrite bind_Ret; [|apply get_node_Some; cbn; apply lookup_insert_eq].
  cbn [concurrent set_has_run]. rewrite Hc. unfold _run.
  erewrite bind_Ret.
  2:{ erewrite bind_Ret.
      2:{ apply _run_front_reads_source with
            (a := a) (na := na) (nb := set_has_run true nb);
            [ cbn; apply lookup_insert_eq | exact Ho | exact He | exact Hp
            | cbn; rewrite !lookup_insert_ne by congruence; exact Ha
            | exact Hr | exact Ht ]. }
      cbn [heap os procs signals]. rewrite insert_insert_eq.
      erewrite bind_Ret.
      2:{ apply _run_back_alive with
            (n := started (mkPopen (List.length (procs (os w))) None)
                    (set_has_run true nb))
            (p := mkPopen (List.length (procs (os w))) None) (c := c);
            [cbn; apply lookup_insert_eq | reflexivity | exact Hx
            | reflexivity]. }
      reflexivity. }
  cbn [heap os procs signals]. rewrite insert_insert_eq.
  fold (ran observe (List.length (procs (os w))) c nb).
  erewrite bind_Ret.
  2:{ eapply finish_idle; [cbn; apply lookup_insert_eq|].
      destruct (ran_fields observe (List.length (procs (os w))) c nb Hf)
        as (_ & _ & _ & _ & -> & _).
      reflexivity. }
  unfold os_alter, ret. cbn [procs signals pid_of pipe_in_type set_has_run].
  now rewrite alter_last.
Qed.

(** X13.  A node bound to itself does not recurse: [run()] marks the
    node as run before it resolves the pipe source, so the source is
    read while its buffers are still absent; one process is spawned and
    nothing is written to its stdin. *)
Theorem self_pipe_runs_once fuel self n w c :
  heap w !! self = Some n ->
  pristine n = true -> concurrent n = false ->
  pipe_in n = PNode self ->
  exit_status (List.length (procs (os w))) = Some c ->
  run observe exit_status (S fuel) self w =
  Ret self
    (mkWorld
       (<[self := ran observe (List.length (procs (os w))) c n]> (heap w))
       (mkOS (procs (os w) ++
              [mkProc (command_line n) true [] false (Some c)])
             (signals (os w)))).
Proof.
  intros Hn Hf Hc Hp Hx.
  destruct (pristine_fields n Hf)
    as (_ & Hth & Ho & He & Hse & Hso & Hsa & _).
  cbn [run].
  erewrite bind_Ret; [|apply assign_Some; exact Hn].
  erewrite bind_Ret; [|apply get_node_Some; cbn; apply lookup_insert_eq].
  cbn [concurrent set_has_run]. rewrite Hc. unfold _run.
  erewrite bind_Ret.
  2:{ erewrite bind_Ret.
      2:{ apply _run_front_reads_source with
            (a := self)
            (na := started (mkPopen (List.length (procs (os w))) None)
                     (set_has_run true n))
            (nb := set_has_run true n);
            [ cbn; apply lookup_insert_eq | exact Ho | exact He | exact Hp
            | cbn; rewrite insert_insert_eq; apply lookup_insert_eq
            | reflexivity | cbn; now rewrite Hth ]. }
      cbn [heap os procs signals]. rewrite insert_insert_eq.
      erewrite bind_Ret.
      2:{ apply _run_back_alive with
            (n := started (mkPopen (List.length (procs (os w))) None)
                    (set_has_run true n))
            (p := mkPopen (List.length (procs (os w))) None) (c := c);
            [cbn; apply lookup_insert_eq | reflexivity | exact Hx
            | reflexivity]. }
      reflexivity. }
  cbn [heap os procs signals]. rewrite insert_insert_eq.
  fold (ran observe (List.length (procs (os w))) c n).
  erewrite bind_Ret.
  2:{ eapply finish_idle; [cbn; apply lookup_insert_eq|].
      destruct (ran_fields observe (List.length (procs (os w))) c n Hf)
        as (_ & _ & _ & _ & -> & _).
      reflexivity. }
  unfold os_alter, ret. cbn [procs signals pid_of pipe_in_type set_has_run].
  rewrite alter_last. cbn [proc_exit cmd shell stdin_data stdin_closed].
  replace (lines_of
             (selected_buffer (pipe_in_type n)
                (started (mkPopen (List.length (procs (os w))) None)
                   (set_has_run true n)))) with (@nil bytes);
    [reflexivity|].
  unfold lines_of, selected_buffer. cbn. rewrite Hso, Hse, Hsa.
  now destruct (pipe_in_type n).
Qed.

(** X14.  In a pipeline of two pristine nodes, [run()] on the downstream
    node spawns the downstream process first and the upstream process
    second, and returns when both have exited; the upstream node is then
    marked as run and finalized. *)
Theorem pipeline_spawns_downstream_first fuel a b na nb w ca cb :
  a <> b ->
  heap w !! a = Some na -> heap w !! b = Some nb ->
  pristine na = true -> pristine nb = true ->
  concurrent na = false -> concurrent nb = false ->
  (forall src, pipe_in na <> PNode src) ->
  pipe_in nb = PNode a ->
  exit_status (List.length (procs (os w))) = Some cb ->
  exit_status (S (List.length (procs (os w)))) = Some ca ->
  exists w' n',
    run observe exit_status (S (S fuel)) b w = Ret b w' /\
    map cmd (procs (os w'))
      = map cmd (procs (os w)) ++ [command_line nb; command_line na] /\
    map status (procs (os w'))
      = map status (procs (os w)) ++ [Some cb; Some ca] /\
    heap w' !! a = Some n' /\ has_run n' = true /\
    process n' = Some (mkPopen (S (List.length (procs (os w)))) (Some ca)).
Proof.
  intros Hab Ha Hb Hfa Hfb Hca Hcb Hpa Hpb Hxb Hxa.
  pose proof (run_pipeline observe exit_status fuel a b na nb w ca cb
                Hab Ha Hb Hfa Hfb Hca Hcb Hpa Hpb Hxb Hxa) as Hrun.
  eexists. eexists. split; [exact Hrun|]. cbn [os procs heap].
  rewrite !map_app. cbn [map cmd status].
  split; [reflexivity|]. split; [reflexivity|].
  destruct (ran_fields observe (S (List.length (procs (os w)))) ca na Hfa)
    as (_ & _ & _ & Hp & _ & Hr & _).
  split; [rewrite lookup_insert_ne by congruence; apply lookup_insert_eq|].
  split; assumption.
Qed.

End RanSource.

Lemma ran_source_is_read_not_run_witness :
  (let* _ := __or__ 0 (VNode 1) in run seq_first (fun _ => Some 3%Z) 1 1)
    pipe_world_seq_ran = Ret 1 pipe_world_then_cat /\
  map cmd (procs (os pipe_world_then_cat)) = ["seq 2"; "cat"] /\
  map stdin_data (procs (os pipe_world_then_cat))
    = [[]; [encode "1"; encode "2"]].
Proof.
  split; [|split; reflexivity].
  rewrite (bind_Ret _ _ _ 1
             (mkWorld (<[1 := set_pipe_in (PNode 0) cat_node]>
                         (heap pipe_world_seq_ran)) (os pipe_world_seq_ran)))
    by reflexivity.
  rewrite (ran_source_is_read_not_run seq_first (fun _ => Some 3%Z) 0 0 1
             (ran seq_first 0 0%Z seq_node) (set_pipe_in (PNode 0) cat_node)
             (mkWorld (<[1 := set_pipe_in (PNode 0) cat_node]>
                         (heap pipe_world_seq_ran)) (os pipe_world_seq_ran))
             3%Z ltac:(discriminate) eq_refl eq_refl eq_refl eq_refl
             eq_refl eq_refl eq_refl eq_refl).
  reflexivity.
Defined.

Lemma self_pipe_runs_once_witness :
  exists w',
    run both_streams exits_zero 1 0 loop_world = Ret 0 w' /\
    map cmd (procs (os w')) = ["cat"] /\
    map stdin_data (procs (os w')) = [[]].
Proof.
  eexists. split.
  - exact (self_pipe_runs_once both_streams exits_zero 0 0 loop_node
             loop_world 0%Z eq_refl eq_refl eq_refl eq_refl eq_refl).
  - split; reflexivity.
Defined.

Lemma pipeline_spawns_downstream_first_witness :
  exists w',
    run seq_output exits_zero 2 1 pipe_world_bound = Ret 1 w' /\
    map cmd (procs (os w')) = ["cat"; "seq 2"].
Proof.
  destruct (pipeline_spawns_downstream_first seq_output exits_zero 0 0 1
              seq_node (set_pipe_in (PNode 0) cat_node) pipe_world_bound
              0%Z 0%Z ltac:(discriminate) eq_refl eq_refl eq_refl eq_refl
              eq_refl eq_refl ltac:(intros src; discriminate) eq_refl
              eq_refl eq_refl)
    as (w' & n' & Hrun & Hc & _).
  exists w'. split; [exact Hrun|exact Hc].
Defined.

Lemma background_rerun_spawns_nothing_witness :
  run both_streams exits_zero 1 0 echo_world_background =
  Exc start_error
    (mkWorld (<[0 := set_has_run true echo_background_node]>
                (heap echo_world_background)) (os echo_world_background)).
Proof.
  exact (background_rerun_spawns_nothing both_streams exits_zero 0 0
           echo_background_node echo_world_background eq_refl eq_refl
           ltac:(discriminate)).
Defined.

Lemma background_run_then_finish_witness :
  exists w',
    (let* _ := __invert__ 0 in
     let* _ := run both_streams exits_zero 1 0 in
     finish both_streams exits_zero 0) echo_world = Ret tt w' /\
    all both_streams exits_zero 0 w' =
      Ret (Some (line "out" ++ line "oops")) w' /\
    return_code 0 w' = Ret (Some 0%Z) w'.
Proof.
  destruct (background_run_then_finish both_streams exits_zero 0 0 echo_node
              echo_world 0%Z eq_refl eq_refl
              ltac:(intros src; discriminate) eq_refl)
    as (w' & Hrun & Hall & _ & _ & Hrc & _).
  exists w'. split; [exact Hrun|]. split; [exact Hall|exact Hrc].
Defined.

Lemma finished_node_is_left_alone_witness :
  heap pipe_world_both_ran !! 0 = Some (ran seq_first 0 0%Z seq_node).
Proof.
  exact (finished_node_is_left_alone seq_first exits_zero 1 1 0
           (ran seq_first 0 0%Z seq_node) pipe_world_seq_ran
           pipe_world_both_ran ltac:(discriminate) eq_refl eq_refl eq_refl
           eq_refl).
Defined.

Lemma after_sync_run_not_running_witness :
  spawned_as "cat" pipe_world_both_ran 1 /\
  running 1 pipe_world_both_ran = Ret false pipe_world_both_ran /\
  pid 1 pipe_world_both_ran = Ret (Some 1) pipe_world_both_ran /\
  kill 1 pipe_world_both_ran =
    Exc (RuntimeError "Tried to kill process that doesnt exist with pid:(1).")
      pipe_world_both_ran.
Proof.
  exact (after_sync_run_not_running seq_first exits_zero 0 1 cat_node
           pipe_world_seq_ran pipe_world_both_ran eq_refl eq_refl eq_refl
           eq_refl).
Defined.

Lemma uncalled_node_spawns_empty_command_witness :
  spawned_as "" bare_world_started 0.
Proof.
  exact (uncalled_node_spawns_empty_command both_streams exits_zero 0 0 "ls"
           bare_world bare_world_started eq_refl eq_refl).
Defined.


(** ** The recursion of [run] ends *)

Lemma lookup_insert_is_Some' (h : gmap nat CLITool) k v x :
  is_Some (h !! x) -> is_Some (<[k := v]> h !! x).
Proof.
  intros H. destruct (decide (x = k)) as [->|Hne].
  - rewrite lookup_insert_eq. eauto.
  - rewrite lookup_insert_ne by congruence. exact H.
Qed.

Create HintDb answers.

Section Answers.

Variable observe : nat -> list (stream * bytes).
Variable exit_status : nat -> option Z.

Section Objects.

Variable h0 : gmap nat CLITool.

Lemma kept_assign r f : stable (keeps_objects h0) (assign r f).
Proof.
  intros w w' H E. unfold assign in E.
  destruct (heap w !! r); [|discriminate]. cbn in E. injection E as <-.
  intros x Hx. cbn. apply lookup_insert_is_Some'. now apply H.
Qed.

Lemma kept_Popen c sh : stable (keeps_objects h0) (Popen c sh).
Proof. intros w w' H E. rewrite Popen_eq in E. now injection E as <-. Qed.

Lemma kept_writelines p ls :
  stable (keeps_objects h0) (stdin_writelines p ls).
Proof. intros w w' H E. cbn in E. now injection E as <-. Qed.

Lemma kept_join_drainers self :
  stable (keeps_objects h0) (join_drainers observe exit_status self).
Proof.
  unfold join_drainers. apply stable_bind; [auto with stable|intros n].
  destruct (process n) as [p|]; [|apply kept_assign].
  destruct (exit_status (pid_of p)) as [c|]; [|auto with stable].
  apply stable_bind; [auto with stable|intros o].
  apply stable_bind; [|intros ?; apply kept_assign].
  intros w w' H E. cbn in E. now injection E as <-.
Qed.

#[local] Hint Resolve kept_assign kept_Popen kept_writelines
  kept_join_drainers : stable.

Lemma kept_kill_stream_threads self :
  stable (keeps_objects h0) (_kill_stream_threads observe exit_status self).
Proof. unfold _kill_stream_threads. stable_auto. Qed.

#[local] Hint Resolve kept_kill_stream_threads : stable.

Lemma kept_run_back self :
  stable (keeps_objects h0) (_run_back observe exit_status self).
Proof. unfold _run_back. stable_auto. Qed.

#[local] Hint Resolve kept_run_back : stable.

Lemma kept_finish self :
  stable (keeps_objects h0) (finish observe exit_status self).
Proof. unfold finish. stable_auto. Qed.

#[local] Hint Resolve kept_finish : stable.

Lemma kept_stdout self :
  stable (keeps_objects h0) (stdout observe exit_status self).
Proof. unfold stdout. stable_auto. Qed.

Lemma kept_stderr self :
  stable (keeps_objects h0) (stderr observe exit_status self).
Proof. unfold stderr. stable_auto. Qed.

Lemma kept_all self :
  stable (keeps_objects h0) (all observe exit_status self).
Proof. unfold all. stable_auto. Qed.

Lemma kept_thread_start self : stable (keeps_objects h0) (thread_start self).
Proof. unfold thread_start. stable_auto. Qed.

Lemma kept_stdout_thread_start self :
  stable (keeps_objects h0) (_stdout_thread_start self).
Proof. unfold _stdout_thread_start. stable_auto. Qed.

Lemma kept_stderr_thread_start self :
  stable (keeps_objects h0) (_stderr_thread_start self).
Proof. unfold _stderr_thread_start. stable_auto. Qed.

#[local] Hint Resolve kept_stdout kept_stderr kept_all kept_thread_start
  kept_stdout_thread_start kept_stderr_thread_start : stable.

Lemma kept_run_front rr self :
  (forall r, stable (keeps_objects h0) (rr r)) ->
  stable (keeps_objects h0) (_run_front observe exit_status rr self).
Proof. intros Hrr. unfold _run_front, resolve_pipe_in. stable_auto. Qed.

Lemma kept_in_thread self m :
  stable (keeps_objects h0) m -> stable (keeps_objects h0) (in_thread self m).
Proof.
  intros Hm w w' H E. unfold in_thread in E.
  destruct (m w) as [a w1|e w1|w1|] eqn:Em.
  - apply (Hm w w' H). now rewrite Em.
  - revert E. apply kept_assign. apply (Hm w w1 H). now rewrite Em.
  - apply (Hm w w' H). now rewrite Em.
  - discriminate.
Qed.

Lemma kept_run fuel : forall self,
  stable (keeps_objects h0) (run observe exit_status fuel self).
Proof.
  induction fuel as [|fuel IH]; intros self; cbn [run].
  - auto with stable.
  - pose proof (kept_run_front (run observe exit_status fuel)) as Hf.
    unfold _run_concurrent, _run.
    repeat first
      [ apply kept_in_thread
      | apply Hf; exact IH
      | stable_step ].
Qed.

(** *** Calls that find their objects *)

Lemma answers_bind {A B} (m : M A) (k : A -> M B) :
  stable (keeps_objects h0) m -> answers h0 m ->
  (forall a, answers h0 (k a)) -> answers h0 (bind m k).
Proof.
  intros Hs Hm Hk w H. unfold bind.
  destruct (m w) as [a w1|e w1|w1|] eqn:E; try discriminate.
  - apply Hk. apply (Hs w w1 H). now rewrite E.
  - intros _. now apply (Hm w H).
Qed.

Lemma answers_after {A B} (m : M A) (k : A -> M B) w :
  keeps_objects h0 w -> stable (keeps_objects h0) m -> m w <> Abort ->
  (forall a, answers h0 (k a)) -> bind m k w <> Abort.
Proof.
  intros H Hs Hm Hk. unfold bind.
  destruct (m w) as [a w1|e w1|w1|] eqn:E; try discriminate.
  - apply Hk. apply (Hs w w1 H). now rewrite E.
  - intros _. now apply Hm.
Qed.

Ltac answers_step :=
  match goal with
  | |- answers _ (bind _ _) =>
      apply answers_bind; [solve [stable_auto]| |intros ?]
  | |- answers _ (match ?x with _ => _ end) => destruct x
  | |- answers _ _ => solve [auto with answers]
  end.

Lemma answers_ret {A} (a : A) : answers h0 (ret a).
Proof. intros w _. discriminate. Qed.

Lemma answers_raise {A} e : answers h0 (@raise A e).
Proof. intros w _. discriminate. Qed.

Lemma answers_hang {A} : answers h0 (fun w => @Hang A w).
Proof. intros w _. discriminate. Qed.

Lemma answers_get_os : answers h0 get_os.
Proof. intros w _. discriminate. Qed.

Lemma answers_put_os o : answers h0 (put_os o).
Proof. intros w _. discriminate. Qed.

Lemma answers_Popen c sh : answers h0 (Popen c sh).
Proof. intros w _. rewrite Popen_eq. discriminate. Qed.

Lemma answers_writelines p ls : answers h0 (stdin_writelines p ls).
Proof. intros w _. discriminate. Qed.

Lemma answers_get_node r : is_Some (h0 !! r) -> answers h0 (get_node r).
Proof.
  intros Hr w H. unfold get_node.
  destruct (H r Hr) as [n ->]. discriminate.
Qed.

Lemma answers_assign r f : is_Some (h0 !! r) -> answers h0 (assign r f).
Proof.
  intros Hr w H. unfold assign.
  destruct (H r Hr) as [n ->]. discriminate.
Qed.

#[local] Hint Resolve answers_ret answers_raise answers_hang answers_get_os
  answers_put_os answers_Popen answers_writelines answers_get_node
  answers_assign : answers.

Lemma answers_join_drainers self :
  is_Some (h0 !! self) ->
  answers h0 (join_drainers observe exit_status self).
Proof.
  intros Hs. unfold join_drainers. apply answers_bind; [auto with stable| |].
  - auto with answers.
  - intros n. destruct (process n) as [p|]; [|auto with answers].
    destruct (exit_status (pid_of p)) as [c|]; [|auto with answers].
    apply answers_bind; [auto with stable|auto with answers|intros o].
    apply answers_bind; [|auto with answers|intros ?; auto with answers].
    intros w w' H E. cbn in E. now injection E as <-.
Qed.

#[local] Hint Resolve answers_join_drainers : answers.

Lemma answers_kill_stream_threads self :
  is_Some (h0 !! self) ->
  answers h0 (_kill_stream_threads observe exit_status self).
Proof. intros Hs. unfold _kill_stream_threads. repeat answers_step. Qed.

#[local] Hint Resolve answers_kill_stream_threads : answers.

Lemma answers_run_back self :
  is_Some (h0 !! self) -> answers h0 (_run_back observe exit_status self).
Proof. intros Hs. unfold _run_back. repeat answers_step. Qed.

#[local] Hint Resolve answers_run_back : answers.

Lemma answers_finish self :
  is_Some (h0 !! self) -> answers h0 (finish observe exit_status self).
Proof. intros Hs. unfold finish. repeat answers_step. Qed.

#[local] Hint Resolve answers_finish : answers.

Lemma answers_stdout self :
  is_Some (h0 !! self) -> answers h0 (stdout observe exit_status self).
Proof. intros Hs. unfold stdout. repeat answers_step. Qed.

Lemma answers_stderr self :
  is_Some (h0 !! self) -> answers h0 (stderr observe exit_status self).
Proof. intros Hs. unfold stderr. repeat answers_step. Qed.

Lemma answers_all self :
  is_Some (h0 !! self) -> answers h0 (all observe exit_status self).
Proof. intros Hs. unfold all. repeat answers_step. Qed.

Lemma answers_thread_start self :
  is_Some (h0 !! self) -> answers h0 (thread_start self).
Proof. intros Hs. unfold thread_start. repeat answers_step. Qed.

Lemma answers_stdout_thread_start self :
  is_Some (h0 !! self) -> answers h0 (_stdout_thread_start self).
Proof. intros Hs. unfold _stdout_thread_start. repeat answers_step. Qed.

Lemma answers_stderr_thread_start self :
  is_Some (h0 !! self) -> answers h0 (_stderr_thread_start self).
Proof. intros Hs. unfold _stderr_thread_start. repeat answers_step. Qed.

#[local] Hint Resolve answers_stdout answers_stderr answers_all
  answers_thread_start answers_stdout_thread_start
  answers_stderr_thread_start : answers.

(** *** One level of [run] *)

Section Step.

Variable rr : ref -> M ref.
Variable self : ref.
Variable n : CLITool.
Variable l : list nat.

Hypothesis Hself : h0 !! self = Some n.
Hypothesis Hclosed : forall r m src,
  h0 !! r = Some m -> pipe_in m = PNode src -> is_Some (h0 !! src).
Hypothesis Hl : forall r m,
  r <> self -> h0 !! r = Some m -> has_run m = false -> In r l.
Hypothesis Hkept : forall r, stable (keeps_objects h0) (rr r).
Hypothesis Hrr : forall src w3 l',
  is_Some (heap w3 !! src) -> closed w3 ->
  (forall r m, r <> src -> heap w3 !! r = Some m -> has_run m = false ->
               In r l') ->
  (List.length l' < List.length l)%nat ->
  rr src w3 <> Abort.

Lemma keeps_objects_insert n2 o2 :
  keeps_objects h0 (mkWorld (<[self := n2]> h0) o2).
Proof. intros x Hx. cbn. now apply lookup_insert_is_Some'. Qed.

(** The source is run in a world where it can recurse less far. *)
Lemma source_answers src s n3 o3 :
  has_run n3 = true -> pipe_in n3 = pipe_in n ->
  <[self := n3]> h0 !! src = Some s -> has_run s = false ->
  rr src (mkWorld (<[self := n3]> h0) o3) <> Abort.
Proof.
  intros Hr Hp Hs Hf.
  assert (Hne : src <> self).
  { intros ->. rewrite lookup_insert_eq in Hs. congruence. }
  rewrite lookup_insert_ne in Hs by congruence.
  apply (Hrr src _ (List.remove Nat.eq_dec src l)).
  - cbn. apply lookup_insert_is_Some'. eauto.
  - intros r m src' Hm Hsrc. cbn in *. apply lookup_insert_is_Some'.
    destruct (decide (r = self)) as [->|Hrs].
    + rewrite lookup_insert_eq in Hm. injection Hm as <-.
      rewrite Hp in Hsrc. exact (Hclosed self n src' Hself Hsrc).
    + rewrite lookup_insert_ne in Hm by congruence.
      exact (Hclosed r m src' Hm Hsrc).
  - intros r m Hrs Hm Hfm. cbn in Hm.
    assert (Hne' : r <> self).
    { intros ->. rewrite lookup_insert_eq in Hm. congruence. }
    rewrite lookup_insert_ne in Hm by congruence.
    apply in_in_remove; [exact Hrs|]. exact (Hl r m Hne' Hm Hfm).
  - apply remove_length_lt. exact (Hl src s Hne Hs Hf).
Qed.

Lemma front_answers n2 o2 :
  has_run n2 = true -> pipe_in n2 = pipe_in n ->
  _run_front observe exit_status rr self (mkWorld (<[self := n2]> h0) o2)
    <> Abort.
Proof.
  intros Hr Hp. unfold _run_front.
  rewrite (bind_Ret _ _ _ _ _
             (get_node_Some self n2 _ (lookup_insert_eq _ _ _))).
  rewrite (bind_Ret _ _ _ _ _ (Popen_eq _ _ _)).
  set (p := mkPopen _ None). set (o3 := mkOS _ _).
  rewrite (bind_Ret _ _ _ _ _
             (assign_Some self _ n2 _ (lookup_insert_eq _ _ _))).
  cbn [heap os]. rewrite insert_insert_eq.
  unfold _stdout_thread_start.
  rewrite bind_assoc.
  rewrite (bind_Ret _ _ _ _ _
             (get_node_Some self _ _ (lookup_insert_eq _ _ _))).
  cbn [_stdout_thread set_process].
  destruct (_stdout_thread n2) eqn:Eo;
    try (rewrite (bind_Exc _ _ _ start_error _ eq_refl); discriminate).
  rewrite (bind_Ret _ _ _ _ _
             (assign_Some self _ _ _ (lookup_insert_eq _ _ _))).
  cbn [heap os]. rewrite insert_insert_eq.
  unfold _stderr_thread_start.
  rewrite bind_assoc.
  rewrite (bind_Ret _ _ _ _ _
             (get_node_Some self _ _ (lookup_insert_eq _ _ _))).
  cbn [_stderr_thread set_process set_stdout_thread].
  destruct (_stderr_thread n2) eqn:Ee;
    try (rewrite (bind_Exc _ _ _ start_error _ eq_refl); discriminate).
  rewrite (bind_Ret _ _ _ _ _
             (assign_Some self _ _ _ (lookup_insert_eq _ _ _))).
  cbn [heap os]. rewrite insert_insert_eq.
  set (n3 := set_stderr_thread Alive _).
  assert (H3 : keeps_objects h0 (mkWorld (<[self := n3]> h0) o3))
    by apply keeps_objects_insert.
  unfold resolve_pipe_in. rewrite Hp.
  destruct (pipe_in n) as [| b | src] eqn:Epi.
  - discriminate.
  - discriminate.
  - assert (Hsrc : is_Some (h0 !! src)) by exact (Hclosed self n src Hself Epi).
    rewrite bind_assoc.
    destruct (lookup_insert_is_Some' h0 self n3 src Hsrc) as [s Hs].
    rewrite (bind_Ret _ _ _ _ _
               (get_node_Some src s (mkWorld (<[self := n3]> h0) o3) Hs)).
    rewrite bind_assoc.
    apply answers_after; [exact H3| | |].
    + destruct (has_run s); [auto with stable|apply Hkept].
    + destruct (has_run s) eqn:Ehs; [discriminate|].
      apply source_answers with (s := s);
        [exact Hr|rewrite Epi; exact Hp|exact Hs|exact Ehs].
    + intros _. apply answers_bind.
      * destruct (pipe_in_type n2); auto with stable.
      * destruct (pipe_in_type n2); auto with answers.
      * intros [b|]; auto with answers.
Qed.

Lemma step_answers o :
  (assign self (set_has_run true) >>
   let* m := get_node self in
   if concurrent m then
     _run_concurrent observe exit_status rr self >> ret self
   else
     _run observe exit_status rr self >>
     finish observe exit_status self >> ret self) (mkWorld h0 o) <> Abort.
Proof.
  assert (Hs : is_Some (h0 !! self)) by eauto.
  pose proof (kept_run_front rr self Hkept) as Hkf.
  rewrite (bind_Ret _ _ _ _ _ (assign_Some self _ n (mkWorld h0 o) Hself)).
  cbn [heap os].
  rewrite (bind_Ret _ _ _ _ _
             (get_node_Some self _ _ (lookup_insert_eq _ _ _))).
  cbn [concurrent set_has_run]. destruct (concurrent n).
  - unfold _run_concurrent. rewrite !bind_assoc. unfold thread_start.
    rewrite bind_assoc.
    rewrite (bind_Ret _ _ _ _ _
               (get_node_Some self _ _ (lookup_insert_eq _ _ _))).
    cbn [thread set_has_run].
    destruct (thread n) eqn:Et;
      try (rewrite (bind_Exc _ _ _ start_error _ eq_refl); discriminate).
    rewrite (bind_Ret _ _ _ _ _
               (assign_Some self _ _ _ (lookup_insert_eq _ _ _))).
    cbn [heap os]. rewrite insert_insert_eq. rewrite !bind_assoc.
    apply (answers_after
             (in_thread self (_run_front observe exit_status rr self))).
    + apply keeps_objects_insert.
    + apply kept_in_thread, Hkf.
    + pose proof (front_answers (set_thread Alive (set_has_run true n)) o
                    eq_refl eq_refl) as Hf.
      pose proof (Hkf (mkWorld (<[self := set_thread Alive
                                            (set_has_run true n)]> h0) o))
        as Hk.
      unfold in_thread.
      destruct (_run_front observe exit_status rr self _) as [a w1|e w1|w1|];
        try discriminate; [|now destruct Hf].
      apply answers_assign; [exact Hs|].
      apply (Hk w1); [apply keeps_objects_insert|reflexivity].
    + intros _. repeat answers_step.
  - unfold _run. rewrite !bind_assoc.
    apply (answers_after (_run_front observe exit_status rr self)).
    + apply keeps_objects_insert.
    + exact Hkf.
    + apply front_answers; reflexivity.
    + intros _. repeat answers_step.
Qed.

End Step.

End Objects.

Lemma run_answers_from fuel : forall self w l,
  is_Some (heap w !! self) -> closed w ->
  (forall r m, r <> self -> heap w !! r = Some m -> has_run m = false ->
               In r l) ->
  (List.length l < fuel)%nat ->
  run observe exit_status fuel self w <> Abort.
Proof.
  induction fuel as [|fuel IH]; intros self w l [n Hn] Hc Hl Hlen; [lia|].
  destruct w as [h o]. cbn in Hn. cbn [run].
  apply (step_answers h (run observe exit_status fuel) self n l Hn).
  - exact Hc.
  - exact Hl.
  - intros r. apply kept_run.
  - intros src w3 l' H1 H2 H3 H4. apply (IH src w3 l' H1 H2 H3). lia.
Qed.

(** X15.  In a heap whose pipe sources are all objects of the heap,
    [run()] gives an outcome whenever the fuel exceeds the number of nodes
    that have not run: the recursion through pipe sources sets [has_run]
    before it descends, so it visits no node twice, cycles of pipe sources
    included. *)
Theorem run_recursion_visits_each_unrun_node_once fuel self w l :
  is_Some (heap w !! self) -> closed w -> lists_unrun l w ->
  (List.length l < fuel)%nat ->
  run observe exit_status fuel self w <> Abort.
Proof.
  intros Hs Hc Hl Hlen. apply (run_answers_from fuel self w l Hs Hc); [|exact Hlen].
  intros r m _ Hm Hf. exact (Hl r m Hm Hf).
Qed.

End Answers.

Lemma run_recursion_visits_each_unrun_node_once_witness :
  run (fun _ => []) exits_zero 3 0 ring_world <> Abort.
Proof.
  apply (run_recursion_visits_each_unrun_node_once (fun _ => []) exits_zero
           3 0 ring_world [0; 1]).
  - now exists (set_pipe_in (PNode 1) seq_node).
  - intros r m src Hm Hsrc. cbn in Hm.
    apply lookup_insert_Some in Hm as [[<- <-]|[_ Hm]];
      [|apply lookup_singleton_Some in Hm as [<- <-]];
      injection Hsrc as <-; vm_compute; eauto.
  - intros r m Hm _. cbn in Hm.
    apply lookup_insert_Some in Hm as [[<- _]|[_ Hm]];
      [|apply lookup_singleton_Some in Hm as [<- _]]; cbn; auto.
  - cbn. lia.
Defined.

(** ** A command from the shell object *)

Section ShellCommand.

Variable observe : nat -> list (stream * bytes).
Variable exit_status : nat -> option Z.

(** X16.  [SHELL.name(a1, ..., an).run()] works on an object that did
    not exist before and leaves every object that did as it was: one
    process is spawned, for the name and the arguments joined with
    spaces, nothing is written to its stdin, and when it has exited
    [all] and [stdout] are what the drainers got. *)
Theorem shell_command_runs_on_new_node fuel nm a w c :
  exit_status (List.length (procs (os w))) = Some c ->
  exists r w',
    (let* r := new_CLITool nm in
     let* _ := __call__ r a in
     run observe exit_status (S fuel) r) w = Ret r w' /\
    heap w !! r = None /\
    (forall b nb, heap w !! b = Some nb -> heap w' !! b = Some nb) /\
    os w' =
      mkOS (procs (os w) ++
            [mkProc (String.concat " " (nm :: map py_str a)) true []
               false (Some c)])
           (signals (os w)) /\
    all observe exit_status r w' =
      Ret (Some (all_bytes (observe (List.length (procs (os w)))))) w' /\
    stdout observe exit_status r w' =
      Ret (Some (stdout_bytes (observe (List.length (procs (os w)))))) w'.
Proof.
  intros Hx. set (r := fresh (dom (heap w))).
  assert (Hr : heap w !! r = None).
  { apply not_elem_of_dom. apply is_fresh. }
  set (n := set_args (nm :: map py_str a) (__init__ nm)).
  set (k := List.length (procs (os w))) in *.
  exists r.
  exists (mkWorld
            (<[r := ran observe k c n]> (<[r := n]> (heap w)))
            (mkOS (procs (os w) ++
                   [mkProc (command_line n) true
                      (literal_lines (pipe_in n)) false (Some c)])
                  (signals (os w)))).
  assert (Hp : pristine n = true) by reflexivity.
  destruct (ran_fields observe k c n Hp) as (Ho & _ & Ha & _).
  split; [|split; [exact Hr|split; [|split; [reflexivity|split]]]].
  - unfold new_CLITool. fold r. unfold bind at 1.
    unfold __call__. rewrite !bind_assoc.
    rewrite (bind_Ret _ _ _ _ _
               (get_node_Some r (__init__ nm) _ (lookup_insert_eq _ _ _))).
    rewrite !bind_assoc.
    rewrite (bind_Ret _ _ _ _ _
               (assign_Some r _ (__init__ nm) _ (lookup_insert_eq _ _ _))).
    unfold bind at 1, ret at 1. cbn [heap os name __init__].
    rewrite insert_insert_eq. fold n. fold r.
    rewrite (run_single observe exit_status fuel r n
               (mkWorld (<[r := n]> (heap w)) (os w)) c
               (lookup_insert_eq _ _ _) Hp eq_refl
               ltac:(intros src; discriminate) Hx).
    reflexivity.
  - intros b nb Hb. cbn [heap].
    assert (b <> r) by congruence.
    now rewrite !lookup_insert_ne by congruence.
  - apply all_set with (n := ran observe k c n);
      [apply lookup_insert_eq|exact Ha].
  - apply stdout_set with (n := ran observe k c n);
      [apply lookup_insert_eq|exact Ho].
Qed.

End ShellCommand.

Lemma shell_command_runs_on_new_node_witness :
  exists r w',
    (let* r := new_CLITool "echo" in
     let* _ := __call__ r [AStr "hi"; AInt 3] in
     run both_streams exits_zero 1 r) echo_world = Ret r w' /\
    heap echo_world !! r = None /\
    map cmd (procs (os w')) = ["echo hi 3"].
Proof.
  destruct (shell_command_runs_on_new_node both_streams exits_zero 0 "echo"
              [AStr "hi"; AInt 3] echo_world 0%Z eq_refl)
    as (r & w' & Hrun & Hr & _ & Hos & _).
  exists r, w'. split; [exact Hrun|]. split; [exact Hr|].
  rewrite Hos. reflexivity.
Defined.
